(** * image-info-extractor: a shallow embedding of
      build/src/utils/image-info-extractor.ts

    The extractor drives a helper container through a sequence of `docker`
    invocations and turns their textual output into package records.  The
    embedding keeps the shape of the TypeScript file: one Rocq definition per
    function, in the order of the source, written in a small error-and-trace
    monad that stands for the `async`/`await` control flow.

    What surrounds the file is taken as an environment ([Env]): the docker
    CLI, the clock, the RegExp engine and JSON parser of the JavaScript
    runtime, and the helpers imported from './config'.

    Strings are sequences of 8-bit characters ([string]); the white space that
    [trim] removes is the ASCII part of JavaScript's white space.  A JavaScript
    object used as a lookup table is an association list in enumeration
    (insertion) order with unique keys; the members inherited from
    Object.prototype and the numeric-key reordering of `for ... in` are outside
    the model.  A settings object that the file copies key by key keeps, for
    each key, whether the object has it ([Member]): a key held with the value
    undefined is copied like any other. *)

From Stdlib Require Import String Ascii List Bool ZArith NArith Lia DecimalString.
Import ListNotations.
Open Scope list_scope.
Open Scope string_scope.

Set Implicit Arguments.
Set Warnings "-register-all".

(* ------------------------------------------------------------------------- *)
(** ** JavaScript string primitives used by the file *)

Module JsString.

(** `s.indexOf(needle)`: position of the first occurrence, -1 when absent. *)
Fixpoint indexOf_nat (s needle : string) : option nat :=
  if prefix needle s then Some 0
  else match s with
       | EmptyString => None
       | String _ s' => option_map S (indexOf_nat s' needle)
       end.

Definition indexOf (s needle : string) : Z :=
  match indexOf_nat s needle with
  | Some i => Z.of_nat i
  | None => (-1)%Z
  end.

Definition clamp (len x : Z) : Z := Z.max 0 (Z.min x len).

(** `s.substring(a, b)`: both indices are clamped to [0, length] and swapped
    when the first is the larger. *)
Definition substring (s : string) (a b : Z) : string :=
  let len := Z.of_nat (String.length s) in
  let a' := clamp len a in
  let b' := clamp len b in
  let lo := Z.min a' b' in
  let hi := Z.max a' b' in
  String.substring (Z.to_nat lo) (Z.to_nat (hi - lo)) s.

Definition is_ws (c : ascii) : bool :=
  let n := nat_of_ascii c in
  ((9 <=? n)%nat && (n <=? 13)%nat) || (n =? 32)%nat.

Fixpoint trimStart (s : string) : string :=
  match s with
  | EmptyString => EmptyString
  | String c s' => if is_ws c then trimStart s' else s
  end.

Fixpoint trimEnd (s : string) : string :=
  match s with
  | EmptyString => EmptyString
  | String c s' =>
      match trimEnd s' with
      | EmptyString => if is_ws c then EmptyString else String c EmptyString
      | t => String c t
      end
  end.

(** `s.trim()` *)
Definition trim (s : string) : string := trimEnd (trimStart s).

(** `s.split(sep)` for a one-character separator. *)
Fixpoint split (sep : ascii) (s : string) : list string :=
  match s with
  | EmptyString => [EmptyString]
  | String c s' =>
      if Ascii.eqb c sep then EmptyString :: split sep s'
      else match split sep s' with
           | h :: t => String c h :: t
           | [] => [String c EmptyString]
           end
  end.

(** `s.replace(/c/g, r)` for a pattern that is one literal character. *)
Fixpoint replaceAllChar (c : ascii) (r : string) (s : string) : string :=
  match s with
  | EmptyString => EmptyString
  | String d s' =>
      if Ascii.eqb d c then r ++ replaceAllChar c r s'
      else String d (replaceAllChar c r s')
  end.

Fixpoint drop (n : nat) (s : string) : string :=
  match n, s with
  | O, _ => s
  | S n', String _ s' => drop n' s'
  | S _, EmptyString => EmptyString
  end.

(** `s.replace(pat, r)` for a string pattern: the first occurrence only.
    (The `$`-patterns of the replacement text are not interpreted.) *)
Fixpoint replaceFirst (pat r : string) (s : string) : string :=
  if prefix pat s then r ++ drop (String.length pat) s
  else match s with
       | EmptyString => EmptyString
       | String c s' => String c (replaceFirst pat r s')
       end.

(** Number of occurrences of a character. *)
Fixpoint count (c : ascii) (s : string) : nat :=
  match s with
  | EmptyString => 0
  | String d s' => (if Ascii.eqb d c then 1 else 0) + count c s'
  end.

(** JavaScript truthiness of a string value. *)
Definition truthy (s : string) : bool := negb (String.eqb s "").

(** Truthiness of `string | undefined | null`. *)
Definition truthy_opt (o : option string) : bool :=
  match o with Some s => truthy s | None => false end.

(** Decimal rendering of a non-negative integer in a template literal. *)
Definition of_N (n : N) : string := NilEmpty.string_of_uint (N.to_uint n).

End JsString.

(* ------------------------------------------------------------------------- *)
(** ** Objects used as lookup tables *)

Module Lookup.
Section Defs.
Variable V : Type.

Definition t := list (string * V).

(** `obj[key]` *)
Fixpoint get (o : t) (k : string) : option V :=
  match o with
  | [] => None
  | (k', v) :: o' => if String.eqb k' k then Some v else get o' k
  end.

(** `obj[key] = v`: an existing key keeps its place, a new key goes last. *)
Fixpoint set (o : t) (k : string) (v : V) : t :=
  match o with
  | [] => [(k, v)]
  | (k', v') :: o' =>
      if String.eqb k' k then (k', v) :: o' else (k', v') :: set o' k v
  end.

(** `for (let k in src) { dst[k] = src[k]; }` *)
Definition assignAll (dst src : t) : t :=
  fold_left (fun acc kv => set acc (fst kv) (snd kv)) src dst.

Definition keys (o : t) : list string := map fst o.
End Defs.
End Lookup.

(* ------------------------------------------------------------------------- *)
(** ** Errors, events and the extraction monad *)

(** Values that the code throws or that reach it as a rejected promise. *)
Inductive JsError : Type :=
| Error (message : string)
| TypeError (message : string)
| SyntaxError (message : string)
| SpawnRejection (code : Z) (result : string).

Inductive Result (A : Type) : Type :=
| Ok (a : A)
| Err (e : JsError).
Arguments Ok {A} a.
Arguments Err {A} e.

Inductive Stdio : Type := pipe | inherit.

(** What a run leaves behind: the processes it spawned and the lines it wrote
    with `console.log`. *)
Inductive Event : Type :=
| Spawn (command : string) (args : list string) (stdio : Stdio)
| Log (line : string).

(** How a spawned process ended. *)
Record ProcResult : Type := { exitCode : Z; output : string }.

(** The result of `new RegExp(pattern, flags).exec(input)`: the constructor may
    throw, `exec` returns null or the array of the match and its groups (a
    group that took no part is undefined). *)
Inductive ExecResult : Type :=
| ReSyntaxError
| ReNull
| ReMatch (groups : list (option string)).

Definition LF : ascii := ascii_of_nat 10.
Definition DQ : ascii := ascii_of_nat 34.
Definition str (c : ascii) : string := String c EmptyString.

(** `arr[i]` on the array returned by `exec`. *)
Definition group (groups : list (option string)) (i : nat) : option string :=
  match nth_error groups i with
  | Some g => g
  | None => None
  end.

(* ------------------------------------------------------------------------- *)
(** ** Data model (the interfaces at the head of the source file) *)

Record PackageInfo : Type := {
  name : string;
  version : option string;
  url : option string;
  path : option string;
  annotation : option string;
  poolUrl : option string;
  poolKeyUrl : option string;
  commitHash : option string;
  cgIgnore : option bool;
  markdownIgnore : option bool
}.

(** The object literal `{ name: n, version: v }`. *)
Definition nameVersion (n : string) (v : option string) : PackageInfo :=
  {| name := n; version := v; url := None; path := None; annotation := None;
     poolUrl := None; poolKeyUrl := None; commitHash := None;
     cgIgnore := None; markdownIgnore := None |}.

Record ImageInfo : Type := {
  image_name : string;
  image_digest : option string;
  image_user : string
}.

(** `DistroInfo extends Lookup<string | undefined>` *)
Definition DistroInfo : Type := Lookup.t string.

(** '../domain/definition': the fields of the settings types that this file
    reads. *)
Record DependencyInfoExtractionSettings : Type := {
  dep_name : string;
  dep_annotation : option string;
  dep_cgIgnore : option bool;
  dep_markdownIgnore : option bool
}.

(** `{ name: current }` *)
Definition settingsOfName (n : string) : DependencyInfoExtractionSettings :=
  {| dep_name := n; dep_annotation := None; dep_cgIgnore := None;
     dep_markdownIgnore := None |}.

(** `{}` read as extraction settings: every field is undefined. *)
Definition emptySettings : DependencyInfoExtractionSettings := settingsOfName "".

(** An element of `Array<string | DependencyInfoExtractionSettings>`. *)
Inductive PackageRequest : Type :=
| ByName (n : string)
| BySettings (d : DependencyInfoExtractionSettings).

Definition requestName (r : PackageRequest) : string :=
  match r with
  | ByName n => n
  | BySettings d => dep_name d
  end.

(** A member of a settings object that the file enumerates with `for ... in`:
    [None] is a key the object does not have, [Some None] a key it has with
    the value undefined (or null), [Some (Some v)] a key with the value v. *)
Definition Member (T : Type) : Type := option (option T).

(** `object.key`: a key the object lacks reads as undefined. *)
Definition member {T} (m : Member T) : option T :=
  match m with
  | Some v => v
  | None => None
  end.

Record OtherDependencyInfoExtractionSettings : Type := {
  versionCommand : Member string;
  downloadUrl : Member string;
  other_path : Member string;
  other_annotation : Member string;
  other_cgIgnore : Member bool;
  other_markdownIgnore : Member bool
}.

Record LinuxPackageInfoExtractorParams : Type := {
  listCommand : string;
  getUriCommand : string;
  lineRegEx : string;
  poolUriMatchRegEx : string
}.

(** The tree printed by `npm ls --json`, after `JSON.parse`. *)
Inductive NpmPackage : Type :=
| NpmNode (pkg_version : option string)
          (pkg_dependencies : option (list (string * NpmPackage))).

Definition npm_version (p : NpmPackage) : option string :=
  match p with NpmNode v _ => v end.

Definition npm_deps (p : NpmPackage) : option (Lookup.t NpmPackage) :=
  match p with NpmNode _ d => d end.

Record NpmOutput : Type := {
  npm_dependencies : option (Lookup.t NpmPackage)
}.

(** One element of the array printed by `pip list --format json`. *)
Record PipEntry : Type := { pip_name : string; pip_version : option string }.

Section Model.

(** `CgComponent` of '../domain/definition' is passed through untouched. *)
Variable CgComponent : Type.

(** `DependencyInfoExtractionSettingsGroup`: a missing member is [None].  The
    Linux lists are members named after a distro id or a package manager and
    read by computed name. *)
Record DependencyInfoExtractionSettingsGroup : Type := {
  deps_linux : string -> option (list PackageRequest);
  deps_npm : option (list string);
  deps_pip : option (list string);
  deps_pipx : option (list string);
  deps_gem : option (list string);
  deps_cargo : option (Lookup.t (option string));
  deps_go : option (Lookup.t (option string));
  deps_git : option (Lookup.t (option string));
  deps_other : option (Lookup.t (option OtherDependencyInfoExtractionSettings));
  deps_languages : option (Lookup.t (option OtherDependencyInfoExtractionSettings));
  deps_manual : list CgComponent
}.

Record ExtractedInfo : Type := {
  image : ImageInfo;
  distro : DistroInfo;
  linux : list PackageInfo;
  npm : list PackageInfo;
  pip : list PackageInfo;
  pipx : list PackageInfo;
  gem : list PackageInfo;
  cargo : list PackageInfo;
  go : list PackageInfo;
  git : list PackageInfo;
  other : list PackageInfo;
  languages : list PackageInfo;
  manual : list CgComponent
}.

(** ** The environment of the file

    [docker] is the container runtime: how the process spawned with the given
    command line ends, which may depend on all that happened before.
    [RegExp_exec] and the two [JSON_parse] fields are the JavaScript runtime
    ([JSON_parse_npm] and [JSON_parse_pip] are `JSON.parse` read at the two
    shapes the file expects; [None] is a thrown SyntaxError).  The others are
    the imports from './config', which is not part of the sources at hand;
    `getDefaultDependencies(key)` is untyped there and is read here at the
    type each call site expects. *)
Record Env : Type := {
  docker : list Event -> string -> list string -> Stdio -> ProcResult;
  Date_now : N;
  RegExp_exec : string -> string -> string -> ExecResult;
  JSON_parse_npm : string -> option NpmOutput;
  JSON_parse_pip : string -> option (list PipEntry);
  getFallbackPoolUrl : string -> option string;
  getPoolKeyForPoolUrl : string -> option string;
  snakeCaseToCamelCase : string -> string;
  getDefaultDependencies_packages : string -> option (list PackageRequest);
  getDefaultDependencies_names : string -> option (list string);
  getDefaultDependencies_commands : string -> option (Lookup.t (option string));
  getDefaultDependencies_other :
    string -> option (Lookup.t (option OtherDependencyInfoExtractionSettings));
  getConfig_otherDependencyDefaultSettings :
    option (Lookup.t OtherDependencyInfoExtractionSettings);
  getLinuxPackageManagerForDistro : option string -> string;
  getPackageInfoExtractorParams : string -> LinuxPackageInfoExtractorParams
}.

Variable env : Env.

(** ** The monad: a computation reads the events so far and answers with a
    value or a thrown error, and with the events it added. *)
Definition M (A : Type) : Type := list Event -> Result A * list Event.

Definition ret {A} (a : A) : M A := fun _ => (Ok a, []).

Definition throw {A} (e : JsError) : M A := fun _ => (Err e, []).

Definition bind {A B} (m : M A) (f : A -> M B) : M B :=
  fun h =>
    match m h with
    | (Ok a, ev) => let (r, ev') := f a (h ++ ev)%list in (r, (ev ++ ev')%list)
    | (Err e, ev) => (Err e, ev)
    end.

(** `try { m } catch (e) { handler(e) }` *)
Definition try_catch {A} (m : M A) (handler : JsError -> M A) : M A :=
  fun h =>
    match m h with
    | (Ok a, ev) => (Ok a, ev)
    | (Err e, ev) =>
        let (r, ev') := handler e (h ++ ev)%list in (r, (ev ++ ev')%list)
    end.

(** `console.log(line)` *)
Definition console_log (line : string) : M unit := fun _ => (Ok tt, [Log line]).

(** A value that is already a [Result] (a pure step that may throw). *)
Definition lift {A} (r : Result A) : M A := fun _ => (r, []).

Notation "x <- m ;; k" := (bind m (fun x => k))
  (at level 61, m at next level, right associativity).
Notation "m ;;; k" := (bind m (fun _ => k))
  (at level 61, right associativity).

(** `for (const x of xs) { acc = await step(acc, x); }` *)
Fixpoint foldM {A B} (step : B -> A -> M B) (xs : list A) (acc : B) : M B :=
  match xs with
  | [] => ret acc
  | x :: xs' => acc' <- step acc x ;; foldM step xs' acc'
  end.

(** `xs.map(f)` with a callback that may throw. *)
Fixpoint mapM {A B} (f : A -> M B) (xs : list A) : M (list B) :=
  match xs with
  | [] => ret []
  | x :: xs' => y <- f x ;; ys <- mapM f xs' ;; ret (y :: ys)
  end.

(** Modelled from the spec: `asyncUtils.spawn` of './async', which is not part
    of the sources at hand.  It runs the command to completion and resolves
    with the captured output; a process that "exits non-zero" makes it fail,
    and the failure carries the output (the `err.result` that [getImageInfo]
    reads). *)
Definition asyncUtils_spawn (command : string) (args : list string)
    (stdio : Stdio) : M string :=
  fun h =>
    let p := docker env h command args stdio in
    (if (exitCode p =? 0)%Z then Ok (output p)
     else Err (SpawnRejection (exitCode p) (output p)),
     [Spawn command args stdio]).

(* ------------------------------------------------------------------------- *)
(** ** Command runner and container lifecycle (source lines 582-614) *)

Definition isContainerName (imageTagOrContainerName : string) : bool :=
  (JsString.indexOf imageTagOrContainerName "vscdc--extract--" =? 0)%Z.

Definition wrapCommand (command : string) : string :=
  "bash -c " ++ str DQ ++ "set -e && echo ~~~BEGIN~~~ && " ++ command
  ++ " && echo && echo ~~~END~~~" ++ str DQ.

Definition runArgs (imageTagOrContainerName command : string)
    (forceRoot : bool) : list string :=
  (((if isContainerName imageTagOrContainerName
     then ["exec"] ++ (if forceRoot then ["-u"; "root"] else [])
     else ["run"; "--init"; "--privileged"; "--rm"]
            ++ (if forceRoot then ["-u"; "root"] else []))
      ++ [imageTagOrContainerName]) ++ [wrapCommand command])%list.

(** The text between the sentinels, as the source cuts it out. *)
Definition filterResult (result : string) : string :=
  JsString.trim
    (JsString.substring result
       (JsString.indexOf result "~~~BEGIN~~~" + 11)
       (JsString.indexOf result "~~~END~~~")).

Definition getCommandOutputFromContainer (imageTagOrContainerName command : string)
    (forceRoot : bool) : M string :=
  result <- asyncUtils_spawn "docker"
              (runArgs imageTagOrContainerName command forceRoot) pipe ;;
  ret (filterResult result).

Definition startContainerForProcessing (imageTag : string) : M string :=
  let containerName := "vscdc--extract--" ++ JsString.of_N (Date_now env) in
  asyncUtils_spawn "docker"
    ["run"; "-d"; "--rm"; "--init"; "--privileged"; "--name"; containerName;
     imageTag; "sh -c " ++ str DQ ++ "while sleep 1000; do :; done" ++ str DQ]
    inherit ;;;
  ret containerName.

Definition removeProcessingContainer (containerName : string) : M unit :=
  asyncUtils_spawn "docker" ["rm"; "-f"; containerName] inherit ;;;
  ret tt.

(** A property name computed from a value that may be undefined. *)
Definition propertyKey (o : option string) : string :=
  match o with Some s => s | None => "undefined" end.

(** `x || []` and the default value `= []` of a parameter. *)
Definition orEmpty {A} (o : option (list A)) : list A :=
  match o with Some l => l | None => [] end.

(** An object is truthy, also when it has no property at all. *)
Definition isFalsyObject {V} (o : Lookup.t V) : bool := false.

(** The shared opening of the extractors that take a name-to-value object:
    `const merged = defaults; for (let k in requested) merged[k] = requested[k];`
    when there are defaults, the request itself otherwise.  (The source
    assigns into the very object that `getDefaultDependencies` returned;
    whether a later call sees those assignments is up to './config' and is
    not part of the model, which reads the defaults afresh at each call.) *)
Definition mergeDefaults {V} (defaults : option (Lookup.t V))
    (requested : Lookup.t V) : Lookup.t V :=
  match defaults with
  | Some merged => Lookup.assignAll merged requested
  | None => requested
  end.

(* ------------------------------------------------------------------------- *)
(** ** getLinuxDistroInfo (source lines 86-98) *)

(** The body of the `forEach` callback. *)
Definition distroInfoLine (info : DistroInfo) (infoLine : string) : DistroInfo :=
  match JsString.split "=" infoLine with
  | [key; value] =>
      let propName := snakeCaseToCamelCase env (JsString.trim key) in
      Lookup.set info propName
        (JsString.trim (JsString.replaceAllChar DQ "" value))
  | _ => info
  end.

Definition parseOsRelease (osInfoCommandOutput : string) : DistroInfo :=
  fold_left distroInfoLine (JsString.split LF osInfoCommandOutput) [].

Definition getLinuxDistroInfo (imageTagOrContainerName : string) : M DistroInfo :=
  osInfoCommandOutput <-
    getCommandOutputFromContainer imageTagOrContainerName "cat /etc/os-release" true ;;
  ret (parseOsRelease osInfoCommandOutput).

(* ------------------------------------------------------------------------- *)
(** ** getLinuxPackageInfo (source lines 111-212) *)

Definition sanitizedPackage (packageName : string) : string :=
  JsString.replaceAllChar "." "\."
    (JsString.replaceAllChar "+" "\+" packageName).

Definition sanitizedVersion (version : string) : string :=
  JsString.replaceAllChar ":" "%3a"
    (JsString.replaceAllChar "." "\."
       (JsString.replaceAllChar "+" "\+" version)).

Definition poolUriPattern (config : LinuxPackageInfoExtractorParams)
    (packageName version : string) : string :=
  JsString.replaceFirst "${VERSION}" (sanitizedVersion version)
    (JsString.replaceFirst "${PACKAGE}" (sanitizedPackage packageName)
       (poolUriMatchRegEx config)).

Definition getPoolUrlFromPackageVersionListOutput (packageUriCommandOutput : string)
    (config : LinuxPackageInfoExtractorParams) (packageName version : string)
    : M (option string) :=
  match RegExp_exec env (poolUriPattern config packageName version) "m"
          packageUriCommandOutput with
  | ReSyntaxError => throw (SyntaxError "Invalid regular expression")
  | ReNull =>
      let fallbackPoolUrl := getFallbackPoolUrl env packageName in
      if JsString.truthy_opt fallbackPoolUrl then ret fallbackPoolUrl
      else
        console_log ("(!) No URI found for " ++ packageName ++ " " ++ version ++ ".") ;;;
        ret None
  | ReMatch uriCaptureGroup => ret (group uriCaptureGroup 1)
  end.

(** The settings object built by the first `reduce`. *)
Definition settingsOf (packageList : list PackageRequest)
    : Lookup.t DependencyInfoExtractionSettings :=
  fold_left
    (fun obj current =>
       match current with
       | ByName n => Lookup.set obj n (settingsOfName n)
       | BySettings d => Lookup.set obj (dep_name d) d
       end)
    packageList [].

Definition packageListCommandPart (packageList : list PackageRequest) : string :=
  fold_left (fun prev current => prev ++ " " ++ requestName current) packageList "".

(** `typeof s.cgIgnore === 'undefined' ? true : s.cgIgnore` *)
Definition cgIgnoreOf (extractionSettings : DependencyInfoExtractionSettings) : bool :=
  match dep_cgIgnore extractionSettings with
  | None => true
  | Some b => b
  end.

(** The body of the `forEach` callback over the lines of the version list:
    the list of records so far, extended or not. *)
Definition linuxPackageLine
    (settings : Lookup.t DependencyInfoExtractionSettings)
    (params : LinuxPackageInfoExtractorParams)
    (packageUriCommandOutput : string)
    (packageInfoList : list PackageInfo) (line : string)
    : M (list PackageInfo) :=
  let packageVersion := JsString.trim line in
  if String.eqb packageVersion "" then ret packageInfoList
  else
    match RegExp_exec env (lineRegEx params) "" packageVersion with
    | ReSyntaxError => throw (SyntaxError "Invalid regular expression")
    | ReNull =>
        (if String.eqb packageVersion "Some packages were not found."
         then console_log "(!) Warning: Some specified packages were not found."
         else console_log ("(!) Warning: Unable to parse output " ++ str DQ
                           ++ packageVersion ++ str DQ ++ " - skipping.")) ;;;
        ret packageInfoList
    | ReMatch versionCaptureGroup =>
        match group versionCaptureGroup 1, group versionCaptureGroup 2 with
        | Some packageName, Some version =>
            let extractionSettings :=
              match Lookup.get settings packageName with
              | Some s => s
              | None => emptySettings
              end in
            let cgIgnore := cgIgnoreOf extractionSettings in
            poolUrl <- getPoolUrlFromPackageVersionListOutput
                         packageUriCommandOutput params packageName version ;;
            let poolKey :=
              match poolUrl with
              | Some u => if JsString.truthy u then getPoolKeyForPoolUrl env u else None
              | None => None
              end in
            if negb (JsString.truthy_opt poolUrl) && negb cgIgnore
            then throw (Error "(!) No pool URL found to register package!")
            else ret (packageInfoList ++
                      [ {| name := packageName;
                           version := Some version;
                           url := None; path := None;
                           annotation := dep_annotation extractionSettings;
                           poolUrl := poolUrl;
                           poolKeyUrl := poolKey;
                           commitHash := None;
                           cgIgnore := Some cgIgnore;
                           markdownIgnore := dep_markdownIgnore extractionSettings |} ])%list
        | _, _ =>
            (* `.replace` is called on an undefined name or version *)
            throw (TypeError "Cannot read properties of undefined (reading 'replace')")
        end
    end.

(** [linuxDistroInfo] is an object when it gets here (its `id` is read on the
    first line), so the source's `if (!linuxDistroInfo)` re-read of the distro
    is never taken. *)
Definition getLinuxPackageInfo (imageTagOrContainerName : string)
    (packageList : list PackageRequest) (linuxDistroInfo : DistroInfo)
    : M (list PackageInfo) :=
  let packageManager :=
    getLinuxPackageManagerForDistro env (Lookup.get linuxDistroInfo "id") in
  let defaultPackages := orEmpty (getDefaultDependencies_packages env packageManager) in
  let packageList := (defaultPackages ++ packageList)%list in
  if (List.length packageList =? 0)%nat then ret []
  else
    let settings := settingsOf packageList in
    let part := packageListCommandPart packageList in
    let params := getPackageInfoExtractorParams env packageManager in
    console_log "(*) Gathering information about Linux package versions..." ;;;
    packageVersionListOutput <-
      getCommandOutputFromContainer imageTagOrContainerName
        (listCommand params ++ part ++ " || echo 'Some packages were not found.'") true ;;
    console_log "(*) Gathering information about Linux package download URLs..." ;;;
    packageUriCommandOutput <-
      getCommandOutputFromContainer imageTagOrContainerName
        (getUriCommand params ++ part ++ " || echo 'Some packages were not found.'") true ;;
    foldM (linuxPackageLine settings params packageUriCommandOutput)
      (JsString.split LF packageVersionListOutput) [].

(* ------------------------------------------------------------------------- *)
(** ** getNpmGlobalPackageInfo (source lines 220-259) *)

(** The `for ... in` loop of the callback: the value left in `packageJson`. *)
Fixpoint npmNestedLookup (topLevel : Lookup.t NpmPackage) (packageName : string)
    : option NpmPackage :=
  match topLevel with
  | [] => None
  | (_, inNpmOutput) :: rest =>
      match npm_deps inNpmOutput with
      | Some packageDependencies =>
          match Lookup.get packageDependencies packageName with
          | Some packageJson => Some packageJson
          | None => npmNestedLookup rest packageName
          end
      | None => npmNestedLookup rest packageName
      end
  end.

Definition npmPackageJson (topLevel : Lookup.t NpmPackage) (packageName : string)
    : option NpmPackage :=
  match Lookup.get topLevel packageName with
  | Some packageJson => Some packageJson
  | None => npmNestedLookup topLevel packageName
  end.

(** The callback of `packageNameList.map`. *)
Definition npmPackageInfo (npmOutput : NpmOutput) (npmOutputRaw : string)
    (packageName : string) : Result PackageInfo :=
  match npm_dependencies npmOutput with
  | None => Err (TypeError "Cannot read properties of undefined")
  | Some topLevel =>
      match npmPackageJson topLevel packageName with
      | Some packageJson =>
          if JsString.truthy_opt (npm_version packageJson)
          then Ok (nameVersion packageName (npm_version packageJson))
          else Err (Error ("Unable to parse version for " ++ packageName
                           ++ " from npm ls output: " ++ npmOutputRaw))
      | None => Err (Error ("Unable to parse version for " ++ packageName
                            ++ " from npm ls output: " ++ npmOutputRaw))
      end
  end.

Definition getNpmGlobalPackageInfo (imageTagOrContainerName : string)
    (packageNameList : option (list string)) : M (list PackageInfo) :=
  let packageNameList := orEmpty packageNameList in
  let defaultPackages := orEmpty (getDefaultDependencies_names env "npm") in
  let packageNameList := (defaultPackages ++ packageNameList)%list in
  if (List.length packageNameList =? 0)%nat then ret []
  else
    console_log "(*) Gathering information about globally installed npm packages..." ;;;
    let packageListString :=
      fold_left (fun prev current => prev ++ " " ++ current) packageNameList "" in
    npmOutputRaw <-
      getCommandOutputFromContainer imageTagOrContainerName
        ("bash -l -c 'set -e && npm ls --global --depth 1 --json "
         ++ packageListString ++ "' 2>/dev/null") false ;;
    match JSON_parse_npm env npmOutputRaw with
    | None => throw (SyntaxError "Unexpected token in JSON")
    | Some npmOutput =>
        mapM (fun packageName => lift (npmPackageInfo npmOutput npmOutputRaw packageName))
          packageNameList
    end.

(* ------------------------------------------------------------------------- *)
(** ** getPipPackageInfo and its two version lookups (source lines 268-313) *)

Definition getPipVersionLookup (imageTagOrContainerName : string)
    : M (Lookup.t (option string)) :=
  packageVersionListOutput <-
    getCommandOutputFromContainer imageTagOrContainerName "pip list --format json" false ;;
  match JSON_parse_pip env packageVersionListOutput with
  | None => throw (SyntaxError "Unexpected token in JSON")
  | Some packageVersionList =>
      ret (fold_left
             (fun prev current => Lookup.set prev (pip_name current) (pip_version current))
             packageVersionList [])
  end.

(** The `reduce` callback of the pipx listing; `exec` throws nothing here in
    the source's terms only if the engine accepts the fixed pattern, so a
    rejected pattern is kept as an error. *)
Definition pipxLine (prev : Lookup.t (option string)) (current : string)
    : Result (Lookup.t (option string)) :=
  match RegExp_exec env "package\s(.+)\s(.+)," "" current with
  | ReSyntaxError => Err (SyntaxError "Invalid regular expression")
  | ReNull => Ok prev
  | ReMatch versionCaptureGroup =>
      Ok (Lookup.set prev (propertyKey (group versionCaptureGroup 1))
            (group versionCaptureGroup 2))
  end.

Definition getPipxVersionLookup (imageTagOrContainerName : string)
    : M (Lookup.t (option string)) :=
  packageVersionListOutput <-
    getCommandOutputFromContainer imageTagOrContainerName "pipx list" false ;;
  foldM (fun prev current => lift (pipxLine prev current))
    (JsString.split LF packageVersionListOutput) [].

(** `versionLookup[packageName]` *)
Definition lookupVersion (versionLookup : Lookup.t (option string))
    (packageName : string) : option string :=
  match Lookup.get versionLookup packageName with
  | Some v => v
  | None => None
  end.

Definition getPipPackageInfo (imageTagOrContainerName : string)
    (packageNameList : option (list string)) (usePipx : bool)
    : M (list PackageInfo) :=
  let packageNameList := orEmpty packageNameList in
  let defaultPackages :=
    orEmpty (getDefaultDependencies_names env (if usePipx then "pipx" else "pip")) in
  let packageNameList := (defaultPackages ++ packageNameList)%list in
  if (List.length packageNameList =? 0)%nat then ret []
  else
    console_log "(*) Gathering information about pip packages..." ;;;
    versionLookup <-
      (if usePipx then getPipxVersionLookup imageTagOrContainerName
       else getPipVersionLookup imageTagOrContainerName) ;;
    ret (map (fun packageName =>
                nameVersion packageName (lookupVersion versionLookup packageName))
           packageNameList).

(* ------------------------------------------------------------------------- *)
(** ** getGitRepositoryInfo (source lines 323-359) *)

Definition gitCommand (repoPath : string) : string :=
  "cd \" ++ str DQ ++ repoPath ++ "\" ++ str DQ ++ " && if [ -f \" ++ str DQ
  ++ ".git-remote-and-commit\" ++ str DQ
  ++ " ]; then cat .git-remote-and-commit; else git remote get-url origin && git log -n 1 --pretty=format:%H -- . | tee /dev/null; fi".

Definition gitRepository (imageTagOrContainerName : string)
    (packageInfoList : list PackageInfo) (entry : string * option string)
    : M (list PackageInfo) :=
  let (repoName, repoPathValue) := entry in
  match repoPathValue with
  | Some repoPath =>
      console_log ("(*) Getting remote and commit for " ++ repoName ++ " at "
                   ++ repoPath ++ "...") ;;;
      remoteAndCommitOutput <-
        getCommandOutputFromContainer imageTagOrContainerName (gitCommand repoPath) true ;;
      let parts := JsString.split LF remoteAndCommitOutput in
      let gitRemote := nth_error parts 0 in
      let gitCommit := nth_error parts 1 in
      if negb (JsString.truthy_opt gitRemote) || negb (JsString.truthy_opt gitCommit)
      then throw (Error ("Unable to determine git remote or commit for " ++ repoName ++ "."))
      else ret (packageInfoList ++
                [ {| name := repoName; version := None;
                     url := gitRemote; path := Some repoPath;
                     annotation := None; poolUrl := None; poolKeyUrl := None;
                     commitHash := gitCommit;
                     cgIgnore := None; markdownIgnore := None |} ])%list
  | None => ret packageInfoList
  end.

Definition getGitRepositoryInfo (imageTagOrContainerName : string)
    (gitRepos : option (Lookup.t (option string))) : M (list PackageInfo) :=
  let gitRepos := orEmpty gitRepos in
  let gitRepos := mergeDefaults (getDefaultDependencies_commands env "git") gitRepos in
  if isFalsyObject gitRepos then ret []
  else foldM (gitRepository imageTagOrContainerName) gitRepos [].

(* ------------------------------------------------------------------------- *)
(** ** getOtherDependencyInfo and mergeOtherDefaultSettings
       (source lines 368-426) *)

(** `merged[settingName] = dependency[settingName]` for a key that
    `dependency` has, whatever its value; a key it lacks keeps the value
    copied by `Object.assign({}, defaults)`. *)
Definition orElse {A} (a b : option A) : option A :=
  match a with Some _ => a | None => b end.

Definition mergeOtherDefaultSettings (otherName : string)
    (dependency : option OtherDependencyInfoExtractionSettings)
    : Result OtherDependencyInfoExtractionSettings :=
  let otherDefaultSettings := getConfig_otherDependencyDefaultSettings env in
  match match otherDefaultSettings with
        | Some table => Lookup.get table otherName
        | None => None
        end with
  | None =>
      match dependency with
      | None => Err (Error ("No extraction settings found for " ++ otherName ++ "."))
      | Some d => Ok d
      end
  | Some defaults =>
      match dependency with
      | None => Ok defaults
      | Some d =>
          Ok {| versionCommand := orElse (versionCommand d) (versionCommand defaults);
                downloadUrl := orElse (downloadUrl d) (downloadUrl defaults);
                other_path := orElse (other_path d) (other_path defaults);
                other_annotation := orElse (other_annotation d) (other_annotation defaults);
                other_cgIgnore := orElse (other_cgIgnore d) (other_cgIgnore defaults);
                other_markdownIgnore :=
                  orElse (other_markdownIgnore d) (other_markdownIgnore defaults) |}
      end
  end.

Definition otherDependency (imageTagOrContainerName : string)
    (packageInfoList : list PackageInfo)
    (entry : string * option OtherDependencyInfoExtractionSettings)
    : M (list PackageInfo) :=
  let (otherName, dependency) := entry in
  otherSettings <- lift (mergeOtherDefaultSettings otherName dependency) ;;
  console_log ("(*) Getting version for " ++ otherName ++ "...") ;;;
  match member (versionCommand otherSettings) with
  | Some command =>
      if JsString.truthy command then
        otherVersion <-
          getCommandOutputFromContainer imageTagOrContainerName command false ;;
        ret (packageInfoList ++
             [ {| name := otherName; version := Some otherVersion;
                  url := member (downloadUrl otherSettings);
                  path := member (other_path otherSettings);
                  annotation := member (other_annotation otherSettings);
                  poolUrl := None; poolKeyUrl := None; commitHash := None;
                  cgIgnore := member (other_cgIgnore otherSettings);
                  markdownIgnore := member (other_markdownIgnore otherSettings) |} ])%list
      else throw (Error ("Missing versionCommand for " ++ otherName ++ "."))
  | None => throw (Error ("Missing versionCommand for " ++ otherName ++ "."))
  end.

Definition getOtherDependencyInfo (imageTagOrContainerName : string)
    (otherDependencyList : option (Lookup.t (option OtherDependencyInfoExtractionSettings)))
    (otherType : string) : M (list PackageInfo) :=
  let otherDependencyList := orEmpty otherDependencyList in
  let otherDependencyList :=
    mergeDefaults (getDefaultDependencies_other env otherType) otherDependencyList in
  if isFalsyObject otherDependencyList then ret []
  else
    console_log ("(*) Gathering information about " ++ str DQ ++ "other" ++ str DQ
                 ++ " components...") ;;;
    foldM (otherDependency imageTagOrContainerName) otherDependencyList [].

(* ------------------------------------------------------------------------- *)
(** ** getGemPackageInfo (source lines 434-458) *)

Definition gemPattern (gem : string) : string := "^" ++ gem ++ "\s\(([^\),]+)".

Definition gemPackageInfo (gemListOutput : string) (gem : string) : Result PackageInfo :=
  match RegExp_exec env (gemPattern gem) "m" gemListOutput with
  | ReSyntaxError => Err (SyntaxError "Invalid regular expression")
  | ReNull => Err (Error ("Could not extract information about gem " ++ gem))
  | ReMatch gemVersionCaptureGroup =>
      Ok (nameVersion gem (group gemVersionCaptureGroup 1))
  end.

Definition getGemPackageInfo (imageTagOrContainerName : string)
    (packageList : option (list string)) : M (list PackageInfo) :=
  let packageList := orEmpty packageList in
  let defaultPackages := orEmpty (getDefaultDependencies_names env "gem") in
  let packageList := (defaultPackages ++ packageList)%list in
  if (List.length packageList =? 0)%nat then ret []
  else
    console_log "(*) Gathering information about gems..." ;;;
    gemListOutput <-
      getCommandOutputFromContainer imageTagOrContainerName
        "bash -l -c 'set -e && gem list -d --local' 2>/dev/null" false ;;
    mapM (fun gem => lift (gemPackageInfo gemListOutput gem)) packageList.

(* ------------------------------------------------------------------------- *)
(** ** getCargoPackageInfo (source lines 466-502) *)

Definition semverPattern : string := "[0-9]+\.[0-9]+\.[0-9]+".

(** `cargoPackages[crate] || `${crate} --version`` *)
Definition cargoVersionCommand (crate : string) (probe : option string) : string :=
  match probe with
  | Some command => if JsString.truthy command then command else crate ++ " --version"
  | None => crate ++ " --version"
  end.

Definition cargoPackage (imageTagOrContainerName : string)
    (packageInfoList : list PackageInfo) (entry : string * option string)
    : M (list PackageInfo) :=
  let (crate, probe) := entry in
  let versionCommand := cargoVersionCommand crate probe in
  console_log ("(*) Getting version for " ++ crate ++ "...") ;;;
  versionOutput <-
    getCommandOutputFromContainer imageTagOrContainerName versionCommand false ;;
  match RegExp_exec env semverPattern "m" versionOutput with
  | ReSyntaxError => throw (SyntaxError "Invalid regular expression")
  | ReNull => throw (Error ("Could not extract information about crate " ++ crate))
  | ReMatch crateVersionCaptureGroup =>
      ret (packageInfoList ++
           [nameVersion crate (group crateVersionCaptureGroup 0)])%list
  end.

Definition getCargoPackageInfo (imageTagOrContainerName : string)
    (cargoPackages : option (Lookup.t (option string))) : M (list PackageInfo) :=
  let cargoPackages := orEmpty cargoPackages in
  let cargoPackages :=
    mergeDefaults (getDefaultDependencies_commands env "go") cargoPackages in
  if isFalsyObject cargoPackages then ret []
  else
    console_log "(*) Gathering information about cargo packages..." ;;;
    foldM (cargoPackage imageTagOrContainerName) cargoPackages [].

(* ------------------------------------------------------------------------- *)
(** ** getGoPackageInfo (source lines 510-546) *)

Definition goPattern (packageName : string) : string :=
  "downloading\s*" ++ packageName ++ "\s*v([0-9]+\.[0-9]+\.[0-9]+.*)\n".

(** The version read from the installer log. *)
Definition goLogVersion (packageName packageInstallOutput : string)
    : M (option string) :=
  match RegExp_exec env (goPattern packageName) "" packageInstallOutput with
  | ReSyntaxError => throw (SyntaxError "Invalid regular expression")
  | ReNull => ret (Some "latest")
  | ReMatch versionCaptureGroup => ret (group versionCaptureGroup 1)
  end.

Definition goPackage (imageTagOrContainerName packageInstallOutput : string)
    (packageInfoList : list PackageInfo) (entry : string * option string)
    : M (list PackageInfo) :=
  let (packageName, versionCommand) := entry in
  version <-
    match versionCommand with
    | Some command =>
        if JsString.truthy command then
          v <- getCommandOutputFromContainer imageTagOrContainerName command false ;;
          ret (Some v)
        else goLogVersion packageName packageInstallOutput
    | None => goLogVersion packageName packageInstallOutput
    end ;;
  ret (packageInfoList ++ [nameVersion packageName version])%list.

Definition getGoPackageInfo (imageTagOrContainerName : string)
    (goPackages : option (Lookup.t (option string))) : M (list PackageInfo) :=
  let goPackages := orEmpty goPackages in
  let goPackages := mergeDefaults (getDefaultDependencies_commands env "go") goPackages in
  if isFalsyObject goPackages then ret []
  else
    console_log "(*) Gathering information about go modules and packages..." ;;;
    packageInstallOutput <-
      getCommandOutputFromContainer imageTagOrContainerName
        "cat /usr/local/etc/vscode-dev-containers/go.log" false ;;
    foldM (goPackage imageTagOrContainerName packageInstallOutput) goPackages [].

(* ------------------------------------------------------------------------- *)
(** ** getImageInfo (source lines 554-579) *)

Definition getImageInfo (imageTagOrContainerName : string) : M ImageInfo :=
  image <-
    (if isContainerName imageTagOrContainerName
     then asyncUtils_spawn "docker"
            ["inspect"; "--format='{{.Image}}'"; JsString.trim imageTagOrContainerName]
            pipe
     else ret imageTagOrContainerName) ;;
  nameAndDigest <-
    try_catch
      (imageNameAndDigest <-
         asyncUtils_spawn "docker"
           ["inspect"; "--format='{{index .RepoDigests 0}}'"; image] pipe ;;
       let parts := JsString.split "@" (JsString.trim imageNameAndDigest) in
       ret (propertyKey (nth_error parts 0), nth_error parts 1))
      (fun err =>
         match err with
         | SpawnRejection _ result =>
             if (JsString.indexOf result "Template parsing error" >? 0)%Z
             then ret ("N/A", Some "N/A")
             else throw err
         | _ => throw (TypeError "Cannot read properties of undefined (reading 'indexOf')")
         end) ;;
  nonRootUser <-
    getCommandOutputFromContainer imageTagOrContainerName "id -un 1000" true ;;
  ret {| image_name := fst nameAndDigest;
         image_digest := snd nameAndDigest;
         image_user := nonRootUser |}.

(* ------------------------------------------------------------------------- *)
(** ** The orchestrator (source lines 617-651) *)

Definition getLinuxPackageManagerDependencies
    (dependencies : DependencyInfoExtractionSettingsGroup) (distroInfo : DistroInfo)
    : list PackageRequest :=
  let id := Lookup.get distroInfo "id" in
  match deps_linux dependencies (propertyKey id) with
  | Some l => l
  | None =>
      orEmpty (deps_linux dependencies (getLinuxPackageManagerForDistro env id))
  end.

(** The statements inside `try`, up to the object literal. *)
Definition extractContents (containerName : string)
    (dependencies : DependencyInfoExtractionSettingsGroup) : M ExtractedInfo :=
  distroInfo <- getLinuxDistroInfo containerName ;;
  image_ <- getImageInfo containerName ;;
  linux_ <- getLinuxPackageInfo containerName
              (getLinuxPackageManagerDependencies dependencies distroInfo) distroInfo ;;
  npm_ <- getNpmGlobalPackageInfo containerName (deps_npm dependencies) ;;
  pip_ <- getPipPackageInfo containerName (deps_pip dependencies) false ;;
  pipx_ <- getPipPackageInfo containerName (deps_pipx dependencies) true ;;
  gem_ <- getGemPackageInfo containerName (deps_gem dependencies) ;;
  cargo_ <- getCargoPackageInfo containerName (deps_cargo dependencies) ;;
  go_ <- getGoPackageInfo containerName (deps_go dependencies) ;;
  git_ <- getGitRepositoryInfo containerName (deps_git dependencies) ;;
  other_ <- getOtherDependencyInfo containerName (deps_other dependencies) "other" ;;
  languages_ <-
    getOtherDependencyInfo containerName (deps_languages dependencies) "languages" ;;
  ret {| image := image_; distro := distroInfo; linux := linux_; npm := npm_;
         pip := pip_; pipx := pipx_; gem := gem_; cargo := cargo_; go := go_;
         git := git_; other := other_; languages := languages_;
         manual := deps_manual dependencies |}.

Definition getAllContentInfo (imageTag : string)
    (dependencies : DependencyInfoExtractionSettingsGroup) : M ExtractedInfo :=
  containerName <- startContainerForProcessing imageTag ;;
  try_catch
    (contents <- extractContents containerName dependencies ;;
     removeProcessingContainer containerName ;;;
     ret contents)
    (fun e =>
       removeProcessingContainer containerName ;;;
       throw e).

End Model.

Arguments DependencyInfoExtractionSettingsGroup : clear implicits.
Arguments ExtractedInfo : clear implicits.

(* ------------------------------------------------------------------------- *)
(** ** A small backtracking matcher, to run the model on examples

    The model is parametric in the RegExp engine.  To evaluate it on concrete
    inputs, this module implements the part of the JavaScript pattern language
    that the patterns of the file use: literals, `.`, classes with ranges and
    negation, the escapes `\s \d \w \n \t \r` and escaped punctuation,
    capturing groups, `|`, the greedy quantifiers `* + ?`, and `^ $` with or
    without the `m` flag.  Anything else is rejected. *)

Module MiniRegExp.

Inductive item : Type :=
| IRange (lo hi : ascii)
| ISpace
| IDigit
| IWord.

Inductive re : Type :=
| REmpty
| RChar (c : ascii)
| RAny
| RClass (negated : bool) (items : list item)
| RSeq (a b : re)
| RAlt (a b : re)
| RStar (r : re)
| ROpt (r : re)
| RGroup (n : nat) (r : re)
| RBol
| REol.

Definition between (lo hi c : ascii) : bool :=
  (nat_of_ascii lo <=? nat_of_ascii c)%nat && (nat_of_ascii c <=? nat_of_ascii hi)%nat.

Definition item_matches (c : ascii) (i : item) : bool :=
  match i with
  | IRange lo hi => between lo hi c
  | ISpace => JsString.is_ws c
  | IDigit => between "0" "9" c
  | IWord => between "a" "z" c || between "A" "Z" c || between "0" "9" c
             || Ascii.eqb c "_"
  end.

Definition is_line_end (c : ascii) : bool :=
  Ascii.eqb c LF || Ascii.eqb c (ascii_of_nat 13).

Definition is_alnum (c : ascii) : bool :=
  between "a" "z" c || between "A" "Z" c || between "0" "9" c.

(** The meaning of `\c`, as an item of a class. *)
Definition escape_item (c : ascii) : option item :=
  if Ascii.eqb c "s" then Some ISpace
  else if Ascii.eqb c "d" then Some IDigit
  else if Ascii.eqb c "w" then Some IWord
  else if Ascii.eqb c "n" then Some (IRange LF LF)
  else if Ascii.eqb c "t" then Some (IRange (ascii_of_nat 9) (ascii_of_nat 9))
  else if Ascii.eqb c "r" then Some (IRange (ascii_of_nat 13) (ascii_of_nat 13))
  else if is_alnum c then None
  else Some (IRange c c).

(** The items of a class, up to the closing bracket. *)
Fixpoint parse_class (s : list ascii) : option (list item * list ascii) :=
  match s with
  | [] => None
  | c :: s1 =>
      if Ascii.eqb c "]" then Some ([], s1)
      else if Ascii.eqb c "\" then
        match s1 with
        | [] => None
        | e :: s2 =>
            match escape_item e, parse_class s2 with
            | Some i, Some (items, rest) => Some (i :: items, rest)
            | _, _ => None
            end
        end
      else
        match s1 with
        | d :: hi :: s3 =>
            if Ascii.eqb d "-" && negb (Ascii.eqb hi "]") then
              if Ascii.eqb hi "\" then None
              else match parse_class s3 with
                   | Some (items, rest) => Some (IRange c hi :: items, rest)
                   | None => None
                   end
            else match parse_class s1 with
                 | Some (items, rest) => Some (IRange c c :: items, rest)
                 | None => None
                 end
        | _ => match parse_class s1 with
               | Some (items, rest) => Some (IRange c c :: items, rest)
               | None => None
               end
        end
  end.

(** A quantifier after an atom, if there is one. *)
Definition parse_quant (atom : re) (s : list ascii) : re * list ascii :=
  match s with
  | q :: s' =>
      if Ascii.eqb q "*" then (RStar atom, s')
      else if Ascii.eqb q "+" then (RSeq atom (RStar atom), s')
      else if Ascii.eqb q "?" then (ROpt atom, s')
      else (atom, s)
  | [] => (atom, s)
  end.

Definition starts_quant (s : list ascii) : bool :=
  match s with
  | q :: _ => Ascii.eqb q "*" || Ascii.eqb q "+" || Ascii.eqb q "?"
              || Ascii.eqb q "{" || Ascii.eqb q "}"
  | [] => false
  end.

(** Alternation, sequence and atom; [n] is the number of groups opened so
    far.  The fuel bounds the nesting and is the length of the pattern. *)
Fixpoint parse_alt (fuel : nat) (s : list ascii) (n : nat)
    : option (re * list ascii * nat) :=
  match fuel with
  | O => None
  | S f =>
      match parse_seq f s n with
      | Some (a, rest, n1) =>
          match rest with
          | c :: rest' =>
              if Ascii.eqb c "|" then
                match parse_alt f rest' n1 with
                | Some (b, rest2, n2) => Some (RAlt a b, rest2, n2)
                | None => None
                end
              else Some (a, rest, n1)
          | [] => Some (a, rest, n1)
          end
      | None => None
      end
  end
with parse_seq (fuel : nat) (s : list ascii) (n : nat)
    : option (re * list ascii * nat) :=
  match fuel with
  | O => None
  | S f =>
      match s with
      | [] => Some (REmpty, s, n)
      | c :: s1 =>
          if Ascii.eqb c "|" || Ascii.eqb c ")" then Some (REmpty, s, n)
          else if starts_quant s then None
          else
            match parse_atom f s n with
            | Some (a, rest, n1) =>
                let (aq, rest1) := parse_quant a rest in
                if starts_quant rest1 then None
                else match parse_seq f rest1 n1 with
                     | Some (b, rest2, n2) => Some (RSeq aq b, rest2, n2)
                     | None => None
                     end
            | None => None
            end
      end
  end
with parse_atom (fuel : nat) (s : list ascii) (n : nat)
    : option (re * list ascii * nat) :=
  match fuel with
  | O => None
  | S f =>
      match s with
      | [] => None
      | c :: s1 =>
          if Ascii.eqb c "(" then
            match s1 with
            | q :: _ =>
                if Ascii.eqb q "?" then None
                else
                  match parse_alt f s1 (S n) with
                  | Some (r, close :: rest, n1) =>
                      if Ascii.eqb close ")" then Some (RGroup (S n) r, rest, n1)
                      else None
                  | _ => None
                  end
            | [] => None
            end
          else if Ascii.eqb c "[" then
            match s1 with
            | neg :: s2 =>
                if Ascii.eqb neg "^" then
                  match parse_class s2 with
                  | Some (items, rest) => Some (RClass true items, rest, n)
                  | None => None
                  end
                else
                  match parse_class s1 with
                  | Some (items, rest) => Some (RClass false items, rest, n)
                  | None => None
                  end
            | [] => None
            end
          else if Ascii.eqb c "\" then
            match s1 with
            | e :: rest =>
                match escape_item e with
                | Some (IRange lo hi) =>
                    if Ascii.eqb lo hi then Some (RChar lo, rest, n)
                    else Some (RClass false [IRange lo hi], rest, n)
                | Some i => Some (RClass false [i], rest, n)
                | None => None
                end
            | [] => None
            end
          else if Ascii.eqb c "." then Some (RAny, s1, n)
          else if Ascii.eqb c "^" then Some (RBol, s1, n)
          else if Ascii.eqb c "$" then Some (REol, s1, n)
          else if Ascii.eqb c "]" then None
          else Some (RChar c, s1, n)
      end
  end.

(** A pattern and its number of groups. *)
Definition parse (pattern : string) : option (re * nat) :=
  let s := list_ascii_of_string pattern in
  match parse_alt (3 * List.length s + 3) s 0 with
  | Some (r, [], n) => Some (r, n)
  | _ => None
  end.

(** The matcher's position in the input. *)
Record state : Type := {
  pos : nat;
  prev : option ascii;
  rest : list ascii;
  caps : list (nat * (nat * nat))
}.

Inductive outcome : Type :=
| Found (st : state)
| NoMatch
| OutOfFuel.

Definition step_char (st : state) (ok : ascii -> bool) (k : state -> outcome) : outcome :=
  match rest st with
  | c :: r =>
      if ok c then k {| pos := S (pos st); prev := Some c; rest := r; caps := caps st |}
      else NoMatch
  | [] => NoMatch
  end.

(** Backtracking in continuation style: the first alternative that lets the
    continuation succeed wins, and a starred pattern takes as many rounds as
    it can. *)
Fixpoint run (fuel : nat) (multiline : bool) (r : re) (st : state)
    (k : state -> outcome) : outcome :=
  match fuel with
  | O => OutOfFuel
  | S f =>
      match r with
      | REmpty => k st
      | RChar c => step_char st (Ascii.eqb c) k
      | RAny => step_char st (fun c => negb (is_line_end c)) k
      | RClass negated items =>
          step_char st (fun c => xorb negated (existsb (item_matches c) items)) k
      | RSeq a b => run f multiline a st (fun st' => run f multiline b st' k)
      | RAlt a b =>
          match run f multiline a st k with
          | NoMatch => run f multiline b st k
          | o => o
          end
      | RStar a =>
          match run f multiline a st
                  (fun st' => if (pos st' =? pos st)%nat then NoMatch
                              else run f multiline (RStar a) st' k) with
          | NoMatch => k st
          | o => o
          end
      | ROpt a =>
          match run f multiline a st k with
          | NoMatch => k st
          | o => o
          end
      | RGroup n a =>
          run f multiline a st
            (fun st' => k {| pos := pos st'; prev := prev st'; rest := rest st';
                             caps := (n, (pos st, pos st')) :: caps st' |})
      | RBol =>
          match prev st with
          | None => k st
          | Some c => if multiline && is_line_end c then k st else NoMatch
          end
      | REol =>
          match rest st with
          | [] => k st
          | c :: _ => if multiline && is_line_end c then k st else NoMatch
          end
      end
  end.

Fixpoint lookup_cap (caps : list (nat * (nat * nat))) (n : nat) : option (nat * nat) :=
  match caps with
  | [] => None
  | (m, se) :: caps' => if (m =? n)%nat then Some se else lookup_cap caps' n
  end.

Definition slice (input : string) (se : nat * nat) : string :=
  String.substring (fst se) (snd se - fst se) input.

(** The array that `exec` returns for a match from [start] to the final
    state. *)
Definition groups_of (input : string) (ngroups start : nat) (st : state)
    : list (option string) :=
  Some (slice input (start, pos st))
  :: map (fun n => option_map (slice input) (lookup_cap (caps st) n))
       (seq 1 ngroups).

(** Try every start position from the left. *)
Fixpoint search (fuel : nat) (multiline : bool) (r : re) (input : string)
    (ngroups : nat) (start : nat) (before : option ascii) (remaining : list ascii)
    : ExecResult :=
  match run fuel multiline r
          {| pos := start; prev := before; rest := remaining; caps := [] |} Found with
  | Found st' => ReMatch (groups_of input ngroups start st')
  | OutOfFuel => ReSyntaxError
  | NoMatch =>
      match remaining with
      | [] => ReNull
      | c :: remaining' =>
          search fuel multiline r input ngroups (S start) (Some c) remaining'
      end
  end.

Fixpoint size (r : re) : nat :=
  match r with
  | RSeq a b | RAlt a b => S (size a + size b)
  | RStar a | ROpt a | RGroup _ a => S (size a)
  | _ => 1
  end.

(** `new RegExp(pattern, flags).exec(input)`, for the flags `` and `m`.  A
    pattern outside the subset, or a search that runs out of fuel, is answered
    like a pattern the engine rejects. *)
Definition exec (pattern flags input : string) : ExecResult :=
  let multiline := String.eqb flags "m" in
  if negb (multiline || String.eqb flags "") then ReSyntaxError
  else
    match parse pattern with
    | None => ReSyntaxError
    | Some (r, ngroups) =>
        search ((String.length input + 2) * (size r + 2)) multiline r input
          ngroups 0 None (list_ascii_of_string input)
    end.

End MiniRegExp.


(* ------------------------------------------------------------------------- *)
(** ** A sample environment

    An apt-based configuration in the style of the repository's, a docker
    that plays back a script of process results, and the matcher above.  It
    serves to run the model on examples. *)

Module Sample.

Definition TAB : ascii := ascii_of_nat 9.

Definition lower (c : ascii) : ascii :=
  if MiniRegExp.between "A" "Z" c then ascii_of_nat (nat_of_ascii c + 32) else c.

Definition upper (c : ascii) : ascii :=
  if MiniRegExp.between "a" "z" c then ascii_of_nat (nat_of_ascii c - 32) else c.

(** PRETTY_NAME to prettyName. *)
Fixpoint camel (upperNext : bool) (s : string) : string :=
  match s with
  | EmptyString => EmptyString
  | String c s' =>
      if Ascii.eqb c "_" then camel true s'
      else String (if upperNext then upper c else lower c) (camel false s')
  end.

Definition aptParams : LinuxPackageInfoExtractorParams :=
  {| listCommand := "dpkg-query --show -f='${Package}\t${Version}\n'";
     getUriCommand := "apt-get update && apt-get install -y --reinstall --print-uris";
     lineRegEx := "(.+)\t(.+)";
     poolUriMatchRegEx := "'(.+)/pool/.+/${PACKAGE}_${VERSION}.*\.deb'" |}.

Definition spawns (h : list Event) : nat :=
  List.length (filter (fun e => match e with Spawn _ _ _ => true | Log _ => false end) h).

(** The n-th process spawned ends as the n-th entry of the script says. *)
Definition scripted (script : list ProcResult)
    : list Event -> string -> list string -> Stdio -> ProcResult :=
  fun h _ _ _ => nth (spawns h) script {| exitCode := 127; output := "" |}.

Definition ok (text : string) : ProcResult := {| exitCode := 0; output := text |}.

(** The output of a wrapped command that printed [text]. *)
Definition framed (text : string) : ProcResult :=
  ok ("~~~BEGIN~~~" ++ str LF ++ text ++ str LF ++ str LF ++ "~~~END~~~" ++ str LF).

Definition failed (code : Z) (text : string) : ProcResult :=
  {| exitCode := code; output := text |}.

Definition sampleEnv (script : list ProcResult)
    (names : string -> option (list string))
    (commands : string -> option (Lookup.t (option string)))
    (npmTree : option NpmOutput) (pipList : option (list PipEntry)) : Env :=
  {| docker := scripted script;
     Date_now := 1617235200000%N;
     RegExp_exec := MiniRegExp.exec;
     JSON_parse_npm := fun _ => npmTree;
     JSON_parse_pip := fun _ => pipList;
     getFallbackPoolUrl := fun _ => None;
     getPoolKeyForPoolUrl := fun _ => None;
     snakeCaseToCamelCase := camel false;
     getDefaultDependencies_packages := fun _ => None;
     getDefaultDependencies_names := names;
     getDefaultDependencies_commands := commands;
     getDefaultDependencies_other := fun _ => None;
     getConfig_otherDependencyDefaultSettings := None;
     getLinuxPackageManagerForDistro := fun _ => "apt";
     getPackageInfoExtractorParams := fun _ => aptParams |}.

Definition noDefaults {A} : string -> option A := fun _ => None.

(** An environment without defaults and without JSON to parse. *)
Definition plainEnv (script : list ProcResult) : Env :=
  sampleEnv script noDefaults noDefaults None None.

(** A request that asks for nothing. *)
Definition noDependencies : DependencyInfoExtractionSettingsGroup unit :=
  {| deps_linux := fun _ => None; deps_npm := None; deps_pip := None;
     deps_pipx := None; deps_gem := None; deps_cargo := None; deps_go := None;
     deps_git := None; deps_other := None; deps_languages := None;
     deps_manual := [] |}.

Definition quoted (s : string) : string := str DQ ++ s ++ str DQ.

(** `npm ls` output in which `a` is installed below `b` only. *)
Definition nestedTreeText : string :=
  "{" ++ quoted "dependencies" ++ ":{" ++ quoted "b" ++ ":{" ++ quoted "version"
  ++ ":" ++ quoted "2.0.0" ++ "," ++ quoted "dependencies" ++ ":{" ++ quoted "a"
  ++ ":{" ++ quoted "version" ++ ":" ++ quoted "1.0.0" ++ "}}}}}".

Definition nestedTop : Lookup.t NpmPackage :=
  [("b", NpmNode (Some "2.0.0") (Some [("a", NpmNode (Some "1.0.0") None)]))].

Definition nestedTree : NpmOutput := {| npm_dependencies := Some nestedTop |}.

(** `pip list --format json` with one package installed. *)
Definition pipListText : string :=
  "[{" ++ quoted "name" ++ ": " ++ quoted "pylint" ++ ", " ++ quoted "version"
  ++ ": " ++ quoted "2.6.0" ++ "}]".

Definition pipList : list PipEntry :=
  [ {| pip_name := "pylint"; pip_version := Some "2.6.0" |} ].

End Sample.


(* ------------------------------------------------------------------------- *)
(** ** Varying the configuration *)

(** The environment with another table of name-to-command defaults. *)
Definition withCommandDefaults (env : Env)
    (defaults : string -> option (Lookup.t (option string))) : Env :=
  {| docker := docker env;
     Date_now := Date_now env;
     RegExp_exec := RegExp_exec env;
     JSON_parse_npm := JSON_parse_npm env;
     JSON_parse_pip := JSON_parse_pip env;
     getFallbackPoolUrl := getFallbackPoolUrl env;
     getPoolKeyForPoolUrl := getPoolKeyForPoolUrl env;
     snakeCaseToCamelCase := snakeCaseToCamelCase env;
     getDefaultDependencies_packages := getDefaultDependencies_packages env;
     getDefaultDependencies_names := getDefaultDependencies_names env;
     getDefaultDependencies_commands := defaults;
     getDefaultDependencies_other := getDefaultDependencies_other env;
     getConfig_otherDependencyDefaultSettings :=
       getConfig_otherDependencyDefaultSettings env;
     getLinuxPackageManagerForDistro := getLinuxPackageManagerForDistro env;
     getPackageInfoExtractorParams := getPackageInfoExtractorParams env |}.

(** Defaults for two ecosystems: one crate for cargo, one module for go. *)
Definition cargoAndGoDefaults (key : string) : option (Lookup.t (option string)) :=
  if String.eqb key "cargo" then Some [("rustfmt", None)]
  else if String.eqb key "go" then Some [("golang.org/x/tools/gopls", None)]
  else None.

(* ------------------------------------------------------------------------- *)
(** ** The pure part of `xs.map(f)` *)

(** The results of a callback that may throw, up to the first that throws. *)
Fixpoint traverse {A B} (f : A -> Result B) (xs : list A) : Result (list B) :=
  match xs with
  | [] => Ok []
  | x :: xs' =>
      match f x with
      | Err e => Err e
      | Ok y =>
          match traverse f xs' with
          | Err e => Err e
          | Ok ys => Ok (y :: ys)
          end
      end
  end.

(* ------------------------------------------------------------------------- *)
(** ** The os-release value as the specification words it *)

Fixpoint lastChar (s : string) : option ascii :=
  match s with
  | EmptyString => None
  | String c EmptyString => Some c
  | String _ s' => lastChar s'
  end.

Fixpoint dropLast (s : string) : string :=
  match s with
  | EmptyString => EmptyString
  | String _ EmptyString => EmptyString
  | String c s' => String c (dropLast s')
  end.

(** A pair of double quotes around the text is taken off. *)
Definition stripSurroundingQuotes (s : string) : string :=
  match s with
  | String c rest =>
      match lastChar rest with
      | Some d => if Ascii.eqb c DQ && Ascii.eqb d DQ then dropLast rest else s
      | None => s
      end
  | EmptyString => s
  end.

(** "the right-hand side with surrounding quotes stripped and whitespace
    trimmed" *)
Definition specifiedValue (rhs : string) : string :=
  JsString.trim (stripSurroundingQuotes (JsString.trim rhs)).

(* ------------------------------------------------------------------------- *)
(** ** Reading a trace *)

(** The process that [removeProcessingContainer] spawns for a container. *)
Definition isRemoval (containerName : string) (e : Event) : bool :=
  match e with
  | Spawn command [a; b; c] _ =>
      String.eqb command "docker" && String.eqb a "rm" && String.eqb b "-f"
      && String.eqb c containerName
  | _ => false
  end.

(** How often a run asked docker to remove the container. *)
Definition removals (containerName : string) (events : list Event) : nat :=
  List.length (filter (isRemoval containerName) events).

(** The events of the extraction steps: log lines, and docker invoked with
    `exec`, `run` or `inspect`. *)
Definition extractionEvent (e : Event) : bool :=
  match e with
  | Log _ => true
  | Spawn _ (a :: _) _ =>
      String.eqb a "exec" || String.eqb a "run" || String.eqb a "inspect"
  | Spawn _ [] _ => false
  end.

Definition isSpawn (e : Event) : bool :=
  match e with
  | Spawn _ _ _ => true
  | Log _ => false
  end.

(** Every event that a computation adds satisfies [P], whatever came before. *)
Definition emits {A} (P : Event -> bool) (m : M A) : Prop :=
  forall h, forallb P (snd (m h)) = true.

(** The command line that starts the helper container. *)
Definition startArgs (containerName imageTag : string) : list string :=
  ["run"; "-d"; "--rm"; "--init"; "--privileged"; "--name"; containerName;
   imageTag; "sh -c " ++ str DQ ++ "while sleep 1000; do :; done" ++ str DQ].

(* ------------------------------------------------------------------------- *)
(** ** Counting commands *)

(** How many processes a run spawned. *)
Definition commands (events : list Event) : nat :=
  List.length (filter isSpawn events).

(** Log lines, and docker invoked with `exec` or `inspect`: what a run against
    a running helper container may add. *)
Definition execOrInspect (e : Event) : bool :=
  match e with
  | Log _ => true
  | Spawn _ (a :: _) _ => String.eqb a "exec" || String.eqb a "inspect"
  | Spawn _ [] _ => false
  end.

(** The settings that an element of the package list stands for. *)
Definition requestSettings (r : PackageRequest) : DependencyInfoExtractionSettings :=
  match r with
  | ByName n => settingsOfName n
  | BySettings d => d
  end.

(** The first argument of [getImageInfo]'s second `docker inspect`: the image
    id of the container, or the image tag itself. *)
Definition resolveImage (env : Env) (imageTagOrContainerName : string) : M string :=
  if isContainerName imageTagOrContainerName
  then asyncUtils_spawn env "docker"
         ["inspect"; "--format='{{.Image}}'"; JsString.trim imageTagOrContainerName]
         pipe
  else ret imageTagOrContainerName.

(** An entry of a name-to-value object whose value is not null. *)
Definition hasValue {V} (entry : string * option V) : bool :=
  match snd entry with
  | Some _ => true
  | None => false
  end.

(** An event that is not a spawned process. *)
Definition isLog (e : Event) : bool := negb (isSpawn e).

(** A member of the settings of an other/languages entry after the merge with
    the default table: the entry's own member if the entry has that key, be
    its value undefined, the default's otherwise. *)
Definition settingField {T}
    (dependency defaults : option OtherDependencyInfoExtractionSettings)
    (f : OtherDependencyInfoExtractionSettings -> Member T) : Member T :=
  orElse (match dependency with Some d => f d | None => None end)
         (match defaults with Some d => f d | None => None end).

(** The entry of the default-settings table for a name. *)
Definition otherDefaultsFor (env : Env) (otherName : string)
    : option OtherDependencyInfoExtractionSettings :=
  match getConfig_otherDependencyDefaultSettings env with
  | Some table => Lookup.get table otherName
  | None => None
  end.

(** The environment with another table of default settings for
    other/languages entries. *)
Definition withOtherDefaultSettings (env : Env)
    (table : option (Lookup.t OtherDependencyInfoExtractionSettings)) : Env :=
  {| docker := docker env;
     Date_now := Date_now env;
     RegExp_exec := RegExp_exec env;
     JSON_parse_npm := JSON_parse_npm env;
     JSON_parse_pip := JSON_parse_pip env;
     getFallbackPoolUrl := getFallbackPoolUrl env;
     getPoolKeyForPoolUrl := getPoolKeyForPoolUrl env;
     snakeCaseToCamelCase := snakeCaseToCamelCase env;
     getDefaultDependencies_packages := getDefaultDependencies_packages env;
     getDefaultDependencies_names := getDefaultDependencies_names env;
     getDefaultDependencies_commands := getDefaultDependencies_commands env;
     getDefaultDependencies_other := getDefaultDependencies_other env;
     getConfig_otherDependencyDefaultSettings := table;
     getLinuxPackageManagerForDistro := getLinuxPackageManagerForDistro env;
     getPackageInfoExtractorParams := getPackageInfoExtractorParams env |}.

(** A default-settings table with an entry for Xdebug. *)
Definition xdebugDefaults : Lookup.t OtherDependencyInfoExtractionSettings :=
  [("Xdebug",
    {| versionCommand := Some (Some "php --version | grep -i xdebug");
       downloadUrl := Some (Some "https://pecl.php.net/get/xdebug");
       other_path := None; other_annotation := None;
       other_cgIgnore := None; other_markdownIgnore := None |})].

(** An entry of a name-to-command object that has a command of its own. *)
Definition hasProbe (entry : string * option string) : bool :=
  JsString.truthy_opt (snd entry).

(* ========================================================================= *)
(** * Properties *)

(** ** Strings *)

Lemma indexOf_zero_iff_prefix (s p : string) :
  JsString.indexOf s p = 0%Z <-> prefix p s = true.
Proof.
  unfold JsString.indexOf.
  destruct s as [|c s]; simpl;
    match goal with |- context [if ?b then _ else _] => destruct b eqn:E end.
  - tauto.
  - split; [intro H; inversion H | discriminate].
  - tauto.
  - destruct (JsString.indexOf_nat s p); simpl; split;
      try discriminate; intro H; lia.
Qed.

Lemma prefix_append (p t : string) : prefix p (p ++ t) = true.
Proof.
  induction p as [|a p IH]; simpl.
  - destruct t; reflexivity.
  - destruct (ascii_dec a a); [exact IH | congruence].
Qed.

Lemma isContainerName_prefix (s : string) :
  isContainerName s = prefix "vscdc--extract--" s.
Proof.
  unfold isContainerName.
  destruct (prefix "vscdc--extract--" s) eqn:E.
  - apply Z.eqb_eq, indexOf_zero_iff_prefix, E.
  - apply Z.eqb_neq. intro H. apply indexOf_zero_iff_prefix in H. congruence.
Qed.

Lemma substring_missing_end (s : string) (a : Z) :
  JsString.substring s a (-1) = JsString.substring s 0 a.
Proof.
  unfold JsString.substring, JsString.clamp.
  f_equal; f_equal; lia.
Qed.

(** ** The command runner *)

Section CommandRunner.
Variable env : Env.

Lemma command_runner_run (target command : string) (forceRoot : bool)
    (h : list Event) :
  getCommandOutputFromContainer env target command forceRoot h =
  (let p := docker env h "docker" (runArgs target command forceRoot) pipe in
   if (exitCode p =? 0)%Z then Ok (filterResult (output p))
   else Err (SpawnRejection (exitCode p) (output p)),
   [Spawn "docker" (runArgs target command forceRoot) pipe]).
Proof.
  unfold getCommandOutputFromContainer, bind, asyncUtils_spawn, ret.
  destruct (exitCode _ =? 0)%Z; reflexivity.
Qed.

(** C10.  The runner chooses `docker exec` exactly for the targets that begin
    with `vscdc--extract--`, and `docker run --init --privileged --rm` for all
    others; the name that [startContainerForProcessing] hands out begins with
    the prefix, and so does any image tag that happens to, which is then
    addressed with `exec` like a running helper container. *)
Theorem docker_exec_iff_container_prefix :
  forall (target command : string) (forceRoot : bool) (h : list Event),
    snd (getCommandOutputFromContainer env target command forceRoot h) =
      [Spawn "docker"
         ((if prefix "vscdc--extract--" target
           then ["exec"]
           else ["run"; "--init"; "--privileged"; "--rm"])
          ++ (if forceRoot then ["-u"; "root"] else [])
          ++ [target; wrapCommand command])%list
         pipe]
    /\ (forall imageTag : string,
          isContainerName ("vscdc--extract--" ++ imageTag) = true)
    /\ match fst (startContainerForProcessing env target h) with
       | Ok containerName => isContainerName containerName = true
       | Err _ => True
       end.
Proof.
  intros target command forceRoot h. split; [|split].
  - rewrite command_runner_run. simpl. unfold runArgs.
    rewrite isContainerName_prefix.
    destruct (prefix _ target), forceRoot; reflexivity.
  - intros imageTag. rewrite isContainerName_prefix. apply prefix_append.
  - unfold startContainerForProcessing, bind, asyncUtils_spawn, ret.
    destruct (exitCode _ =? 0)%Z; cbn [fst]; [|exact I].
    rewrite isContainerName_prefix. apply prefix_append.
Qed.

(** C2, as the code has it.  The caller receives an error exactly when the
    process exits non-zero (so also when it does so before the BEGIN sentinel
    appears).  When the process exits with zero the caller always receives
    text; if the END sentinel is missing from the output, that text is the
    trimmed start of the output, up to and including the BEGIN sentinel. *)
Theorem command_runner_outcome :
  forall (target command : string) (forceRoot : bool) (h : list Event),
    let p := docker env h "docker" (runArgs target command forceRoot) pipe in
    let r := fst (getCommandOutputFromContainer env target command forceRoot h) in
    (exitCode p <> 0%Z -> r = Err (SpawnRejection (exitCode p) (output p)))
    /\ (exitCode p = 0%Z -> r = Ok (filterResult (output p)))
    /\ (JsString.indexOf (output p) "~~~END~~~" = (-1)%Z ->
        filterResult (output p) =
        JsString.trim
          (JsString.substring (output p) 0
             (JsString.indexOf (output p) "~~~BEGIN~~~" + 11))).
Proof.
  intros target command forceRoot h p r. subst r.
  rewrite command_runner_run. fold p. simpl.
  split; [|split].
  - intro H. apply Z.eqb_neq in H. rewrite H. reflexivity.
  - intro H. rewrite H. reflexivity.
  - intro H. unfold filterResult. rewrite H, substring_missing_end. reflexivity.
Qed.

End CommandRunner.

(** An exit with zero and no END sentinel: the runner answers with text. *)
Lemma command_runner_missing_end_returns_text :
  let out := "~~~BEGIN~~~" ++ str LF ++ "hello" ++ str LF in
  let env := Sample.plainEnv [Sample.ok out] in
  JsString.indexOf out "~~~END~~~" = (-1)%Z
  /\ exitCode (docker env [] "docker" (runArgs "debian" "echo hello; exit 0" false) pipe) = 0%Z
  /\ fst (getCommandOutputFromContainer env "debian" "echo hello; exit 0" false [])
     = Ok "~~~BEGIN~~~".
Proof. vm_compute. repeat split. Qed.

Lemma command_runner_outcome_witness :
  let out := "~~~BEGIN~~~" ++ str LF ++ "hello" ++ str LF in
  let env := Sample.plainEnv [Sample.ok out] in
  fst (getCommandOutputFromContainer env "debian" "echo hello; exit 0" false [])
  = Ok (filterResult out)
  /\ filterResult out
     = JsString.trim (JsString.substring out 0 (JsString.indexOf out "~~~BEGIN~~~" + 11)).
Proof.
  intros out env.
  pose proof (command_runner_outcome env "debian" "echo hello; exit 0" false [])
    as (_ & Hok & Hend).
  split.
  - apply Hok. reflexivity.
  - apply Hend. reflexivity.
Defined.

(** ** What a computation adds to the trace *)

Section Emits.
Variable P : Event -> bool.
Hypothesis P_log : forall line, P (Log line) = true.

Lemma emits_ret {A} (a : A) : emits P (ret a).
Proof. intro h. reflexivity. Qed.

Lemma emits_throw {A} (e : JsError) : emits P (@throw A e).
Proof. intro h. reflexivity. Qed.

Lemma emits_lift {A} (r : Result A) : emits P (lift r).
Proof. intro h. reflexivity. Qed.

Lemma emits_log (line : string) : emits P (console_log line).
Proof. intro h. simpl. rewrite P_log. reflexivity. Qed.

Lemma emits_bind {A B} (m : M A) (f : A -> M B) :
  emits P m -> (forall a, emits P (f a)) -> emits P (bind m f).
Proof.
  intros Hm Hf h. unfold bind.
  specialize (Hm h). destruct (m h) as [[a|e] ev]; simpl in *; [|exact Hm].
  specialize (Hf a (h ++ ev)%list). destruct (f a _) as [r ev']; simpl in *.
  rewrite forallb_app, Hm, Hf. reflexivity.
Qed.

Lemma emits_try_catch {A} (m : M A) (handler : JsError -> M A) :
  emits P m -> (forall e, emits P (handler e)) -> emits P (try_catch m handler).
Proof.
  intros Hm Hh h. unfold try_catch.
  specialize (Hm h). destruct (m h) as [[a|e] ev]; simpl in *; [exact Hm|].
  specialize (Hh e (h ++ ev)%list). destruct (handler e _) as [r ev']; simpl in *.
  rewrite forallb_app, Hm, Hh. reflexivity.
Qed.

Lemma emits_foldM {A B} (step : B -> A -> M B) (xs : list A) :
  (forall acc x, emits P (step acc x)) -> forall acc, emits P (foldM step xs acc).
Proof.
  intros Hstep. induction xs as [|x xs IH]; intro acc; simpl.
  - apply emits_ret.
  - apply emits_bind; [apply Hstep | intro; apply IH].
Qed.

Lemma emits_mapM {A B} (f : A -> M B) (xs : list A) :
  (forall x, emits P (f x)) -> emits P (mapM f xs).
Proof.
  intros Hf. induction xs as [|x xs IH]; simpl.
  - apply emits_ret.
  - apply emits_bind; [apply Hf | intro].
    apply emits_bind; [apply IH | intro; apply emits_ret].
Qed.

End Emits.

(** One step of a proof that a computation emits only what [P] allows. *)
Ltac emits_step :=
  first
    [ apply emits_ret | apply emits_throw | apply emits_lift
    | apply emits_log; solve [auto]
    | apply emits_bind; [| intro]
    | apply emits_try_catch; [| intro]
    | apply emits_foldM; intros ? ?
    | apply emits_mapM; intro
    | match goal with
      | |- emits _ (match ?x with _ => _ end) => destruct x
      | |- emits _ (let (_, _) := ?x in _) => destruct x
      end ].

(** ** The extraction steps never ask docker to remove anything *)

Section ExtractionEvents.
Variable env : Env.

Lemma extractionEvent_log (line : string) : extractionEvent (Log line) = true.
Proof. reflexivity. Qed.

Lemma runner_emits (target command : string) (forceRoot : bool) :
  emits extractionEvent (getCommandOutputFromContainer env target command forceRoot).
Proof.
  intro h. rewrite command_runner_run. simpl. unfold runArgs.
  destruct (isContainerName target), forceRoot; reflexivity.
Qed.

Lemma inspect_emits (args : list string) :
  emits extractionEvent (asyncUtils_spawn env "docker" ("inspect" :: args) pipe).
Proof. intro h. reflexivity. Qed.

Hint Resolve extractionEvent_log : core.

Ltac extraction_emits :=
  repeat first [ apply runner_emits | apply inspect_emits | emits_step ].

Lemma distro_emits (target : string) :
  emits extractionEvent (getLinuxDistroInfo env target).
Proof. unfold getLinuxDistroInfo. extraction_emits. Qed.

Lemma image_emits (target : string) :
  emits extractionEvent (getImageInfo env target).
Proof. unfold getImageInfo. extraction_emits. Qed.

Lemma linux_emits (target : string) (l : list PackageRequest) (d : DistroInfo) :
  emits extractionEvent (getLinuxPackageInfo env target l d).
Proof.
  unfold getLinuxPackageInfo. extraction_emits.
  unfold linuxPackageLine, getPoolUrlFromPackageVersionListOutput. extraction_emits.
Qed.

Lemma npm_emits (target : string) (l : option (list string)) :
  emits extractionEvent (getNpmGlobalPackageInfo env target l).
Proof. unfold getNpmGlobalPackageInfo. extraction_emits. Qed.

Lemma pip_emits (target : string) (l : option (list string)) (usePipx : bool) :
  emits extractionEvent (getPipPackageInfo env target l usePipx).
Proof.
  unfold getPipPackageInfo, getPipxVersionLookup, getPipVersionLookup.
  extraction_emits.
Qed.

Lemma gem_emits (target : string) (l : option (list string)) :
  emits extractionEvent (getGemPackageInfo env target l).
Proof. unfold getGemPackageInfo. extraction_emits. Qed.

Lemma cargo_emits (target : string) (l : option (Lookup.t (option string))) :
  emits extractionEvent (getCargoPackageInfo env target l).
Proof. unfold getCargoPackageInfo, cargoPackage. extraction_emits. Qed.

Lemma go_emits (target : string) (l : option (Lookup.t (option string))) :
  emits extractionEvent (getGoPackageInfo env target l).
Proof. unfold getGoPackageInfo, goPackage, goLogVersion. extraction_emits. Qed.

Lemma git_emits (target : string) (l : option (Lookup.t (option string))) :
  emits extractionEvent (getGitRepositoryInfo env target l).
Proof. unfold getGitRepositoryInfo, gitRepository. extraction_emits. Qed.

Lemma other_emits (target : string)
    (l : option (Lookup.t (option OtherDependencyInfoExtractionSettings)))
    (otherType : string) :
  emits extractionEvent (getOtherDependencyInfo env target l otherType).
Proof. unfold getOtherDependencyInfo, otherDependency. extraction_emits. Qed.

Lemma extractContents_emits (C : Type) (containerName : string)
    (dependencies : DependencyInfoExtractionSettingsGroup C) :
  emits extractionEvent (extractContents env containerName dependencies).
Proof.
  unfold extractContents.
  repeat first
    [ apply distro_emits | apply image_emits | apply linux_emits | apply npm_emits
    | apply pip_emits | apply gem_emits | apply cargo_emits | apply go_emits
    | apply git_emits | apply other_emits | emits_step ].
Qed.

End ExtractionEvents.

(** ** The orchestrator and the helper container *)

Lemma removals_app (n : string) (a b : list Event) :
  removals n (a ++ b) = removals n a + removals n b.
Proof. unfold removals. rewrite filter_app, length_app. reflexivity. Qed.

Lemma extractionEvent_not_removal (n : string) (e : Event) :
  extractionEvent e = true -> isRemoval n e = false.
Proof.
  destruct e as [command args stdio | line]; [|reflexivity].
  destruct args as [|a [|b [|c [|d args]]]]; try reflexivity.
  simpl. intro H.
  destruct (String.eqb_spec a "rm") as [->|_].
  - discriminate H.
  - rewrite andb_false_r. reflexivity.
Qed.

Lemma removals_extraction (n : string) (events : list Event) :
  forallb extractionEvent events = true -> removals n events = 0.
Proof.
  unfold removals. induction events as [|e events IH]; simpl; [reflexivity|].
  intro H. apply andb_prop in H as [He Hrest].
  rewrite (extractionEvent_not_removal n e He). apply IH, Hrest.
Qed.

Section Orchestrator.
Variable env : Env.
Variable C : Type.

(** C1, as the code has it.  Take a run in which the helper container was
    started.  If an extraction step throws, removal is requested exactly once,
    and the error of that step is what the caller gets, provided the removal
    completes.  If every extraction step succeeds and the removal succeeds,
    removal is requested exactly once and the contents are returned.  If every
    extraction step succeeds but the removal fails, the `catch` block requests
    the removal a second time, and rethrows the first removal's error when the
    second removal completes. *)
Theorem helper_container_removal :
  forall (imageTag : string) (dependencies : DependencyInfoExtractionSettingsGroup C)
         (h : list Event),
    let containerName := "vscdc--extract--" ++ JsString.of_N (Date_now env) in
    let start := Spawn "docker" (startArgs containerName imageTag) inherit in
    let body := extractContents env containerName dependencies (h ++ [start])%list in
    let remove := Spawn "docker" ["rm"; "-f"; containerName] inherit in
    let h2 := ((h ++ [start]) ++ snd body)%list in
    let rm1 := docker env h2 "docker" ["rm"; "-f"; containerName] inherit in
    let rm2 :=
      docker env (h2 ++ [remove])%list "docker" ["rm"; "-f"; containerName] inherit in
    let run := getAllContentInfo env imageTag dependencies h in
    exitCode (docker env h "docker" (startArgs containerName imageTag) inherit) = 0%Z ->
    match fst body with
    | Err e =>
        removals containerName (snd run) = 1
        /\ (exitCode rm1 = 0%Z -> fst run = Err e)
    | Ok contents =>
        (exitCode rm1 = 0%Z ->
         removals containerName (snd run) = 1 /\ fst run = Ok contents)
        /\ (exitCode rm1 <> 0%Z ->
            removals containerName (snd run) = 2
            /\ (exitCode rm2 = 0%Z ->
                fst run = Err (SpawnRejection (exitCode rm1) (output rm1))))
    end.
Proof.
  intros imageTag dependencies h containerName start body remove h2 rm1 rm2 run Hstart.
  pose proof (extractContents_emits env containerName dependencies (h ++ [start])%list)
    as Hbody.
  apply (removals_extraction containerName) in Hbody. fold body in Hbody.
  assert (Hremove : isRemoval containerName remove = true).
  { simpl. rewrite String.eqb_refl. reflexivity. }
  assert (Hrun : run =
    match fst body with
    | Ok contents =>
        if (exitCode rm1 =? 0)%Z
        then (Ok contents, start :: snd body ++ [remove])%list
        else (if (exitCode rm2 =? 0)%Z
              then Err (SpawnRejection (exitCode rm1) (output rm1))
              else Err (SpawnRejection (exitCode rm2) (output rm2)),
              start :: (snd body ++ [remove]) ++ [remove])%list
    | Err e =>
        (if (exitCode rm1 =? 0)%Z then Err e
         else Err (SpawnRejection (exitCode rm1) (output rm1)),
         start :: snd body ++ [remove])%list
    end).
  { subst run. unfold getAllContentInfo, startContainerForProcessing.
    unfold bind at 1 2. unfold asyncUtils_spawn at 1.
    fold containerName. fold (startArgs containerName imageTag).
    rewrite Hstart. cbn [Z.eqb ret app].
    unfold removeProcessingContainer, try_catch, bind, asyncUtils_spawn, ret, throw.
    fold start. fold body.
    subst rm2 rm1 h2. clearbody body.
    destruct body as [[contents|e] evb]; cbn [fst snd].
    - destruct (exitCode (docker env ((h ++ [start]) ++ evb)%list _ _ _) =? 0)%Z;
        cbn [app]; [reflexivity|].
      rewrite (app_assoc (h ++ [start]) evb). fold remove.
      destruct (exitCode _ =? 0)%Z; cbn [app]; rewrite ?app_nil_r; reflexivity.
    - destruct (exitCode _ =? 0)%Z; cbn [app]; rewrite ?app_nil_r; reflexivity. }
  assert (Hs : removals containerName [start] = 0) by reflexivity.
  assert (Hr : removals containerName [remove] = 1).
  { unfold removals. cbn [filter]. rewrite Hremove. reflexivity. }
  assert (Hone : removals containerName (start :: snd body ++ [remove])%list = 1).
  { change (start :: snd body ++ [remove])%list
      with ([start] ++ snd body ++ [remove])%list.
    rewrite !removals_app, Hbody, Hs, Hr. reflexivity. }
  assert (Htwo : removals containerName
                   (start :: (snd body ++ [remove]) ++ [remove])%list = 2).
  { change (start :: (snd body ++ [remove]) ++ [remove])%list
      with ([start] ++ (snd body ++ [remove]) ++ [remove])%list.
    rewrite !removals_app, Hbody, Hs, Hr. reflexivity. }
  destruct (fst body) as [contents|e].
  - split.
    + intro H1. rewrite Hrun, H1. cbn [Z.eqb fst snd]. split; [exact Hone|reflexivity].
    + intro H1. apply Z.eqb_neq in H1. rewrite Hrun, H1. cbn [fst snd].
      split; [exact Htwo|]. intro H2. rewrite H2. reflexivity.
  - rewrite Hrun. cbn [fst snd]. split; [exact Hone|].
    intro H1. rewrite H1. reflexivity.
Qed.

End Orchestrator.

(** A run in which the container starts and every extraction step succeeds,
    but the first `docker rm -f` fails: removal is requested twice. *)
Lemma removal_requested_twice :
  let env :=
    Sample.plainEnv
      [Sample.ok ""; Sample.framed "ID=debian"; Sample.ok "sha256:abc";
       Sample.ok "debian@sha256:123"; Sample.framed "vscode"; Sample.framed "";
       Sample.failed 1 ""; Sample.ok ""] in
  let containerName := "vscdc--extract--1617235200000" in
  let start := Spawn "docker" (startArgs containerName "debian") inherit in
  let run := getAllContentInfo env "debian" Sample.noDependencies [] in
  fst (startContainerForProcessing env "debian" []) = Ok containerName
  /\ (exists contents,
        fst (extractContents env containerName Sample.noDependencies [start])
        = Ok contents)
  /\ removals containerName (snd run) = 2.
Proof.
  vm_compute. split; [reflexivity|]. split; [|reflexivity].
  eexists. reflexivity.
Qed.

Lemma helper_container_removal_witness :
  let env :=
    Sample.plainEnv
      [Sample.ok ""; Sample.framed "ID=debian"; Sample.ok "sha256:abc";
       Sample.ok "debian@sha256:123"; Sample.framed "vscode"; Sample.failed 1 "";
       Sample.ok ""] in
  let containerName := "vscdc--extract--1617235200000" in
  let run := getAllContentInfo env "debian" Sample.noDependencies [] in
  removals containerName (snd run) = 1
  /\ fst run = Err (SpawnRejection 1 "").
Proof.
  intros env containerName run.
  pose proof (@helper_container_removal env unit "debian" Sample.noDependencies [])
    as H.
  cbv zeta in H. specialize (H eq_refl).
  vm_compute in H. destruct H as [H1 H2]. split.
  - exact H1.
  - apply H2. reflexivity.
Defined.

(** ** Empty requests *)

Section EmptyRequests.
Variable env : Env.

(** The extractors that test the length of the merged list, and the git
    extractor, leave the container alone when nothing is requested; the cargo
    and other/languages extractors write a log line and return. *)
Lemma empty_request_without_command (target : string) (h : list Event) :
  (forall (l : list PackageRequest) (d : DistroInfo),
      (orEmpty (getDefaultDependencies_packages env
                  (getLinuxPackageManagerForDistro env (Lookup.get d "id"))) ++ l)%list = [] ->
      getLinuxPackageInfo env target l d h = (Ok [], []))
  /\ (forall l : option (list string),
         (orEmpty (getDefaultDependencies_names env "npm") ++ orEmpty l)%list = [] ->
         getNpmGlobalPackageInfo env target l h = (Ok [], []))
  /\ (forall (l : option (list string)) (usePipx : bool),
         (orEmpty (getDefaultDependencies_names env (if usePipx then "pipx" else "pip"))
            ++ orEmpty l)%list = [] ->
         getPipPackageInfo env target l usePipx h = (Ok [], []))
  /\ (forall l : option (list string),
         (orEmpty (getDefaultDependencies_names env "gem") ++ orEmpty l)%list = [] ->
         getGemPackageInfo env target l h = (Ok [], []))
  /\ (forall l,
         mergeDefaults (getDefaultDependencies_commands env "git") (orEmpty l) = [] ->
         getGitRepositoryInfo env target l h = (Ok [], []))
  /\ (forall l,
         mergeDefaults (getDefaultDependencies_commands env "go") (orEmpty l) = [] ->
         getCargoPackageInfo env target l h
         = (Ok [], [Log "(*) Gathering information about cargo packages..."]))
  /\ (forall l otherType,
         mergeDefaults (getDefaultDependencies_other env otherType) (orEmpty l) = [] ->
         fst (getOtherDependencyInfo env target l otherType h) = Ok []
         /\ forallb (fun e => negb (isSpawn e))
              (snd (getOtherDependencyInfo env target l otherType h)) = true).
Proof.
  repeat split; intros.
  - unfold getLinuxPackageInfo. rewrite H. reflexivity.
  - unfold getNpmGlobalPackageInfo. rewrite H. reflexivity.
  - unfold getPipPackageInfo. rewrite H. reflexivity.
  - unfold getGemPackageInfo. rewrite H. reflexivity.
  - unfold getGitRepositoryInfo. rewrite H. reflexivity.
  - unfold getCargoPackageInfo. rewrite H. reflexivity.
  - unfold getOtherDependencyInfo. rewrite H. reflexivity.
  - unfold getOtherDependencyInfo. rewrite H. reflexivity.
Qed.

(** C3, the go extractor at an empty request.  The guard `!goPackages` does
    not hold for an object without keys, so the extractor goes on to read the
    installer log in the container: one command is issued, and its failure is
    the extractor's failure. *)
Theorem go_empty_request_runs_command :
  forall (target : string) (requested : option (Lookup.t (option string)))
         (h : list Event),
    mergeDefaults (getDefaultDependencies_commands env "go") (orEmpty requested) = [] ->
    let line := Log "(*) Gathering information about go modules and packages..." in
    let args := runArgs target "cat /usr/local/etc/vscode-dev-containers/go.log" false in
    let p := docker env (h ++ [line])%list "docker" args pipe in
    snd (getGoPackageInfo env target requested h) = [line; Spawn "docker" args pipe]
    /\ fst (getGoPackageInfo env target requested h)
       = if (exitCode p =? 0)%Z then Ok []
         else Err (SpawnRejection (exitCode p) (output p)).
Proof.
  intros target requested h H line args p.
  assert (E : getGoPackageInfo env target requested h =
              (if (exitCode p =? 0)%Z then Ok []
               else Err (SpawnRejection (exitCode p) (output p)),
               [line; Spawn "docker" args pipe])).
  { unfold getGoPackageInfo. rewrite H. unfold isFalsyObject.
    unfold bind, console_log. rewrite command_runner_run.
    fold line. fold args. fold p. cbv zeta.
    destruct (exitCode p =? 0)%Z; reflexivity. }
  rewrite E. split; reflexivity.
Qed.

End EmptyRequests.

Lemma go_empty_request_runs_command_witness :
  let env := Sample.plainEnv [Sample.failed 1 "cat: go.log: No such file or directory"] in
  let target := "vscdc--extract--1617235200000" in
  getGoPackageInfo env target None []
  = (Err (SpawnRejection 1 "cat: go.log: No such file or directory"),
     [Log "(*) Gathering information about go modules and packages...";
      Spawn "docker"
        (runArgs target "cat /usr/local/etc/vscode-dev-containers/go.log" false) pipe]).
Proof.
  intros env target.
  pose proof (@go_empty_request_runs_command env target None [] eq_refl) as H.
  cbv zeta in H. destruct H as [Hev Hres].
  rewrite (surjective_pairing (getGoPackageInfo env target None [])).
  rewrite Hev, Hres. reflexivity.
Defined.

(** ** Defaults *)

(** C4, the cargo extractor.  It asks for the defaults of `go`: whatever the
    configuration says under any other key, `cargo` included, has no effect
    on it. *)
Theorem cargo_reads_go_defaults :
  forall (env : Env) (defaults : string -> option (Lookup.t (option string)))
         (target : string) (requested : option (Lookup.t (option string)))
         (h : list Event),
    defaults "go" = getDefaultDependencies_commands env "go" ->
    getCargoPackageInfo (withCommandDefaults env defaults) target requested h
    = getCargoPackageInfo env target requested h.
Proof.
  intros env defaults target requested h H.
  unfold getCargoPackageInfo.
  change (getDefaultDependencies_commands (withCommandDefaults env defaults) "go")
    with (defaults "go").
  rewrite H. reflexivity.
Qed.

(** With `rustfmt` as the cargo default and `gopls` as the go default, the
    cargo extractor probes and reports `gopls`. *)
Lemma cargo_reads_go_defaults_witness :
  let target := "vscdc--extract--1617235200000" in
  let env :=
    Sample.sampleEnv [Sample.framed "golang.org/x/tools/gopls v0.6.4"]
      Sample.noDefaults
      (fun key => if String.eqb key "go" then cargoAndGoDefaults key else None)
      None None in
  getDefaultDependencies_commands (withCommandDefaults env cargoAndGoDefaults) "cargo"
  = Some [("rustfmt", None)]
  /\ getCargoPackageInfo (withCommandDefaults env cargoAndGoDefaults) target None []
     = (Ok [nameVersion "golang.org/x/tools/gopls" (Some "0.6.4")],
        [Log "(*) Gathering information about cargo packages...";
         Log "(*) Getting version for golang.org/x/tools/gopls...";
         Spawn "docker" (runArgs target "golang.org/x/tools/gopls --version" false) pipe]).
Proof.
  intros target env. split; [reflexivity|].
  rewrite (@cargo_reads_go_defaults env cargoAndGoDefaults target None [] eq_refl).
  vm_compute. reflexivity.
Defined.

Section Merging.
Variable V : Type.

Lemma get_set (o : Lookup.t V) (k k' : string) (v : V) :
  Lookup.get (Lookup.set o k v) k' =
  if String.eqb k k' then Some v else Lookup.get o k'.
Proof.
  induction o as [|[k0 v0] o IH]; simpl.
  - reflexivity.
  - destruct (String.eqb_spec k0 k) as [->|Hne]; simpl.
    + destruct (String.eqb k k'); reflexivity.
    + rewrite IH. destruct (String.eqb_spec k0 k') as [->|Hne'].
      * destruct (String.eqb_spec k k'); [congruence | reflexivity].
      * reflexivity.
Qed.

Lemma keys_set (o : Lookup.t V) (k : string) (v : V) :
  exists extra, Lookup.keys (Lookup.set o k v) = (Lookup.keys o ++ extra)%list.
Proof.
  unfold Lookup.keys.
  induction o as [|[k0 v0] o [extra IH]]; simpl.
  - exists [k]. reflexivity.
  - destruct (String.eqb k0 k); simpl.
    + exists []. rewrite app_nil_r. reflexivity.
    + exists extra. rewrite IH. reflexivity.
Qed.

Lemma get_app_last (o : Lookup.t V) (k k' : string) (v : V) :
  Lookup.get (o ++ [(k, v)])%list k' =
  match Lookup.get o k' with
  | Some x => Some x
  | None => if String.eqb k k' then Some v else None
  end.
Proof.
  induction o as [|[k0 v0] o IH]; simpl; [reflexivity|].
  destruct (String.eqb k0 k'); [reflexivity | exact IH].
Qed.

(** The merge of the name-to-value extractors: the keys of the defaults come
    first and keep their order, and where a name is both a default and a
    request, the requested value is the one that stays. *)
Lemma merge_defaults_first_request_wins (defaults requested : Lookup.t V) :
  (exists extra,
      Lookup.keys (mergeDefaults (Some defaults) requested)
      = (Lookup.keys defaults ++ extra)%list)
  /\ (forall k,
         Lookup.get (mergeDefaults (Some defaults) requested) k =
         match Lookup.get (rev requested) k with
         | Some v => Some v
         | None => Lookup.get defaults k
         end).
Proof.
  unfold mergeDefaults, Lookup.assignAll.
  revert defaults. induction requested as [|[k0 v0] requested IH]; intro defaults.
  - split; [exists []; rewrite app_nil_r; reflexivity | reflexivity].
  - simpl fold_left. destruct (IH (Lookup.set defaults k0 v0)) as [[extra Hk] Hg].
    split.
    + destruct (keys_set defaults k0 v0) as [extra0 Hk0].
      exists (extra0 ++ extra)%list. rewrite Hk. simpl fst. simpl snd.
      rewrite Hk0, app_assoc. reflexivity.
    + intro k. rewrite Hg. simpl rev. rewrite get_app_last, get_set.
      destruct (Lookup.get (rev requested) k); [reflexivity|].
      destruct (String.eqb k0 k); reflexivity.
Qed.

End Merging.

(** ** Mapping a callback that may throw *)

Lemma mapM_lift {A B} (f : A -> Result B) (xs : list A) (h : list Event) :
  mapM (fun x => lift (f x)) xs h = (traverse f xs, []).
Proof.
  revert h. induction xs as [|x xs IH]; intro h; simpl; [reflexivity|].
  unfold bind, lift. destruct (f x) as [y|e]; [|reflexivity].
  rewrite IH. destruct (traverse f xs); reflexivity.
Qed.

Lemma traverse_all_ok {A B} (f : A -> Result B) (xs : list A) :
  (forall x, In x xs -> exists y, f x = Ok y) ->
  exists ys, traverse f xs = Ok ys /\ Forall2 (fun x y => f x = Ok y) xs ys.
Proof.
  induction xs as [|x xs IH]; intro H; simpl.
  - exists []. split; [reflexivity | constructor].
  - destruct (H x (or_introl eq_refl)) as [y Hy]. rewrite Hy.
    destruct IH as (ys & Hys & Hall).
    + intros x' Hin. apply H. right. exact Hin.
    + rewrite Hys. exists (y :: ys). split; [reflexivity|]. constructor; assumption.
Qed.

Lemma traverse_some_err {A B} (f : A -> Result B) (xs : list A) (x : A) (e : JsError) :
  In x xs -> f x = Err e -> exists e', traverse f xs = Err e'.
Proof.
  induction xs as [|x0 xs IH]; intros Hin He; simpl; [contradiction|].
  destruct Hin as [->|Hin].
  - rewrite He. exists e. reflexivity.
  - destruct (f x0) as [y|e0]; [|exists e0; reflexivity].
    destruct (IH Hin He) as [e' He']. rewrite He'. exists e'. reflexivity.
Qed.

(** ** npm *)

Lemma npmNestedLookup_first_hit (name : string) (before after : Lookup.t NpmPackage)
    (k : string) (q p : NpmPackage) (d : Lookup.t NpmPackage) :
  npm_deps q = Some d ->
  Lookup.get d name = Some p ->
  (forall k' q' d', In (k', q') before -> npm_deps q' = Some d' ->
                    Lookup.get d' name = None) ->
  npmNestedLookup (before ++ (k, q) :: after)%list name = Some p.
Proof.
  intros Hd Hp. induction before as [|[k0 q0] before IH]; intro Hnone; simpl.
  - rewrite Hd, Hp. reflexivity.
  - destruct (npm_deps q0) as [d0|] eqn:E0.
    + rewrite (Hnone k0 q0 d0 (or_introl eq_refl) E0).
      apply IH. intros k' q' d' Hin Hd'.
      apply (Hnone k' q' d'); [right; exact Hin | exact Hd'].
    + apply IH. intros k' q' d' Hin Hd'.
      apply (Hnone k' q' d'); [right; exact Hin | exact Hd'].
Qed.

Lemma npmNestedLookup_no_hit (name : string) (top : Lookup.t NpmPackage) :
  (forall k q d, In (k, q) top -> npm_deps q = Some d -> Lookup.get d name = None) ->
  npmNestedLookup top name = None.
Proof.
  induction top as [|[k0 q0] top IH]; intro Hnone; simpl; [reflexivity|].
  destruct (npm_deps q0) as [d0|] eqn:E0.
  - rewrite (Hnone k0 q0 d0 (or_introl eq_refl) E0).
    apply IH. intros k q d Hin Hd.
    apply (Hnone k q d); [right; exact Hin | exact Hd].
  - apply IH. intros k q d Hin Hd.
    apply (Hnone k q d); [right; exact Hin | exact Hd].
Qed.

(** ** os-release lines *)

Lemma split_length (c : ascii) (s : string) :
  List.length (JsString.split c s) = S (JsString.count c s).
Proof.
  induction s as [|d s IH]; simpl; [reflexivity|].
  destruct (Ascii.eqb d c); simpl.
  - rewrite IH. reflexivity.
  - destruct (JsString.split c s) as [|x l]; simpl in *; [discriminate | exact IH].
Qed.

Lemma split_no_separator (c : ascii) (s : string) :
  JsString.count c s = 0 -> JsString.split c s = [s].
Proof.
  induction s as [|d s IH]; simpl; [reflexivity|].
  destruct (Ascii.eqb d c); simpl; [discriminate|].
  intro H. rewrite (IH H). reflexivity.
Qed.

Lemma split_one_separator (c : ascii) (s : string) :
  JsString.count c s = 1 ->
  exists key value,
    s = key ++ String c value
    /\ JsString.count c key = 0 /\ JsString.count c value = 0
    /\ JsString.split c s = [key; value].
Proof.
  induction s as [|d s IH]; simpl; [discriminate|].
  destruct (Ascii.eqb_spec d c) as [->|Hne]; simpl.
  - intro H. injection H as H. exists "", s.
    rewrite (split_no_separator c s H). repeat split; assumption.
  - intro H. destruct (IH H) as (key & value & -> & Hk & Hv & Hs).
    exists (String d key), value. rewrite Hs. simpl.
    destruct (Ascii.eqb_spec d c); [contradiction|]. repeat split; assumption.
Qed.

Section OsRelease.
Variable env : Env.

(** C8, as the code has it.  A line with exactly one `=` has the form
    key=value and sets one entry: the key is the trimmed left-hand side
    converted by `snakeCaseToCamelCase`, the value is the right-hand side with
    every double-quote character removed, wherever it stands, and then
    trimmed.  A line with no `=` or with more than one leaves the mapping as
    it is; the function is total, so no line is an error. *)
Theorem os_release_line :
  forall (info : DistroInfo) (line : string),
    (JsString.count "=" line = 1 ->
     exists key value,
       line = key ++ "=" ++ value
       /\ JsString.count "=" key = 0 /\ JsString.count "=" value = 0
       /\ distroInfoLine env info line
          = Lookup.set info (snakeCaseToCamelCase env (JsString.trim key))
              (JsString.trim (JsString.replaceAllChar DQ "" value))
       /\ Lookup.get (distroInfoLine env info line)
            (snakeCaseToCamelCase env (JsString.trim key))
          = Some (JsString.trim (JsString.replaceAllChar DQ "" value)))
    /\ (JsString.count "=" line <> 1 -> distroInfoLine env info line = info).
Proof.
  intros info line. split.
  - intro H. destruct (split_one_separator "=" line H) as (key & value & -> & Hk & Hv & Hs).
    exists key, value. unfold distroInfoLine. rewrite Hs.
    repeat split; try assumption.
    rewrite get_set, String.eqb_refl. reflexivity.
  - intro H. unfold distroInfoLine.
    pose proof (split_length "=" line) as Hlen.
    destruct (JsString.split "=" line) as [|a [|b [|c l]]]; try reflexivity.
    simpl in Hlen. injection Hlen as Hlen. symmetry in Hlen. contradiction.
Qed.

End OsRelease.

(** A right-hand side with quotes inside it: the code drops them, though they
    do not surround the value. *)
Lemma os_release_inner_quotes_removed :
  let env := Sample.plainEnv [] in
  let rhs := "My " ++ Sample.quoted "Best" ++ " Linux" in
  let line := "NAME=" ++ rhs in
  JsString.count "=" line = 1
  /\ Lookup.get (distroInfoLine env [] line) "name" = Some "My Best Linux"
  /\ specifiedValue rhs = rhs
  /\ "My Best Linux" <> specifiedValue rhs.
Proof. vm_compute. repeat split. discriminate. Qed.

Lemma os_release_line_witness :
  let env := Sample.plainEnv [] in
  let line := "PRETTY_NAME=" ++ Sample.quoted "Debian GNU/Linux 10 (buster)" in
  distroInfoLine env [] line = [("prettyName", "Debian GNU/Linux 10 (buster)")]
  /\ distroInfoLine env [] "# a comment" = []
  /\ distroInfoLine env [] "OPTS=a=b" = [].
Proof.
  intros env line.
  destruct (os_release_line env [] line) as [Hone _].
  destruct (os_release_line env [] "# a comment") as [_ Hzero].
  destruct (os_release_line env [] "OPTS=a=b") as [_ Htwo].
  split; [|split].
  - destruct (Hone eq_refl) as (key & value & Hline & Hk & Hv & Hset & _).
    rewrite Hset.
    assert (Hsplit : JsString.split "=" line = [key; value]).
    { rewrite Hline. clear - Hk Hv.
      induction key as [|c key IH]; simpl in *.
      - rewrite (split_no_separator "=" value Hv). reflexivity.
      - destruct (Ascii.eqb c "="); [discriminate|]. rewrite (IH Hk). reflexivity. }
    vm_compute in Hsplit. inversion Hsplit; subst key value. reflexivity.
  - apply Hzero. vm_compute. discriminate.
  - apply Htwo. vm_compute. discriminate.
Defined.

(** ** Taking a successful run apart *)

Lemma bind_ok {A B} (m : M A) (f : A -> M B) (h : list Event) (b : B)
    (ev : list Event) :
  bind m f h = (Ok b, ev) ->
  exists a ev1 ev2,
    m h = (Ok a, ev1) /\ f a (h ++ ev1)%list = (Ok b, ev2) /\ ev = (ev1 ++ ev2)%list.
Proof.
  unfold bind. destruct (m h) as [[a|e] ev1]; [|discriminate].
  destruct (f a (h ++ ev1)%list) as [r ev2] eqn:E. intro H. injection H as -> <-.
  exists a, ev1, ev2. repeat split. exact E.
Qed.

Lemma ret_ok {A} (a b : A) (h ev : list Event) :
  ret a h = (Ok b, ev) -> b = a /\ ev = [].
Proof. unfold ret. intro H. injection H as <- <-. split; reflexivity. Qed.

Lemma lift_ok {A} (r : Result A) (b : A) (h ev : list Event) :
  lift r h = (Ok b, ev) -> r = Ok b /\ ev = [].
Proof. unfold lift. intro H. injection H as -> <-. split; reflexivity. Qed.

Lemma throw_ok {A} (e : JsError) (b : A) (h ev : list Event) :
  @throw A e h = (Ok b, ev) -> False.
Proof. unfold throw. discriminate. Qed.

(** Take a successful run apart, statement by statement. *)
Ltac run_inv :=
  repeat match goal with
         | H : bind _ _ _ = (Ok _, _) |- _ =>
             apply bind_ok in H; destruct H as (? & ? & ? & ? & H & ?)
         | H : ret _ _ = (Ok _, _) |- _ => apply ret_ok in H; destruct H as [? ?]
         | H : lift _ _ = (Ok _, _) |- _ => apply lift_ok in H; destruct H as [? ?]
         | H : throw _ _ = (Ok _, _) |- _ => apply throw_ok in H; contradiction
         | H : (match ?x with _ => _ end) _ = (Ok _, _) |- _ => destruct x eqn:?
         | H : (let (_, _) := ?x in _) _ = (Ok _, _) |- _ => destruct x eqn:?
         end.



(* ========================================================================= *)
(** * Further properties *)

(** ** Text between the sentinels *)

Lemma length_append (a b : string) :
  String.length (a ++ b) = String.length a + String.length b.
Proof. induction a as [|c a IH]; simpl; [reflexivity | rewrite IH; reflexivity]. Qed.

Lemma append_assoc (a b c : string) : (a ++ b) ++ c = a ++ (b ++ c).
Proof. induction a as [|d a IH]; simpl; [reflexivity | rewrite IH; reflexivity]. Qed.

Lemma substring_skip (x s : string) (n m : nat) :
  String.substring (String.length x + n) m (x ++ s) = String.substring n m s.
Proof. induction x as [|c x IH]; simpl; [reflexivity | exact IH]. Qed.

Lemma substring_prefix (y z : string) :
  String.substring 0 (String.length y) (y ++ z) = y.
Proof.
  induction y as [|c y IH]; simpl.
  - destruct z; reflexivity.
  - rewrite IH. reflexivity.
Qed.

Lemma count_zero_head (c d : ascii) (s : string) :
  JsString.count c (String d s) = 0 -> Ascii.eqb d c = false /\ JsString.count c s = 0.
Proof.
  simpl. destruct (Ascii.eqb d c); [discriminate|]. intro H. split; [reflexivity | exact H].
Qed.

Lemma indexOf_nat_skip (c : ascii) (needle a rest : string) :
  JsString.count c a = 0 ->
  JsString.indexOf_nat (a ++ rest) (String c needle)
  = option_map (fun i => String.length a + i) (JsString.indexOf_nat rest (String c needle)).
Proof.
  induction a as [|d a IH]; intro H.
  - simpl. destruct (JsString.indexOf_nat rest (String c needle)); reflexivity.
  - apply count_zero_head in H as [Hd Ha].
    change (String d a ++ rest) with (String d (a ++ rest)).
    cbn [JsString.indexOf_nat prefix].
    destruct (ascii_dec c d) as [->|_].
    + rewrite Ascii.eqb_refl in Hd. discriminate.
    + rewrite (IH Ha).
      destruct (JsString.indexOf_nat rest (String c needle)); reflexivity.
Qed.

Lemma indexOf_nat_here (needle rest : string) :
  JsString.indexOf_nat (needle ++ rest) needle = Some 0.
Proof.
  pose proof (prefix_append needle rest) as H.
  destruct (needle ++ rest); cbn [JsString.indexOf_nat]; rewrite H; reflexivity.
Qed.

Lemma indexOf_nat_step (d : ascii) (s needle : string) :
  prefix needle (String d s) = false ->
  JsString.indexOf_nat (String d s) needle
  = option_map S (JsString.indexOf_nat s needle).
Proof. intro H. cbn [JsString.indexOf_nat]. rewrite H. reflexivity. Qed.

Lemma trim_leading_newline (s : string) :
  JsString.trim (String LF s) = JsString.trim s.
Proof. reflexivity. Qed.

(** X1.  Round trip through the sentinel framing.  When the captured output is
    some banner, the BEGIN sentinel and its line end, a text, the END sentinel
    and anything after it, and neither the banner nor the text contains a
    tilde, the filter gives back the text, trimmed; so does the runner when
    the process exits with zero. *)
Theorem framed_output_round_trip :
  forall (env : Env) (target command : string) (forceRoot : bool) (h : list Event)
         (banner text rest : string),
    JsString.count "~" banner = 0 ->
    JsString.count "~" text = 0 ->
    let out := banner ++ "~~~BEGIN~~~" ++ str LF ++ text ++ "~~~END~~~" ++ rest in
    filterResult out = JsString.trim text
    /\ (docker env h "docker" (runArgs target command forceRoot) pipe
        = {| exitCode := 0; output := out |} ->
        fst (getCommandOutputFromContainer env target command forceRoot h)
        = Ok (JsString.trim text)).
Proof.
  intros env target command forceRoot h banner text rest Hb Ht out.
  assert (Hbegin : JsString.indexOf out "~~~BEGIN~~~" = Z.of_nat (String.length banner)).
  { unfold JsString.indexOf. subst out.
    rewrite (indexOf_nat_skip "~" "~~BEGIN~~~" banner _ Hb).
    rewrite indexOf_nat_here. simpl. rewrite Nat.add_0_r. reflexivity. }
  assert (Hend : JsString.indexOf out "~~~END~~~"
                 = Z.of_nat (String.length banner + 11 + S (String.length text))).
  { unfold JsString.indexOf. subst out.
    rewrite (indexOf_nat_skip "~" "~~END~~~" banner _ Hb).
    change ("~~~BEGIN~~~" ++ str LF ++ text ++ "~~~END~~~" ++ rest)
      with ("~~~BEGIN~~~" ++ String LF (text ++ "~~~END~~~" ++ rest)).
    cbn [append].
    repeat (rewrite indexOf_nat_step by reflexivity).
    rewrite (indexOf_nat_skip "~" "~~END~~~" text _ Ht).
    pose proof (indexOf_nat_here "~~~END~~~" rest) as Hhere.
    cbn [append] in Hhere. rewrite Hhere. cbn [option_map]. f_equal. lia. }
  assert (Hfilter : filterResult out = JsString.trim text).
  { unfold filterResult. rewrite Hbegin, Hend. unfold JsString.substring, JsString.clamp.
    assert (Hlen : String.length out
                   = String.length banner + 11 + S (String.length text)
                     + (9 + String.length rest)).
    { subst out. rewrite !length_append. simpl. lia. }
    rewrite Hlen.
    replace (Z.to_nat _) with (String.length banner + 11) by lia.
    replace (Z.to_nat _) with (S (String.length text)) by lia.
    subst out.
    replace (banner ++ "~~~BEGIN~~~" ++ str LF ++ text ++ "~~~END~~~" ++ rest)
      with ((banner ++ "~~~BEGIN~~~") ++ String LF text ++ "~~~END~~~" ++ rest)
      by (rewrite append_assoc; reflexivity).
    replace (String.length banner + 11) with (String.length (banner ++ "~~~BEGIN~~~") + 0)
      by (rewrite length_append; simpl; lia).
    rewrite substring_skip.
    change (S (String.length text)) with (String.length (String LF text)).
    rewrite substring_prefix. apply trim_leading_newline. }
  split; [exact Hfilter|].
  intro Hrun. rewrite command_runner_run, Hrun. simpl. rewrite Hfilter. reflexivity.
Qed.

Lemma framed_output_round_trip_witness :
  let banner := "Welcome to the image" ++ str LF in
  let text := "vscode" ++ str LF ++ str LF in
  let out := banner ++ "~~~BEGIN~~~" ++ str LF ++ text ++ "~~~END~~~" ++ str LF in
  let env := Sample.plainEnv [Sample.ok out] in
  fst (getCommandOutputFromContainer env "debian" "id -un 1000" true []) = Ok "vscode".
Proof.
  intros banner text out env.
  apply (proj2 (@framed_output_round_trip env "debian" "id -un 1000" true []
                  banner text (str LF) eq_refl eq_refl)).
  reflexivity.
Defined.

(** ** The runner's text is trimmed *)

Lemma trimEnd_idempotent (s : string) :
  JsString.trimEnd (JsString.trimEnd s) = JsString.trimEnd s.
Proof.
  induction s as [|c s IH]; [reflexivity|].
  cbn [JsString.trimEnd]. destruct (JsString.trimEnd s) as [|d r] eqn:E.
  - destruct (JsString.is_ws c) eqn:Ec; [reflexivity|].
    cbn [JsString.trimEnd]. rewrite Ec. reflexivity.
  - cbn [JsString.trimEnd] in *. rewrite IH. reflexivity.
Qed.

Lemma trimStart_head (s : string) (c : ascii) (r : string) :
  JsString.trimStart s = String c r -> JsString.is_ws c = false.
Proof.
  induction s as [|d s IH]; simpl; [discriminate|].
  destruct (JsString.is_ws d) eqn:Ed; [exact IH|].
  intro H. injection H as <- _. exact Ed.
Qed.

Lemma trimEnd_head (c : ascii) (s : string) :
  JsString.is_ws c = false ->
  exists r, JsString.trimEnd (String c s) = String c r.
Proof.
  intro Hc. cbn [JsString.trimEnd]. destruct (JsString.trimEnd s) as [|d r].
  - rewrite Hc. exists "". reflexivity.
  - exists (String d r). reflexivity.
Qed.

Lemma trimEnd_last (s : string) (c : ascii) :
  lastChar (JsString.trimEnd s) = Some c -> JsString.is_ws c = false.
Proof.
  induction s as [|d s IH]; [discriminate|].
  cbn [JsString.trimEnd]. destruct (JsString.trimEnd s) as [|e r] eqn:E.
  - destruct (JsString.is_ws d) eqn:Ed; [discriminate|].
    simpl. intro H. injection H as <-. exact Ed.
  - cbn [lastChar]. exact IH.
Qed.

Lemma trim_shape (s : string) :
  JsString.trim (JsString.trim s) = JsString.trim s
  /\ (forall c r, JsString.trim s = String c r -> JsString.is_ws c = false)
  /\ (forall c, lastChar (JsString.trim s) = Some c -> JsString.is_ws c = false).
Proof.
  unfold JsString.trim. destruct (JsString.trimStart s) as [|c0 t] eqn:E.
  - repeat split; simpl; discriminate.
  - pose proof (@trimStart_head s c0 t E) as Hc0.
    destruct (@trimEnd_head c0 t Hc0) as [r0 Hr0]. split; [|split].
    + rewrite Hr0. cbn [JsString.trimStart]. rewrite Hc0, <- Hr0.
      apply trimEnd_idempotent.
    + intros c r H. rewrite Hr0 in H. injection H as <- _. exact Hc0.
    + apply trimEnd_last.
Qed.

(** X2.  Whatever the container prints, the text that the command runner
    hands to an extractor is trimmed: trimming it again changes nothing, and
    it neither begins nor ends with a white-space character. *)
Theorem command_runner_text_is_trimmed :
  forall (env : Env) (target command : string) (forceRoot : bool) (h : list Event)
         (text : string),
    fst (getCommandOutputFromContainer env target command forceRoot h) = Ok text ->
    JsString.trim text = text
    /\ (forall c r, text = String c r -> JsString.is_ws c = false)
    /\ (forall c, lastChar text = Some c -> JsString.is_ws c = false).
Proof.
  intros env target command forceRoot h text H.
  rewrite command_runner_run in H. cbn [fst] in H.
  destruct (exitCode _ =? 0)%Z; [|discriminate].
  injection H as <-. unfold filterResult. apply trim_shape.
Qed.

Lemma command_runner_text_is_trimmed_witness :
  let env := Sample.plainEnv [Sample.framed ("  10 (buster) " ++ str LF)] in
  JsString.trim "10 (buster)" = "10 (buster)"
  /\ JsString.is_ws "1" = false.
Proof.
  intros env.
  destruct (@command_runner_text_is_trimmed env "debian" "cat /etc/debian_version"
              false [] "10 (buster)" eq_refl) as (H1 & H2 & _).
  split; [exact H1|]. apply (H2 "1"%char "0 (buster)"). reflexivity.
Defined.

(** ** The distro mapping *)

Lemma count_replaceAllChar_empty (c : ascii) (s : string) :
  JsString.count c (JsString.replaceAllChar c "" s) = 0.
Proof.
  induction s as [|d s IH]; simpl; [reflexivity|].
  destruct (Ascii.eqb d c) eqn:E; simpl; [exact IH|]. rewrite E. exact IH.
Qed.

Lemma count_trimStart_zero (c : ascii) (s : string) :
  JsString.count c s = 0 -> JsString.count c (JsString.trimStart s) = 0.
Proof.
  induction s as [|d s IH]; [reflexivity|]. intro H.
  cbn [JsString.trimStart]. destruct (JsString.is_ws d); [|exact H].
  apply IH. apply count_zero_head in H as [_ H]. exact H.
Qed.

Lemma count_trimEnd_zero (c : ascii) (s : string) :
  JsString.count c s = 0 -> JsString.count c (JsString.trimEnd s) = 0.
Proof.
  induction s as [|d s IH]; [reflexivity|]. intro H.
  apply count_zero_head in H as [Hd Hs]. specialize (IH Hs).
  cbn [JsString.trimEnd]. destruct (JsString.trimEnd s) as [|e r].
  - destruct (JsString.is_ws d); simpl; [reflexivity|]. rewrite Hd. reflexivity.
  - cbn [JsString.count] in *. rewrite Hd. exact IH.
Qed.

Lemma in_keys_set {V} (o : Lookup.t V) (k k' : string) (v : V) :
  In k' (Lookup.keys (Lookup.set o k v)) -> k' = k \/ In k' (Lookup.keys o).
Proof.
  unfold Lookup.keys. induction o as [|[k0 v0] o IH]; simpl.
  - intros [<-|[]]. left. reflexivity.
  - destruct (String.eqb_spec k0 k) as [->|_]; simpl.
    + intros [<-|H]; [left; reflexivity | right; right; exact H].
    + intros [<-|H]; [right; left; reflexivity|].
      destruct (IH H) as [->|H']; [left; reflexivity | right; right; exact H'].
Qed.

Lemma NoDup_keys_set {V} (o : Lookup.t V) (k : string) (v : V) :
  NoDup (Lookup.keys o) -> NoDup (Lookup.keys (Lookup.set o k v)).
Proof.
  unfold Lookup.keys. induction o as [|[k0 v0] o IH]; simpl; intro H.
  - constructor; [intros [] | constructor].
  - inversion H as [|? ? Hnotin Hrest]; subst.
    destruct (String.eqb_spec k0 k) as [->|Hne]; simpl.
    + constructor; assumption.
    + constructor; [|apply IH; exact Hrest].
      intro Hin. apply (@in_keys_set V o k k0 v) in Hin as [Heq|Hin];
        [congruence | contradiction].
Qed.

Lemma Forall_set {V} (P : string * V -> Prop) (o : Lookup.t V) (k : string) (v : V) :
  (forall k0, P (k0, v)) -> Forall P o -> Forall P (Lookup.set o k v).
Proof.
  intros Hv. induction o as [|[k0 v0] o IH]; simpl; intro H.
  - constructor; [apply Hv | constructor].
  - inversion H; subst. destruct (String.eqb k0 k).
    + constructor; [apply Hv | assumption].
    + constructor; [assumption | apply IH; assumption].
Qed.

Lemma get_in {V} (o : Lookup.t V) (k : string) (v : V) :
  Lookup.get o k = Some v -> In (k, v) o.
Proof.
  induction o as [|[k0 v0] o IH]; simpl; [discriminate|].
  destruct (String.eqb_spec k0 k) as [->|_].
  - intro H. injection H as <-. left. reflexivity.
  - intro H. right. apply IH, H.
Qed.

Section DistroMapping.
Variable env : Env.

(** X3.  The mapping read from os-release has every key once, and every value
    in it is free of double quotes and trimmed. *)
Theorem distro_info_well_formed :
  forall osInfoCommandOutput : string,
    let info := parseOsRelease env osInfoCommandOutput in
    NoDup (Lookup.keys info)
    /\ (forall k v, Lookup.get info k = Some v ->
                    JsString.count DQ v = 0 /\ JsString.trim v = v).
Proof.
  intros out info.
  set (good := fun kv : string * string =>
                 JsString.count DQ (snd kv) = 0 /\ JsString.trim (snd kv) = snd kv).
  assert (Hinv : forall lines acc,
             NoDup (Lookup.keys acc) /\ Forall good acc ->
             NoDup (Lookup.keys (fold_left (distroInfoLine env) lines acc))
             /\ Forall good (fold_left (distroInfoLine env) lines acc)).
  { induction lines as [|line lines IH]; intros acc [Hk Hv]; [split; assumption|].
    simpl. apply IH. unfold distroInfoLine.
    destruct (JsString.split "=" line) as [|key [|value [|x l]]];
      try (split; assumption).
    split; [apply NoDup_keys_set; exact Hk|].
    apply Forall_set; [|exact Hv]. intro k0. unfold good. cbn [snd]. split.
    - unfold JsString.trim. apply count_trimEnd_zero, count_trimStart_zero,
        count_replaceAllChar_empty.
    - apply trim_shape. }
  destruct (Hinv (JsString.split LF out) []) as [Hk Hv].
  { split; constructor. }
  split; [exact Hk|]. intros k v Hget.
  apply get_in in Hget. rewrite Forall_forall in Hv. apply (Hv (k, v) Hget).
Qed.

(** X4.  Of the lines that set a key, the last one counts: the value of a
    line with exactly one `=` is the value of its key in the mapping unless a
    later line with exactly one `=` has the same converted key. *)
Theorem os_release_last_line_wins :
  forall (osInfoCommandOutput : string) (before after : list string)
         (line key value : string),
    JsString.split LF osInfoCommandOutput = (before ++ line :: after)%list ->
    JsString.split "=" line = [key; value] ->
    (forall later key' value',
        In later after ->
        JsString.split "=" later = [key'; value'] ->
        snakeCaseToCamelCase env (JsString.trim key')
        <> snakeCaseToCamelCase env (JsString.trim key)) ->
    Lookup.get (parseOsRelease env osInfoCommandOutput)
      (snakeCaseToCamelCase env (JsString.trim key))
    = Some (JsString.trim (JsString.replaceAllChar DQ "" value)).
Proof.
  intros out before after line key value Hlines Hline Hlater.
  unfold parseOsRelease. rewrite Hlines, fold_left_app. cbn [fold_left].
  set (k := snakeCaseToCamelCase env (JsString.trim key)) in *.
  set (v := JsString.trim (JsString.replaceAllChar DQ "" value)).
  assert (Hset : Lookup.get (distroInfoLine env (fold_left (distroInfoLine env) before [])
                               line) k = Some v).
  { unfold distroInfoLine. rewrite Hline. fold k. fold v.
    rewrite get_set, String.eqb_refl. reflexivity. }
  revert Hset.
  generalize (distroInfoLine env (fold_left (distroInfoLine env) before []) line).
  clear Hlines Hline. revert Hlater.
  induction after as [|later after IH]; intros Hlater acc Hacc; [exact Hacc|].
  cbn [fold_left]. apply IH.
  - intros l k' v' Hin. apply Hlater. right. exact Hin.
  - unfold distroInfoLine.
    destruct (JsString.split "=" later) as [|key' [|value' [|x l]]] eqn:E;
      try exact Hacc.
    rewrite get_set.
    destruct (String.eqb_spec (snakeCaseToCamelCase env (JsString.trim key')) k)
      as [Heq|_]; [|exact Hacc].
    exfalso. apply (Hlater later key' value' (or_introl eq_refl) E). exact Heq.
Qed.

End DistroMapping.

Lemma distro_info_well_formed_witness :
  let env := Sample.plainEnv [] in
  let out := "ID=debian" ++ str LF ++ "VERSION_ID=" ++ Sample.quoted "10" in
  JsString.count DQ "10" = 0 /\ JsString.trim "10" = "10".
Proof.
  intros env out.
  apply (proj2 (distro_info_well_formed env out) "versionId" "10"). reflexivity.
Defined.

Lemma os_release_last_line_wins_witness :
  let env := Sample.plainEnv [] in
  let out := "ID=first" ++ str LF ++ "ID=debian" ++ str LF ++ "NAME=x" in
  Lookup.get (parseOsRelease env out) "id" = Some "debian".
Proof.
  intros env out.
  apply (@os_release_last_line_wins env out ["ID=first"] ["NAME=x"] "ID=debian"
           "ID" "debian" eq_refl eq_refl).
  intros later key' value' [<-|[]] H. injection H as <- _. discriminate.
Defined.

(** ** A whole run *)

Section WholeRun.
Variable env : Env.
Variable C : Type.

Lemma getAllContentInfo_run (imageTag : string)
    (dependencies : DependencyInfoExtractionSettingsGroup C) (h : list Event) :
  let containerName := "vscdc--extract--" ++ JsString.of_N (Date_now env) in
  let start := Spawn "docker" (startArgs containerName imageTag) inherit in
  let started := docker env h "docker" (startArgs containerName imageTag) inherit in
  let body := extractContents env containerName dependencies (h ++ [start])%list in
  let remove := Spawn "docker" ["rm"; "-f"; containerName] inherit in
  let h2 := ((h ++ [start]) ++ snd body)%list in
  let rm1 := docker env h2 "docker" ["rm"; "-f"; containerName] inherit in
  let rm2 :=
    docker env (h2 ++ [remove])%list "docker" ["rm"; "-f"; containerName] inherit in
  getAllContentInfo env imageTag dependencies h =
  if (exitCode started =? 0)%Z then
    match fst body with
    | Ok contents =>
        if (exitCode rm1 =? 0)%Z
        then (Ok contents, start :: snd body ++ [remove])%list
        else (if (exitCode rm2 =? 0)%Z
              then Err (SpawnRejection (exitCode rm1) (output rm1))
              else Err (SpawnRejection (exitCode rm2) (output rm2)),
              start :: (snd body ++ [remove]) ++ [remove])%list
    | Err e =>
        (if (exitCode rm1 =? 0)%Z then Err e
         else Err (SpawnRejection (exitCode rm1) (output rm1)),
         start :: snd body ++ [remove])%list
    end
  else (Err (SpawnRejection (exitCode started) (output started)), [start]).
Proof.
  intros containerName start started body remove h2 rm1 rm2.
  unfold getAllContentInfo, startContainerForProcessing.
  unfold bind at 1 2. unfold asyncUtils_spawn at 1.
  fold containerName. fold (startArgs containerName imageTag). fold started.
  destruct (exitCode started =? 0)%Z; [|reflexivity].
  cbn [ret app].
  unfold removeProcessingContainer, try_catch, bind, asyncUtils_spawn, ret, throw.
  fold start. fold body.
  subst rm2 rm1 h2. clearbody body.
  destruct body as [[contents|e] evb]; cbn [fst snd].
  - destruct (exitCode (docker env ((h ++ [start]) ++ evb)%list _ _ _) =? 0)%Z;
      cbn [app]; [reflexivity|].
    rewrite (app_assoc (h ++ [start]) evb). fold remove.
    destruct (exitCode _ =? 0)%Z; cbn [app]; rewrite ?app_nil_r; reflexivity.
  - destruct (exitCode _ =? 0)%Z; cbn [app]; rewrite ?app_nil_r; reflexivity.
Qed.

(** X5.  When the helper container cannot be started, the run ends there:
    the caller gets the failure of `docker run`, no extraction command is
    issued and no removal is requested. *)
Theorem failed_start_ends_the_run :
  forall (imageTag : string) (dependencies : DependencyInfoExtractionSettingsGroup C)
         (h : list Event),
    let containerName := "vscdc--extract--" ++ JsString.of_N (Date_now env) in
    let started := docker env h "docker" (startArgs containerName imageTag) inherit in
    exitCode started <> 0%Z ->
    getAllContentInfo env imageTag dependencies h
    = (Err (SpawnRejection (exitCode started) (output started)),
       [Spawn "docker" (startArgs containerName imageTag) inherit]).
Proof.
  intros imageTag dependencies h containerName started H.
  rewrite getAllContentInfo_run. fold containerName. fold started.
  apply Z.eqb_neq in H. rewrite H. reflexivity.
Qed.

(** X6.  In a run whose helper container was started, the first event is the
    start of the container and the last is the request to remove it: nothing
    is logged and no command is issued after the removal. *)
Theorem run_starts_and_ends_with_the_container :
  forall (imageTag : string) (dependencies : DependencyInfoExtractionSettingsGroup C)
         (h : list Event),
    let containerName := "vscdc--extract--" ++ JsString.of_N (Date_now env) in
    exitCode (docker env h "docker" (startArgs containerName imageTag) inherit) = 0%Z ->
    exists middle,
      snd (getAllContentInfo env imageTag dependencies h)
      = (Spawn "docker" (startArgs containerName imageTag) inherit
         :: middle ++ [Spawn "docker" ["rm"; "-f"; containerName] inherit])%list.
Proof.
  intros imageTag dependencies h containerName H.
  rewrite getAllContentInfo_run. fold containerName. rewrite H. cbn [Z.eqb].
  destruct (fst (extractContents env containerName dependencies _)) as [contents|e].
  - destruct (exitCode _ =? 0)%Z; cbn [snd]; eexists; reflexivity.
  - cbn [snd]. eexists. reflexivity.
Qed.

(** X7.  The `manual` components of the request are handed through: a run
    that returns contents returns the caller's list under `manual`. *)
Theorem manual_components_passed_through :
  forall (imageTag : string) (dependencies : DependencyInfoExtractionSettingsGroup C)
         (h : list Event) (contents : ExtractedInfo C),
    fst (getAllContentInfo env imageTag dependencies h) = Ok contents ->
    manual contents = deps_manual dependencies.
Proof.
  intros imageTag dependencies h contents H.
  rewrite getAllContentInfo_run in H.
  destruct (exitCode _ =? 0)%Z; [|discriminate].
  destruct (extractContents env _ dependencies _) as [r ev] eqn:E. cbn [fst snd] in H.
  assert (Hr : r = Ok contents).
  { destruct r as [c|e].
    - destruct (exitCode _ =? 0)%Z; [|destruct (exitCode _ =? 0)%Z; discriminate].
      injection H as <-. reflexivity.
    - destruct (exitCode _ =? 0)%Z; discriminate. }
  subst r. unfold extractContents in E. run_inv. subst. reflexivity.
Qed.

End WholeRun.

Lemma failed_start_ends_the_run_witness :
  let env := Sample.plainEnv [Sample.failed 125 "docker: Error response from daemon"] in
  getAllContentInfo env "debian" Sample.noDependencies []
  = (Err (SpawnRejection 125 "docker: Error response from daemon"),
     [Spawn "docker" (startArgs "vscdc--extract--1617235200000" "debian") inherit]).
Proof.
  intros env.
  apply (@failed_start_ends_the_run env unit "debian" Sample.noDependencies []).
  vm_compute. discriminate.
Defined.

Lemma run_starts_and_ends_with_the_container_witness :
  let env :=
    Sample.plainEnv
      [Sample.ok ""; Sample.framed "ID=debian"; Sample.ok "sha256:abc";
       Sample.ok "debian@sha256:123"; Sample.framed "vscode"; Sample.framed "";
       Sample.ok ""] in
  exists middle,
    snd (getAllContentInfo env "debian" Sample.noDependencies [])
    = (Spawn "docker" (startArgs "vscdc--extract--1617235200000" "debian") inherit
       :: middle
       ++ [Spawn "docker" ["rm"; "-f"; "vscdc--extract--1617235200000"] inherit])%list.
Proof.
  intros env.
  apply (@run_starts_and_ends_with_the_container env unit "debian"
           Sample.noDependencies []).
  reflexivity.
Defined.

Lemma manual_components_passed_through_witness :
  let env :=
    Sample.plainEnv
      [Sample.ok ""; Sample.framed "ID=debian"; Sample.ok "sha256:abc";
       Sample.ok "debian@sha256:123"; Sample.framed "vscode"; Sample.framed "";
       Sample.ok ""] in
  exists contents,
    fst (getAllContentInfo env "debian" Sample.noDependencies []) = Ok contents
    /\ manual contents = [].
Proof.
  intros env. eexists. split.
  - vm_compute. reflexivity.
  - eapply (@manual_components_passed_through env unit "debian"
              Sample.noDependencies []).
    vm_compute. reflexivity.
Defined.

(** ** A run talks to the helper container only *)

Section ContainerEvents.
Variable env : Env.
Variable containerName : string.
Hypothesis is_container : isContainerName containerName = true.

Lemma execOrInspect_log (line : string) : execOrInspect (Log line) = true.
Proof. reflexivity. Qed.

Lemma runner_execs (command : string) (forceRoot : bool) :
  emits execOrInspect (getCommandOutputFromContainer env containerName command forceRoot).
Proof.
  intro h. rewrite command_runner_run. simpl. unfold runArgs.
  rewrite is_container. destruct forceRoot; reflexivity.
Qed.

Lemma inspect_inspects (args : list string) :
  emits execOrInspect (asyncUtils_spawn env "docker" ("inspect" :: args) pipe).
Proof. intro h. reflexivity. Qed.

Hint Resolve execOrInspect_log : core.

Ltac container_emits :=
  repeat first [ apply runner_execs | apply inspect_inspects | emits_step ].

(** X8.  Against a target that carries the container prefix, the extraction
    steps only write log lines and invoke `docker exec` and `docker inspect`:
    no step creates a container of its own with `docker run`. *)
Theorem extraction_uses_the_running_container :
  forall (D : Type) (dependencies : DependencyInfoExtractionSettingsGroup D)
         (h : list Event),
    forallb execOrInspect (snd (extractContents env containerName dependencies h)) = true.
Proof.
  intros D dependencies. change (emits execOrInspect
                                   (extractContents env containerName dependencies)).
  unfold extractContents, getLinuxDistroInfo, getImageInfo, getLinuxPackageInfo,
    linuxPackageLine, getPoolUrlFromPackageVersionListOutput,
    getNpmGlobalPackageInfo, getPipPackageInfo, getPipxVersionLookup,
    getPipVersionLookup, getGemPackageInfo, getCargoPackageInfo, cargoPackage,
    getGoPackageInfo, goPackage, goLogVersion, getGitRepositoryInfo, gitRepository,
    getOtherDependencyInfo, otherDependency.
  container_emits.
Qed.

End ContainerEvents.

Lemma extraction_uses_the_running_container_witness :
  let env := Sample.plainEnv [Sample.framed "ID=debian"; Sample.failed 1 ""] in
  forallb execOrInspect
    (snd (extractContents env "vscdc--extract--1617235200000" Sample.noDependencies []))
  = true.
Proof.
  intros env.
  apply (@extraction_uses_the_running_container env "vscdc--extract--1617235200000"
           eq_refl unit Sample.noDependencies []).
Defined.

(** ** Running a sequence *)

Lemma bind_run_ok {A B} (m : M A) (f : A -> M B) (h : list Event) (a : A)
    (ev : list Event) :
  m h = (Ok a, ev) ->
  bind m f h = (fst (f a (h ++ ev)%list), (ev ++ snd (f a (h ++ ev)%list))%list).
Proof.
  intro H. unfold bind. rewrite H. destruct (f a (h ++ ev)%list). reflexivity.
Qed.

Lemma bind_run_err {A B} (m : M A) (f : A -> M B) (h : list Event) (e : JsError)
    (ev : list Event) :
  m h = (Err e, ev) -> bind m f h = (Err e, ev).
Proof. intro H. unfold bind. rewrite H. reflexivity. Qed.

(** ** Image information *)

Section ImageInfo.
Variable env : Env.

(** X9.  When the inspection of the repo digests fails, the image name and
    digest become `N/A` only if the text `Template parsing error` occurs in
    the failure's output after its first character; then the user name is
    still read.  A failure whose output begins with that text, or lacks it,
    is rethrown as it is, and the user name is not read. *)
Theorem image_digest_failure :
  forall (target image : string) (h ev1 : list Event),
    resolveImage env target h = (Ok image, ev1) ->
    let args := ["inspect"; "--format='{{index .RepoDigests 0}}'"; image] in
    let inspected := docker env (h ++ ev1)%list "docker" args pipe in
    let h2 := ((h ++ ev1) ++ [Spawn "docker" args pipe])%list in
    exitCode inspected <> 0%Z ->
    ((JsString.indexOf (output inspected) "Template parsing error" > 0)%Z ->
     forall user ev3,
       getCommandOutputFromContainer env target "id -un 1000" true h2 = (Ok user, ev3) ->
       fst (getImageInfo env target h)
       = Ok {| image_name := "N/A"; image_digest := Some "N/A"; image_user := user |})
    /\ ((JsString.indexOf (output inspected) "Template parsing error" <= 0)%Z ->
        getImageInfo env target h
        = (Err (SpawnRejection (exitCode inspected) (output inspected)),
           ev1 ++ [Spawn "docker" args pipe])%list).
Proof.
  intros target image h ev1 Himage args inspected h2 Hfail.
  apply Z.eqb_neq in Hfail.
  assert (E : getImageInfo env target h =
              bind (resolveImage env target)
                (fun image =>
                   bind (try_catch
                           (bind (asyncUtils_spawn env "docker"
                                    ["inspect"; "--format='{{index .RepoDigests 0}}'"; image]
                                    pipe)
                              (fun imageNameAndDigest =>
                                 let parts :=
                                   JsString.split "@" (JsString.trim imageNameAndDigest) in
                                 ret (propertyKey (nth_error parts 0), nth_error parts 1)))
                           (fun err =>
                              match err with
                              | SpawnRejection _ result =>
                                  if (JsString.indexOf result "Template parsing error" >? 0)%Z
                                  then ret ("N/A", Some "N/A")
                                  else throw err
                              | _ => throw (TypeError
                                       "Cannot read properties of undefined (reading 'indexOf')")
                              end))
                     (fun nameAndDigest =>
                        bind (getCommandOutputFromContainer env target "id -un 1000" true)
                          (fun nonRootUser =>
                             ret {| image_name := fst nameAndDigest;
                                    image_digest := snd nameAndDigest;
                                    image_user := nonRootUser |}))) h)
    by reflexivity.
  set (digest :=
         try_catch
           (bind (asyncUtils_spawn env "docker" args pipe)
              (fun imageNameAndDigest =>
                 let parts := JsString.split "@" (JsString.trim imageNameAndDigest) in
                 ret (propertyKey (nth_error parts 0), nth_error parts 1)))
           (fun err =>
              match err with
              | SpawnRejection _ result =>
                  if (JsString.indexOf result "Template parsing error" >? 0)%Z
                  then ret ("N/A", Some "N/A")
                  else throw err
              | _ => throw (TypeError
                              "Cannot read properties of undefined (reading 'indexOf')")
              end)).
  assert (Hdigest : digest (h ++ ev1)%list =
                    (if (JsString.indexOf (output inspected)
                           "Template parsing error" >? 0)%Z
                     then Ok ("N/A", Some "N/A")
                     else Err (SpawnRejection (exitCode inspected) (output inspected)),
                     [Spawn "docker" args pipe])).
  { subst digest. unfold try_catch, bind, asyncUtils_spawn. fold inspected.
    rewrite Hfail. destruct (_ >? 0)%Z; reflexivity. }
  rewrite E. rewrite (@bind_run_ok _ _ _ _ _ _ _ Himage). fold args. fold digest.
  split.
  - intro Hpos. apply Z.gtb_gt in Hpos. rewrite Hpos in Hdigest.
    intros user ev3 Hid. rewrite (@bind_run_ok _ _ _ _ _ _ _ Hdigest). cbn [fst snd].
    fold h2. rewrite (@bind_run_ok _ _ _ _ _ _ _ Hid). reflexivity.
  - intro Hle. assert (Hgt : (JsString.indexOf (output inspected)
                                "Template parsing error" >? 0)%Z = false).
    { rewrite Z.gtb_ltb. apply Z.ltb_ge. exact Hle. }
    rewrite Hgt in Hdigest. rewrite (@bind_run_err _ _ _ _ _ _ _ Hdigest). reflexivity.
Qed.

End ImageInfo.

Lemma image_digest_failure_witness :
  let target := "vscdc--extract--1617235200000" in
  let message := "Error: Template parsing error: index out of range" in
  fst (getImageInfo
         (Sample.plainEnv [Sample.ok "sha256:abc"; Sample.failed 1 message;
                           Sample.framed "vscode"])
         target [])
  = Ok {| image_name := "N/A"; image_digest := Some "N/A"; image_user := "vscode" |}
  /\ fst (getImageInfo
            (Sample.plainEnv [Sample.ok "sha256:abc";
                              Sample.failed 1 "Template parsing error: index";
                              Sample.framed "vscode"])
            target [])
     = Err (SpawnRejection 1 "Template parsing error: index").
Proof.
  intros target message.
  set (ev1 := [Spawn "docker" ["inspect"; "--format='{{.Image}}'"; target] pipe]).
  split.
  - apply (proj1 (@image_digest_failure
                    (Sample.plainEnv [Sample.ok "sha256:abc"; Sample.failed 1 message;
                                      Sample.framed "vscode"])
                    target "sha256:abc" [] ev1 eq_refl
                    ltac:(vm_compute; discriminate))
             ltac:(vm_compute; reflexivity) "vscode"
             [Spawn "docker" (runArgs target "id -un 1000" true) pipe]).
    reflexivity.
  - rewrite (proj2 (@image_digest_failure
                      (Sample.plainEnv [Sample.ok "sha256:abc";
                                        Sample.failed 1 "Template parsing error: index";
                                        Sample.framed "vscode"])
                      target "sha256:abc" [] ev1 eq_refl
                      ltac:(vm_compute; discriminate))
               ltac:(vm_compute; discriminate)).
    reflexivity.
Defined.

(** ** One record per entry *)

Lemma foldM_selected {A} (sel : A -> bool) (Q : A -> PackageInfo -> Prop)
    (step : list PackageInfo -> A -> M (list PackageInfo)) (xs : list A) :
  (forall acc x h acc' ev,
      step acc x h = (Ok acc', ev) ->
      if sel x then exists r, acc' = (acc ++ [r])%list /\ Q x r else acc' = acc) ->
  forall acc h res ev,
    foldM step xs acc h = (Ok res, ev) ->
    exists rs, res = (acc ++ rs)%list /\ Forall2 Q (filter sel xs) rs.
Proof.
  intro Hstep. induction xs as [|x xs IH]; intros acc h res ev Hrun.
  - simpl in Hrun. injection Hrun as <- _. exists []. rewrite app_nil_r.
    split; constructor.
  - simpl in Hrun. apply bind_ok in Hrun as (acc' & ev1 & ev2 & H1 & H2 & _).
    destruct (IH _ _ _ _ H2) as (rs & -> & Hrs).
    specialize (Hstep _ _ _ _ _ H1). simpl. destruct (sel x).
    + destruct Hstep as (r & -> & Hq). exists (r :: rs).
      rewrite <- app_assoc. split; [reflexivity | constructor; assumption].
    + subst acc'. exists rs. split; [reflexivity | exact Hrs].
Qed.

Lemma filter_all {A} (xs : list A) : filter (fun _ => true) xs = xs.
Proof. induction xs as [|x xs IH]; simpl; [reflexivity | rewrite IH; reflexivity]. Qed.

Section KeyedRecords.
Variable env : Env.
Variable target : string.

Lemma gitRepository_record acc x h acc' ev :
  gitRepository env target acc x h = (Ok acc', ev) ->
  if hasValue x
  then exists r, acc' = (acc ++ [r])%list
                 /\ name r = fst x /\ path r = snd x /\ version r = None
                 /\ (exists u, url r = Some u /\ u <> "")
                 /\ (exists c, commitHash r = Some c /\ c <> "")
  else acc' = acc.
Proof.
  intro H. destruct x as [repoName [repoPath|]]; unfold gitRepository in H;
    unfold hasValue; cbn [snd fst]; run_inv; subst; [|reflexivity].
  match goal with
  | Hif : (negb (JsString.truthy_opt ?a) || negb (JsString.truthy_opt ?b))%bool = false
    |- _ => apply orb_false_elim in Hif as [Ha Hb];
            apply negb_false_iff in Ha; apply negb_false_iff in Hb;
            destruct a as [u|]; [|discriminate Ha];
            destruct b as [c|]; [|discriminate Hb]
  end.
  eexists. split; [reflexivity|]. repeat split; cbn.
  - exists u. split; [reflexivity|]. intros ->. discriminate Ha.
  - exists c. split; [reflexivity|]. intros ->. discriminate Hb.
Qed.

Lemma otherDependency_record acc x h acc' ev :
  otherDependency env target acc x h = (Ok acc', ev) ->
  exists r, acc' = (acc ++ [r])%list /\ name r = fst x.
Proof.
  intro H. destruct x as [otherName dependency]. unfold otherDependency in H.
  run_inv; subst. eexists. split; reflexivity.
Qed.

Lemma cargoPackage_record acc x h acc' ev :
  cargoPackage env target acc x h = (Ok acc', ev) ->
  exists r, acc' = (acc ++ [r])%list /\ name r = fst x.
Proof.
  intro H. destruct x as [crate probe]. unfold cargoPackage in H.
  run_inv; subst. eexists. split; reflexivity.
Qed.

Lemma goPackage_record log acc x h acc' ev :
  goPackage env target log acc x h = (Ok acc', ev) ->
  exists r, acc' = (acc ++ [r])%list /\ name r = fst x.
Proof.
  intro H. destruct x as [packageName probe]. unfold goPackage in H.
  run_inv; subst; eexists; split; reflexivity.
Qed.

(** X10.  The extractors that take a name-to-value object answer in the order
    of the merged object.  cargo, go and other/languages return one record
    for each entry, named after it.  git returns one record for each entry
    whose path is not null, with that name and path, a non-empty url and
    commit hash, and no version. *)
Theorem keyed_records_follow_the_request :
  forall h : list Event,
    (forall requested records,
        fst (getCargoPackageInfo env target requested h) = Ok records ->
        Forall2 (fun entry r => name r = fst entry)
          (mergeDefaults (getDefaultDependencies_commands env "go") (orEmpty requested))
          records)
    /\ (forall requested records,
           fst (getGoPackageInfo env target requested h) = Ok records ->
           Forall2 (fun entry r => name r = fst entry)
             (mergeDefaults (getDefaultDependencies_commands env "go") (orEmpty requested))
             records)
    /\ (forall requested otherType records,
           fst (getOtherDependencyInfo env target requested otherType h) = Ok records ->
           Forall2 (fun entry r => name r = fst entry)
             (mergeDefaults (getDefaultDependencies_other env otherType)
                (orEmpty requested))
             records)
    /\ (forall requested records,
           fst (getGitRepositoryInfo env target requested h) = Ok records ->
           Forall2 (fun entry r =>
                      name r = fst entry /\ path r = snd entry /\ version r = None
                      /\ (exists u, url r = Some u /\ u <> "")
                      /\ (exists c, commitHash r = Some c /\ c <> ""))
             (filter hasValue
                (mergeDefaults (getDefaultDependencies_commands env "git")
                   (orEmpty requested)))
             records).
Proof.
  intro h. repeat apply conj.
  - intros requested records H.
    destruct (getCargoPackageInfo env target requested h) as [r ev] eqn:E.
    simpl in H. subst r. unfold getCargoPackageInfo, isFalsyObject in E. run_inv.
    apply (foldM_selected (fun _ => true) (fun entry r => name r = fst entry)) in E;
      [|intros; eapply cargoPackage_record; eassumption].
    destruct E as (rs & -> & Hrs). rewrite filter_all in Hrs. exact Hrs.
  - intros requested records H.
    destruct (getGoPackageInfo env target requested h) as [r ev] eqn:E.
    simpl in H. subst r. unfold getGoPackageInfo, isFalsyObject in E. run_inv.
    apply (foldM_selected (fun _ => true) (fun entry r => name r = fst entry)) in E;
      [|intros; eapply goPackage_record; eassumption].
    destruct E as (rs & -> & Hrs). rewrite filter_all in Hrs. exact Hrs.
  - intros requested otherType records H.
    destruct (getOtherDependencyInfo env target requested otherType h) as [r ev] eqn:E.
    simpl in H. subst r. unfold getOtherDependencyInfo, isFalsyObject in E. run_inv.
    apply (foldM_selected (fun _ => true) (fun entry r => name r = fst entry)) in E;
      [|intros; eapply otherDependency_record; eassumption].
    destruct E as (rs & -> & Hrs). rewrite filter_all in Hrs. exact Hrs.
  - intros requested records H.
    destruct (getGitRepositoryInfo env target requested h) as [r ev] eqn:E.
    simpl in H. subst r. unfold getGitRepositoryInfo, isFalsyObject in E.
    eapply (foldM_selected hasValue) in E;
      [|intros; eapply gitRepository_record; eassumption].
    destruct E as (rs & -> & Hrs). exact Hrs.
Qed.

End KeyedRecords.

Lemma keyed_records_follow_the_request_witness :
  let target := "vscdc--extract--1617235200000" in
  let env :=
    Sample.plainEnv
      [Sample.framed ("https://github.com/ohmyzsh/ohmyzsh.git" ++ str LF ++ "cddac7177abc")] in
  let requested :=
    [("Oh My Zsh!", Some "/home/codespace/.oh-my-zsh"); ("nvm", None)] in
  exists record,
    fst (getGitRepositoryInfo env target (Some requested) []) = Ok [record]
    /\ name record = "Oh My Zsh!"
    /\ path record = Some "/home/codespace/.oh-my-zsh".
Proof.
  intros target env requested.
  destruct (keyed_records_follow_the_request env target []) as (_ & _ & _ & Hgit).
  eexists. split; [vm_compute; reflexivity|].
  specialize (Hgit (Some requested) _ ltac:(vm_compute; reflexivity)).
  inversion Hgit as [|entry r entries rs (Hname & Hpath & _) _]; subst.
  split; [exact Hname | exact Hpath].
Defined.

(** ** Settings of the Linux package list *)

Lemma settingsOf_snoc (l : list PackageRequest) (r : PackageRequest) :
  settingsOf (l ++ [r]) = Lookup.set (settingsOf l) (requestName r) (requestSettings r).
Proof.
  unfold settingsOf. rewrite fold_left_app. cbn [fold_left].
  destruct r; reflexivity.
Qed.

(** X11.  The settings that decide about a Linux package are those of the
    last entry of the merged list with its name; a name that no entry has,
    has no settings.  So a caller's entry replaces a default entry of the same
    name as a whole: a plain name after a default with `cgIgnore: false`
    brings the package back to `cgIgnore` true. *)
Theorem settings_last_entry_wins :
  forall (packageList : list PackageRequest) (packageName : string),
    Lookup.get (settingsOf packageList) packageName
    = option_map requestSettings
        (find (fun r => String.eqb (requestName r) packageName) (rev packageList)).
Proof.
  intros packageList packageName.
  induction packageList as [|r l IH] using rev_ind; [reflexivity|].
  rewrite settingsOf_snoc, get_set, rev_app_distr. cbn [rev app find].
  destruct (String.eqb (requestName r) packageName); [reflexivity | exact IH].
Qed.

(** ** pip versions *)

Lemma pip_lookup_fold (entries : list PipEntry) (acc : Lookup.t (option string))
    (n : string) :
  Lookup.get
    (fold_left (fun prev current => Lookup.set prev (pip_name current) (pip_version current))
       entries acc) n
  = match find (fun e => String.eqb (pip_name e) n) (rev entries) with
    | Some e => Some (pip_version e)
    | None => Lookup.get acc n
    end.
Proof.
  revert acc. induction entries as [|e entries IH] using rev_ind; intro acc;
    [reflexivity|].
  rewrite fold_left_app, rev_app_distr. cbn [fold_left rev app find].
  rewrite get_set. destruct (String.eqb (pip_name e) n); [reflexivity | apply IH].
Qed.

(** X12.  The version that pip reports for a name is the version of the last
    element of that name in the parsed `pip list` array, and undefined when
    the array has no element of that name. *)
Theorem pip_last_listing_wins :
  forall (env : Env) (target : string) (h ev : list Event) (raw : string)
         (entries : list PipEntry),
    getCommandOutputFromContainer env target "pip list --format json" false h
    = (Ok raw, ev) ->
    JSON_parse_pip env raw = Some entries ->
    exists versionLookup,
      getPipVersionLookup env target h = (Ok versionLookup, ev)
      /\ forall n,
           lookupVersion versionLookup n
           = match find (fun e => String.eqb (pip_name e) n) (rev entries) with
             | Some e => pip_version e
             | None => None
             end.
Proof.
  intros env target h ev raw entries Hrun Hparse.
  eexists. split.
  - unfold getPipVersionLookup. rewrite (@bind_run_ok _ _ _ _ _ _ _ Hrun).
    rewrite Hparse. unfold ret. cbn [fst snd]. rewrite app_nil_r. reflexivity.
  - intro n. unfold lookupVersion. rewrite pip_lookup_fold.
    destruct (find _ (rev entries)); reflexivity.
Qed.

Lemma pip_last_listing_wins_witness :
  let target := "vscdc--extract--1617235200000" in
  let entries :=
    [ {| pip_name := "pylint"; pip_version := Some "2.5.0" |};
      {| pip_name := "pylint"; pip_version := Some "2.6.0" |} ] in
  let env :=
    Sample.sampleEnv [Sample.framed Sample.pipListText]
      Sample.noDefaults Sample.noDefaults None (Some entries) in
  exists versionLookup,
    fst (getPipVersionLookup env target []) = Ok versionLookup
    /\ lookupVersion versionLookup "pylint" = Some "2.6.0"
    /\ lookupVersion versionLookup "flake8" = None.
Proof.
  intros target entries env.
  destruct (@pip_last_listing_wins env target []
              [Spawn "docker" (runArgs target "pip list --format json" false) pipe]
              Sample.pipListText entries eq_refl eq_refl)
    as (versionLookup & Hrun & Hlookup).
  exists versionLookup. rewrite Hrun. split; [reflexivity|].
  split; rewrite Hlookup; reflexivity.
Defined.

(** ** gems *)

Lemma traverse_first_failure {A B} (f : A -> Result B) (before after : list A)
    (x : A) (e : JsError) :
  (forall y, In y before -> exists b, f y = Ok b) ->
  f x = Err e ->
  traverse f (before ++ x :: after) = Err e.
Proof.
  intros Hbefore Hx. induction before as [|y before IH]; simpl.
  - rewrite Hx. reflexivity.
  - destruct (Hbefore y (or_introl eq_refl)) as [b Hb]. rewrite Hb.
    rewrite IH; [reflexivity|]. intros z Hz. apply Hbefore. right. exact Hz.
Qed.

(** X13.  The gem extractor fails at the first gem of the merged list, in
    list order, that the listing does not show, and the error names that gem;
    gems after it are not looked at. *)
Theorem gem_first_missing_is_reported :
  forall (env : Env) (target : string) (requested : option (list string))
         (h ev : list Event) (gemListOutput : string)
         (before after : list string) (gem : string),
    (orEmpty (getDefaultDependencies_names env "gem") ++ orEmpty requested)%list
    = (before ++ gem :: after)%list ->
    getCommandOutputFromContainer env target
      "bash -l -c 'set -e && gem list -d --local' 2>/dev/null" false
      (h ++ [Log "(*) Gathering information about gems..."])%list
    = (Ok gemListOutput, ev) ->
    (forall g, In g before ->
               exists groups, RegExp_exec env (gemPattern g) "m" gemListOutput
                              = ReMatch groups) ->
    RegExp_exec env (gemPattern gem) "m" gemListOutput = ReNull ->
    fst (getGemPackageInfo env target requested h)
    = Err (Error ("Could not extract information about gem " ++ gem)).
Proof.
  intros env target requested h ev out before after gem Hlist Hrun Hbefore Hgem.
  unfold getGemPackageInfo. rewrite Hlist.
  assert (Hlen : (List.length (before ++ gem :: after) =? 0)%nat = false).
  { rewrite length_app. simpl. apply Nat.eqb_neq. lia. }
  rewrite Hlen. unfold bind at 1. unfold console_log.
  rewrite (@bind_run_ok _ _ _ _ _ _ _ Hrun). rewrite mapM_lift. cbn [fst].
  apply traverse_first_failure.
  - intros g Hg. destruct (Hbefore g Hg) as [groups Hgroups].
    unfold gemPackageInfo. rewrite Hgroups. eexists. reflexivity.
  - unfold gemPackageInfo. rewrite Hgem. reflexivity.
Qed.

Lemma gem_first_missing_is_reported_witness :
  let target := "vscdc--extract--1617235200000" in
  let listing := "bundler (2.1.4)" ++ str LF ++ "rake (13.0.1, default: 13.0.1)" in
  let env := Sample.plainEnv [Sample.framed listing] in
  fst (getGemPackageInfo env target (Some ["rake"; "rubocop"; "ruby-debug-ide"]) [])
  = Err (Error "Could not extract information about gem rubocop").
Proof.
  intros target listing env.
  apply (@gem_first_missing_is_reported env target
           (Some ["rake"; "rubocop"; "ruby-debug-ide"]) []
           [Spawn "docker"
              (runArgs target "bash -l -c 'set -e && gem list -d --local' 2>/dev/null" false)
              pipe]
           listing ["rake"] ["ruby-debug-ide"] "rubocop" eq_refl eq_refl).
  - intros g [<-|[]]. eexists. vm_compute. reflexivity.
  - vm_compute. reflexivity.
Defined.

(** ** How many commands the list extractors issue *)

Lemma commands_app (a b : list Event) : commands (a ++ b) = commands a + commands b.
Proof. unfold commands. rewrite filter_app, length_app. reflexivity. Qed.

Lemma commands_logs (events : list Event) :
  forallb isLog events = true -> commands events = 0.
Proof.
  unfold commands. induction events as [|e events IH]; simpl; [reflexivity|].
  intro H. apply andb_prop in H as [He Hrest]. unfold isLog in He.
  apply negb_true_iff in He. rewrite He. apply IH, Hrest.
Qed.

Lemma commands_bind {A B} (m : M A) (f : A -> M B) (h : list Event) :
  commands (snd (bind m f h))
  = commands (snd (m h))
    + match fst (m h) with
      | Ok a => commands (snd (f a (h ++ snd (m h))%list))
      | Err _ => 0
      end.
Proof.
  unfold bind. destruct (m h) as [[a|e] ev]; cbn [fst snd]; [|lia].
  destruct (f a (h ++ ev)%list) as [r ev']. cbn [snd]. apply commands_app.
Qed.

Lemma commands_runner (env : Env) (target command : string) (forceRoot : bool)
    (h : list Event) :
  commands (snd (getCommandOutputFromContainer env target command forceRoot h)) = 1.
Proof. rewrite command_runner_run. reflexivity. Qed.

Lemma isLog_log (line : string) : isLog (Log line) = true.
Proof. reflexivity. Qed.

Lemma foldM_lift_logs {A B} (f : B -> A -> Result B) (xs : list A) :
  forall acc, emits isLog (foldM (fun acc x => lift (f acc x)) xs acc).
Proof. apply emits_foldM. intros acc x. apply emits_lift. Qed.

Lemma linuxPackageLine_logs (env : Env) settings params uriOutput acc line :
  emits isLog (linuxPackageLine env settings params uriOutput acc line).
Proof.
  unfold linuxPackageLine, getPoolUrlFromPackageVersionListOutput.
  repeat first [ apply emits_log; apply isLog_log | emits_step ].
Qed.

Section CommandCounts.
Variable env : Env.
Variable target : string.

(** X14.  However many names are requested, the npm, pip, pipx and gem
    extractors issue exactly one command in the container, and none when the
    merged list is empty; the Linux extractor issues one or two (two unless
    the first fails), and none when its merged list is empty.  This holds
    whether the extractor succeeds or fails. *)
Theorem list_extractors_command_count :
  forall h : list Event,
    (forall requested : option (list string),
        commands (snd (getNpmGlobalPackageInfo env target requested h))
        = if (List.length (orEmpty (getDefaultDependencies_names env "npm")
                             ++ orEmpty requested) =? 0)%nat then 0 else 1)
    /\ (forall (requested : option (list string)) (usePipx : bool),
           commands (snd (getPipPackageInfo env target requested usePipx h))
           = if (List.length
                   (orEmpty (getDefaultDependencies_names env
                               (if usePipx then "pipx" else "pip"))
                      ++ orEmpty requested) =? 0)%nat then 0 else 1)
    /\ (forall requested : option (list string),
           commands (snd (getGemPackageInfo env target requested h))
           = if (List.length (orEmpty (getDefaultDependencies_names env "gem")
                                ++ orEmpty requested) =? 0)%nat then 0 else 1)
    /\ (forall (packageList : list PackageRequest) (linuxDistroInfo : DistroInfo),
           let merged :=
             (orEmpty (getDefaultDependencies_packages env
                         (getLinuxPackageManagerForDistro env
                            (Lookup.get linuxDistroInfo "id")))
                ++ packageList)%list in
           let n := commands (snd (getLinuxPackageInfo env target packageList
                                     linuxDistroInfo h)) in
           if (List.length merged =? 0)%nat then n = 0 else 1 <= n <= 2).
Proof.
  intro h. repeat apply conj.
  - intro requested. unfold getNpmGlobalPackageInfo.
    destruct (List.length _ =? 0)%nat; [reflexivity|].
    rewrite commands_bind. cbn [console_log fst snd].
    rewrite commands_bind, commands_runner.
    destruct (fst (getCommandOutputFromContainer _ _ _ _ _)) as [raw|e]; [|reflexivity].
    destruct (JSON_parse_npm env raw); [|reflexivity].
    rewrite mapM_lift. reflexivity.
  - intros requested usePipx. unfold getPipPackageInfo.
    destruct (List.length _ =? 0)%nat; [reflexivity|].
    rewrite commands_bind. cbn [console_log fst snd].
    rewrite commands_bind.
    assert (Hlookup : forall h',
               commands (snd ((if usePipx then getPipxVersionLookup env target
                               else getPipVersionLookup env target) h')) = 1
               ).
    { intro h'. destruct usePipx.
      - unfold getPipxVersionLookup. rewrite commands_bind, commands_runner.
        destruct (fst _); [|reflexivity].
        rewrite (commands_logs _ (foldM_lift_logs _ _ _ _)). reflexivity.
      - unfold getPipVersionLookup. rewrite commands_bind, commands_runner.
        destruct (fst _) as [raw|e]; [|reflexivity].
        destruct (JSON_parse_pip env raw); reflexivity. }
    rewrite Hlookup. destruct (fst _); reflexivity.
  - intro requested. unfold getGemPackageInfo.
    destruct (List.length _ =? 0)%nat; [reflexivity|].
    rewrite commands_bind. cbn [console_log fst snd].
    rewrite commands_bind, commands_runner.
    destruct (fst _); [|reflexivity]. rewrite mapM_lift. reflexivity.
  - intros packageList linuxDistroInfo merged n. subst n.
    unfold getLinuxPackageInfo. fold merged.
    destruct (List.length merged =? 0)%nat; [reflexivity|].
    rewrite commands_bind. cbn [console_log fst snd].
    rewrite commands_bind, commands_runner.
    destruct (fst _); [|cbn; lia].
    rewrite commands_bind. cbn [console_log fst snd].
    rewrite commands_bind, commands_runner.
    destruct (fst _); [|cbn; lia].
    rewrite (commands_logs _ (emits_foldM _ _ (fun acc x => linuxPackageLine_logs _ _ _ _ _ _) _ _)).
    cbn. lia.
Qed.

End CommandCounts.

(** ** Lines of the Linux version list *)

Section LinuxLines.
Variable env : Env.

Lemma skipped_lines_leave_the_list
    (settings : Lookup.t DependencyInfoExtractionSettings)
    (params : LinuxPackageInfoExtractorParams) (uriOutput : string)
    (lines : list string) :
  (forall line, In line lines ->
                JsString.trim line = ""
                \/ RegExp_exec env (lineRegEx params) "" (JsString.trim line) = ReNull) ->
  forall acc h,
    fst (foldM (linuxPackageLine env settings params uriOutput) lines acc h) = Ok acc.
Proof.
  induction lines as [|line lines IH]; intros Hskip acc h; [reflexivity|].
  cbn [foldM].
  assert (Hline : fst (linuxPackageLine env settings params uriOutput acc line h) = Ok acc).
  { unfold linuxPackageLine.
    destruct (Hskip line (or_introl eq_refl)) as [Hblank|Hnull].
    - rewrite Hblank. reflexivity.
    - destruct (String.eqb (JsString.trim line) ""); [reflexivity|].
      rewrite Hnull. destruct (String.eqb _ _); reflexivity. }
  destruct (linuxPackageLine env settings params uriOutput acc line h) as [r ev] eqn:E.
  cbn [fst] in Hline. subst r. rewrite (@bind_run_ok _ _ _ _ _ _ _ E). cbn [fst].
  apply IH. intros l Hl. apply Hskip. right. exact Hl.
Qed.

(** X15.  Lines of the version list that are blank, or that the line pattern
    does not match (the `Some packages were not found.` line among them), are
    passed over: when both commands succeed and no line yields a package, the
    Linux extractor returns the empty list and raises no error. *)
Theorem linux_unparsable_lines_are_skipped :
  forall (target : string) (packageList : list PackageRequest)
         (linuxDistroInfo : DistroInfo) (h ev1 ev2 : list Event)
         (versionOutput uriOutput : string),
    let packageManager :=
      getLinuxPackageManagerForDistro env (Lookup.get linuxDistroInfo "id") in
    let merged :=
      (orEmpty (getDefaultDependencies_packages env packageManager) ++ packageList)%list in
    let params := getPackageInfoExtractorParams env packageManager in
    let tail := packageListCommandPart merged ++ " || echo 'Some packages were not found.'" in
    let line1 := Log "(*) Gathering information about Linux package versions..." in
    let line2 := Log "(*) Gathering information about Linux package download URLs..." in
    merged <> [] ->
    getCommandOutputFromContainer env target (listCommand params ++ tail) true
      (h ++ [line1])%list = (Ok versionOutput, ev1) ->
    getCommandOutputFromContainer env target (getUriCommand params ++ tail) true
      (((h ++ [line1]) ++ ev1) ++ [line2])%list = (Ok uriOutput, ev2) ->
    (forall line, In line (JsString.split LF versionOutput) ->
                  JsString.trim line = ""
                  \/ RegExp_exec env (lineRegEx params) "" (JsString.trim line) = ReNull) ->
    fst (getLinuxPackageInfo env target packageList linuxDistroInfo h) = Ok [].
Proof.
  intros target packageList linuxDistroInfo h ev1 ev2 versionOutput uriOutput
         packageManager merged params tail line1 line2 Hne Hrun1 Hrun2 Hskip.
  assert (Hlen : (List.length merged =? 0)%nat = false).
  { destruct merged; [contradiction | reflexivity]. }
  unfold getLinuxPackageInfo. fold packageManager. fold merged. rewrite Hlen.
  fold params.
  assert (Hlog : forall l k, console_log l k = (Ok tt, [Log l])) by reflexivity.
  rewrite (@bind_run_ok _ _ _ _ _ _ _ (Hlog _ h)). cbn [fst].
  fold line1. unfold tail in Hrun1, Hrun2.
  rewrite (@bind_run_ok _ _ _ _ _ _ _ Hrun1). cbn [fst].
  rewrite (@bind_run_ok _ _ _ _ _ _ _ (Hlog _ _)). cbn [fst].
  fold line2. rewrite (@bind_run_ok _ _ _ _ _ _ _ Hrun2). cbn [fst].
  apply skipped_lines_leave_the_list. exact Hskip.
Qed.

(** X16.  When a pool URL is found for a matched line - the first group of
    the instantiated pool pattern in the URI output, or else the fallback URL
    of the package - the record is added with that URL and the pool key that
    `getPoolKeyForPoolUrl` gives for it, nothing is logged and nothing is
    thrown, whatever the package's `cgIgnore` says. *)
Theorem linux_pool_url_found :
  forall (settings : Lookup.t DependencyInfoExtractionSettings)
         (params : LinuxPackageInfoExtractorParams) (uriOutput line : string)
         (acc : list PackageInfo) (h : list Event)
         (g : list (option string)) (packageName packageVersion poolUrl_ : string),
    JsString.trim line <> "" ->
    RegExp_exec env (lineRegEx params) "" (JsString.trim line) = ReMatch g ->
    group g 1 = Some packageName ->
    group g 2 = Some packageVersion ->
    ((exists uriGroups,
         RegExp_exec env (poolUriPattern params packageName packageVersion) "m" uriOutput
         = ReMatch uriGroups
         /\ group uriGroups 1 = Some poolUrl_)
     \/ (RegExp_exec env (poolUriPattern params packageName packageVersion) "m" uriOutput
         = ReNull
         /\ getFallbackPoolUrl env packageName = Some poolUrl_)) ->
    JsString.truthy poolUrl_ = true ->
    let extractionSettings :=
      match Lookup.get settings packageName with
      | Some s => s
      | None => emptySettings
      end in
    linuxPackageLine env settings params uriOutput acc line h
    = (Ok (acc ++
           [ {| name := packageName; version := Some packageVersion;
                url := None; path := None;
                annotation := dep_annotation extractionSettings;
                poolUrl := Some poolUrl_;
                poolKeyUrl := getPoolKeyForPoolUrl env poolUrl_;
                commitHash := None;
                cgIgnore := Some (cgIgnoreOf extractionSettings);
                markdownIgnore := dep_markdownIgnore extractionSettings |} ])%list,
       []).
Proof.
  intros settings params uriOutput line acc h g packageName packageVersion poolUrl_
         Hne Hline Hg1 Hg2 Hfound Htruthy extractionSettings.
  unfold linuxPackageLine.
  destruct (String.eqb_spec (JsString.trim line) "") as [Heq|_]; [contradiction|].
  rewrite Hline, Hg1, Hg2. fold extractionSettings.
  assert (Hpool : getPoolUrlFromPackageVersionListOutput env uriOutput params
                    packageName packageVersion h = (Ok (Some poolUrl_), [])).
  { unfold getPoolUrlFromPackageVersionListOutput.
    destruct Hfound as [(uriGroups & Hexec & Hgroup) | (Hexec & Hfallback)];
      rewrite Hexec.
    - rewrite Hgroup. reflexivity.
    - rewrite Hfallback. cbn [JsString.truthy_opt]. rewrite Htruthy. reflexivity. }
  rewrite (@bind_run_ok _ _ _ _ _ _ _ Hpool).
  cbn [JsString.truthy_opt]. rewrite Htruthy. cbn [negb andb]. reflexivity.
Qed.

End LinuxLines.

Lemma linux_unparsable_lines_are_skipped_witness :
  let target := "vscdc--extract--1617235200000" in
  let env :=
    Sample.plainEnv [Sample.framed "Some packages were not found."; Sample.framed ""] in
  fst (getLinuxPackageInfo env target [ByName "yarn"] [("id", "debian")] []) = Ok [].
Proof.
  intros target env.
  eapply (@linux_unparsable_lines_are_skipped env target [ByName "yarn"]
            [("id", "debian")] []).
  - discriminate.
  - vm_compute. reflexivity.
  - vm_compute. reflexivity.
  - intros line [<-|[]]. right. vm_compute. reflexivity.
Defined.

Lemma linux_pool_url_found_witness :
  let env := Sample.plainEnv [] in
  let line := "yarn" ++ str Sample.TAB ++ "1.22.5-1" in
  let uriOutput :=
    "'https://dl.yarnpkg.com/debian/pool/main/y/yarn/yarn_1.22.5-1_all.deb' yarn_1.22.5-1_all.deb 893264 MD5Sum:abc" in
  let strict :=
    {| dep_name := "yarn"; dep_annotation := Some "Yarn"; dep_cgIgnore := Some false;
       dep_markdownIgnore := None |} in
  linuxPackageLine env (settingsOf [BySettings strict]) Sample.aptParams uriOutput [] line []
  = (Ok [ {| name := "yarn"; version := Some "1.22.5-1"; url := None; path := None;
             annotation := Some "Yarn";
             poolUrl := Some "https://dl.yarnpkg.com/debian";
             poolKeyUrl := None; commitHash := None;
             cgIgnore := Some false; markdownIgnore := None |} ],
     []).
Proof.
  intros env line uriOutput strict.
  apply (@linux_pool_url_found env (settingsOf [BySettings strict]) Sample.aptParams
           uriOutput line [] []
           [Some line; Some "yarn"; Some "1.22.5-1"] "yarn" "1.22.5-1"
           "https://dl.yarnpkg.com/debian").
  - vm_compute. discriminate.
  - vm_compute. reflexivity.
  - reflexivity.
  - reflexivity.
  - left. eexists. split; [vm_compute; reflexivity | reflexivity].
  - reflexivity.
Defined.

(** ** Settings of other/languages entries *)

Lemma orElse_none {A} (a : option A) : orElse a None = a.
Proof. destruct a; reflexivity. Qed.

Section OtherSettings.
Variable env : Env.
Variable target : string.

Lemma mergeOtherDefaultSettings_fields (otherName : string)
    (dependency : option OtherDependencyInfoExtractionSettings) :
  let defaults := otherDefaultsFor env otherName in
  mergeOtherDefaultSettings env otherName dependency =
  match dependency, defaults with
  | None, None => Err (Error ("No extraction settings found for " ++ otherName ++ "."))
  | _, _ =>
      Ok {| versionCommand := settingField dependency defaults versionCommand;
            downloadUrl := settingField dependency defaults downloadUrl;
            other_path := settingField dependency defaults other_path;
            other_annotation := settingField dependency defaults other_annotation;
            other_cgIgnore := settingField dependency defaults other_cgIgnore;
            other_markdownIgnore :=
              settingField dependency defaults other_markdownIgnore |}
  end.
Proof.
  intro defaults. subst defaults.
  unfold mergeOtherDefaultSettings, otherDefaultsFor, settingField.
  destruct (match getConfig_otherDependencyDefaultSettings env with
            | Some table => Lookup.get table otherName
            | None => None
            end) as [defaults|]; destruct dependency as [d|]; try reflexivity.
  - destruct defaults. reflexivity.
  - rewrite !orElse_none. destruct d. reflexivity.
Qed.

(** X17.  An other/languages entry is read through the default-settings
    table: each member is the entry's own if the entry has that key, and the
    table's for that name otherwise.  A key that the entry has with the value
    undefined counts as the entry's own, so it hides the table's value.  With
    neither settings nor a table entry the extractor fails before it logs
    anything; without a version command after the merge it fails before any
    command is issued, which is also what happens when the entry has the key
    `versionCommand` without a value, whatever the table says; otherwise it
    runs the merged version command once and builds the record from its
    output and the merged members. *)
Theorem other_entry_settings :
  forall (acc : list PackageInfo) (otherName : string)
         (dependency : option OtherDependencyInfoExtractionSettings) (h : list Event),
    let defaults := otherDefaultsFor env otherName in
    let line := Log ("(*) Getting version for " ++ otherName ++ "...") in
    (dependency = None -> defaults = None ->
     otherDependency env target acc (otherName, dependency) h
     = (Err (Error ("No extraction settings found for " ++ otherName ++ ".")), []))
    /\ ((dependency <> None \/ defaults <> None) ->
        JsString.truthy_opt (member (settingField dependency defaults versionCommand))
        = false ->
        otherDependency env target acc (otherName, dependency) h
        = (Err (Error ("Missing versionCommand for " ++ otherName ++ ".")), [line]))
    /\ (forall d, dependency = Some d -> versionCommand d = Some None ->
        otherDependency env target acc (otherName, dependency) h
        = (Err (Error ("Missing versionCommand for " ++ otherName ++ ".")), [line]))
    /\ (forall command out ev,
           member (settingField dependency defaults versionCommand) = Some command ->
           JsString.truthy command = true ->
           getCommandOutputFromContainer env target command false (h ++ [line])%list
           = (Ok out, ev) ->
           otherDependency env target acc (otherName, dependency) h
           = (Ok (acc ++
                  [ {| name := otherName; version := Some out;
                       url := member (settingField dependency defaults downloadUrl);
                       path := member (settingField dependency defaults other_path);
                       annotation :=
                         member (settingField dependency defaults other_annotation);
                       poolUrl := None; poolKeyUrl := None; commitHash := None;
                       cgIgnore :=
                         member (settingField dependency defaults other_cgIgnore);
                       markdownIgnore :=
                         member (settingField dependency defaults
                                   other_markdownIgnore) |} ])%list,
              line :: ev))
    /\ (forall T (f : OtherDependencyInfoExtractionSettings -> Member T),
           (forall d v, dependency = Some d -> f d = Some v ->
                        member (settingField dependency defaults f) = v)
           /\ ((forall d, dependency = Some d -> f d = None) ->
               member (settingField dependency defaults f)
               = match defaults with
                 | Some d => member (f d)
                 | None => None
                 end)).
Proof.
  intros acc otherName dependency h defaults line.
  pose proof (mergeOtherDefaultSettings_fields otherName dependency) as Hmerge.
  cbv zeta in Hmerge. fold defaults in Hmerge.
  assert (Hmissing :
            (dependency <> None \/ defaults <> None) ->
            JsString.truthy_opt (member (settingField dependency defaults versionCommand))
            = false ->
            otherDependency env target acc (otherName, dependency) h
            = (Err (Error ("Missing versionCommand for " ++ otherName ++ ".")), [line])).
  { intros Hsome Hfalsy. unfold otherDependency. rewrite Hmerge.
    assert (E : match dependency, defaults with
                | None, None =>
                    Err (Error ("No extraction settings found for " ++ otherName ++ "."))
                | _, _ =>
                    Ok {| versionCommand := settingField dependency defaults versionCommand;
                          downloadUrl := settingField dependency defaults downloadUrl;
                          other_path := settingField dependency defaults other_path;
                          other_annotation :=
                            settingField dependency defaults other_annotation;
                          other_cgIgnore := settingField dependency defaults other_cgIgnore;
                          other_markdownIgnore :=
                            settingField dependency defaults other_markdownIgnore |}
                end
                = Ok {| versionCommand := settingField dependency defaults versionCommand;
                        downloadUrl := settingField dependency defaults downloadUrl;
                        other_path := settingField dependency defaults other_path;
                        other_annotation :=
                          settingField dependency defaults other_annotation;
                        other_cgIgnore := settingField dependency defaults other_cgIgnore;
                        other_markdownIgnore :=
                          settingField dependency defaults other_markdownIgnore |}).
    { destruct dependency, defaults; try reflexivity.
      destruct Hsome as [H|H]; contradiction. }
    rewrite E. unfold bind, lift, console_log. fold line.
    cbn [versionCommand].
    destruct (member (settingField dependency defaults versionCommand)) as [command|];
      [|reflexivity].
    cbn [JsString.truthy_opt] in Hfalsy. rewrite Hfalsy. reflexivity. }
  split; [|split; [|split; [|split]]].
  - intros -> Hd. unfold otherDependency. rewrite Hmerge, Hd. reflexivity.
  - exact Hmissing.
  - intros d -> Hkey. apply Hmissing; [left; discriminate|].
    unfold settingField. rewrite Hkey. reflexivity.
  - intros command out ev Hcommand Htruthy Hrun.
    unfold otherDependency. rewrite Hmerge.
    assert (Hsome : exists s, dependency = Some s \/ defaults = Some s).
    { unfold settingField in Hcommand.
      destruct dependency as [d|]; [exists d; left; reflexivity|].
      destruct defaults as [d|]; [exists d; right; reflexivity | discriminate]. }
    assert (E : match dependency, defaults with
                | None, None =>
                    Err (Error ("No extraction settings found for " ++ otherName ++ "."))
                | _, _ =>
                    Ok {| versionCommand := settingField dependency defaults versionCommand;
                          downloadUrl := settingField dependency defaults downloadUrl;
                          other_path := settingField dependency defaults other_path;
                          other_annotation :=
                            settingField dependency defaults other_annotation;
                          other_cgIgnore := settingField dependency defaults other_cgIgnore;
                          other_markdownIgnore :=
                            settingField dependency defaults other_markdownIgnore |}
                end
                = Ok {| versionCommand := settingField dependency defaults versionCommand;
                        downloadUrl := settingField dependency defaults downloadUrl;
                        other_path := settingField dependency defaults other_path;
                        other_annotation :=
                          settingField dependency defaults other_annotation;
                        other_cgIgnore := settingField dependency defaults other_cgIgnore;
                        other_markdownIgnore :=
                          settingField dependency defaults other_markdownIgnore |}).
    { destruct Hsome as [s [->| ->]]; [reflexivity|].
      destruct dependency; reflexivity. }
    rewrite E.
    erewrite bind_run_ok by reflexivity. cbn [fst snd app]. rewrite app_nil_r.
    erewrite bind_run_ok by reflexivity. cbn [fst snd versionCommand app].
    rewrite Hcommand, Htruthy. fold line.
    rewrite (@bind_run_ok _ _ _ _ _ _ _ Hrun). unfold ret.
    cbn [fst snd app downloadUrl other_path other_annotation other_cgIgnore
         other_markdownIgnore].
    rewrite ?app_nil_r. reflexivity.
  - intros T f. split.
    + intros d v -> Hkey. unfold settingField. rewrite Hkey. reflexivity.
    + intros Hkey. unfold settingField. destruct dependency as [d|].
      * rewrite (Hkey d eq_refl). destruct defaults; reflexivity.
      * destruct defaults; reflexivity.
Qed.

End OtherSettings.

Lemma other_entry_settings_witness :
  let target := "vscdc--extract--1617235200000" in
  let env :=
    withOtherDefaultSettings (Sample.plainEnv [Sample.framed "2.9.6"])
      (Some xdebugDefaults) in
  let entry :=
    {| versionCommand := None; downloadUrl := None; other_path := None;
       other_annotation := Some (Some "PHP debugger"); other_cgIgnore := None;
       other_markdownIgnore := None |} in
  let blanked :=
    {| versionCommand := Some None; downloadUrl := None; other_path := None;
       other_annotation := None; other_cgIgnore := None;
       other_markdownIgnore := None |} in
  otherDependency env target [] ("Xdebug", Some entry) []
  = (Ok [ {| name := "Xdebug"; version := Some "2.9.6";
             url := Some "https://pecl.php.net/get/xdebug"; path := None;
             annotation := Some "PHP debugger";
             poolUrl := None; poolKeyUrl := None; commitHash := None;
             cgIgnore := None; markdownIgnore := None |} ],
     [Log "(*) Getting version for Xdebug...";
      Spawn "docker" (runArgs target "php --version | grep -i xdebug" false) pipe])
  /\ otherDependency env target [] ("Composer", None) []
     = (Err (Error "No extraction settings found for Composer."), [])
  /\ otherDependency env target [] ("Xdebug", Some blanked) []
     = (Err (Error "Missing versionCommand for Xdebug."),
        [Log "(*) Getting version for Xdebug..."]).
Proof.
  intros target env entry blanked. split; [|split].
  - apply (proj1 (proj2 (proj2 (proj2
             (other_entry_settings env target [] "Xdebug" (Some entry) []))))
             "php --version | grep -i xdebug" "2.9.6"
             [Spawn "docker" (runArgs target "php --version | grep -i xdebug" false) pipe]);
      reflexivity.
  - apply (proj1 (other_entry_settings env target [] "Composer" None [])); reflexivity.
  - apply (proj1 (proj2 (proj2
             (other_entry_settings env target [] "Xdebug" (Some blanked) [])))
             blanked); reflexivity.
Defined.

(** ** Image name and digest *)

Lemma split_two_parts (c : ascii) (a b : string) :
  JsString.count c a = 0 -> JsString.count c b = 0 ->
  JsString.split c (a ++ String c b) = [a; b].
Proof.
  intros Ha Hb. induction a as [|d a IH]; simpl.
  - rewrite Ascii.eqb_refl, (split_no_separator c b Hb). reflexivity.
  - apply count_zero_head in Ha as [Hd Ha]. rewrite Hd, (IH Ha). reflexivity.
Qed.

Section ImageNameAndDigest.
Variable env : Env.

(** X18.  When the inspection of the repo digests succeeds, its trimmed
    output is cut at `@`: `repository@digest` gives that name and digest, and
    an output without `@` gives the whole text as the name and no digest. *)
Theorem image_name_and_digest :
  forall (target image : string) (h ev1 ev3 : list Event) (user : string),
    resolveImage env target h = (Ok image, ev1) ->
    let args := ["inspect"; "--format='{{index .RepoDigests 0}}'"; image] in
    let inspected := docker env (h ++ ev1)%list "docker" args pipe in
    exitCode inspected = 0%Z ->
    getCommandOutputFromContainer env target "id -un 1000" true
      ((h ++ ev1) ++ [Spawn "docker" args pipe])%list = (Ok user, ev3) ->
    (forall repository digest,
        JsString.trim (output inspected) = repository ++ "@" ++ digest ->
        JsString.count "@" repository = 0 ->
        JsString.count "@" digest = 0 ->
        fst (getImageInfo env target h)
        = Ok {| image_name := repository; image_digest := Some digest;
                image_user := user |})
    /\ (JsString.count "@" (JsString.trim (output inspected)) = 0 ->
        fst (getImageInfo env target h)
        = Ok {| image_name := JsString.trim (output inspected); image_digest := None;
                image_user := user |}).
Proof.
  intros target image h ev1 ev3 user Himage args inspected Hok Hid.
  assert (E : forall parts,
             JsString.split "@" (JsString.trim (output inspected)) = parts ->
             fst (getImageInfo env target h)
             = Ok {| image_name := propertyKey (nth_error parts 0);
                     image_digest := nth_error parts 1;
                     image_user := user |}).
  { intros parts Hparts. unfold getImageInfo. fold (resolveImage env target).
    rewrite (@bind_run_ok _ _ _ _ _ _ _ Himage). cbn [fst]. fold args.
    erewrite bind_run_ok.
    2:{ unfold try_catch, bind, asyncUtils_spawn. fold inspected.
        rewrite Hok. cbn [Z.eqb]. rewrite Hparts. unfold ret. reflexivity. }
    cbn [fst snd]. rewrite app_nil_r.
    rewrite (@bind_run_ok _ _ _ _ _ _ _ Hid). reflexivity. }
  split.
  - intros repository digest Hout Hr Hd.
    apply (E [repository; digest]). rewrite Hout.
    apply split_two_parts; assumption.
  - intro Hnone. apply (E [JsString.trim (output inspected)]).
    apply split_no_separator. exact Hnone.
Qed.

End ImageNameAndDigest.

Lemma image_name_and_digest_witness :
  let target := "vscdc--extract--1617235200000" in
  let env :=
    Sample.plainEnv [Sample.ok "sha256:abc";
                     Sample.ok ("mcr.microsoft.com/vscode/devcontainers/base@sha256:c33d"
                                ++ str LF);
                     Sample.framed "vscode"] in
  fst (getImageInfo env target [])
  = Ok {| image_name := "mcr.microsoft.com/vscode/devcontainers/base";
          image_digest := Some "sha256:c33d"; image_user := "vscode" |}.
Proof.
  intros target env.
  apply (proj1 (@image_name_and_digest env target "sha256:abc" []
                  [Spawn "docker" ["inspect"; "--format='{{.Image}}'"; target] pipe]
                  [Spawn "docker" (runArgs target "id -un 1000" true) pipe]
                  "vscode" eq_refl eq_refl eq_refl));
    reflexivity.
Defined.

(** ** Empty requests and merged defaults, on an example *)

Lemma empty_request_without_command_witness :
  let target := "vscdc--extract--1617235200000" in
  let env := Sample.plainEnv [] in
  getNpmGlobalPackageInfo env target None [] = (Ok [], [])
  /\ getGitRepositoryInfo env target (Some []) [] = (Ok [], [])
  /\ getCargoPackageInfo env target None []
     = (Ok [], [Log "(*) Gathering information about cargo packages..."]).
Proof.
  intros target env.
  destruct (empty_request_without_command env target [])
    as (_ & Hnpm & _ & _ & Hgit & Hcargo & _).
  split; [|split].
  - apply Hnpm. reflexivity.
  - apply Hgit. reflexivity.
  - apply Hcargo. reflexivity.
Defined.

(** ** One command per entry *)

Lemma foldM_commands {A B} (sel : A -> bool) (step : B -> A -> M B) (xs : list A) :
  (forall acc x h acc' ev,
      step acc x h = (Ok acc', ev) -> commands ev = if sel x then 1 else 0) ->
  forall acc h res ev,
    foldM step xs acc h = (Ok res, ev) ->
    commands ev = List.length (filter sel xs).
Proof.
  intro Hstep. induction xs as [|x xs IH]; intros acc h res ev Hrun.
  - simpl in Hrun. injection Hrun as _ <-. reflexivity.
  - simpl in Hrun. apply bind_ok in Hrun as (acc' & ev1 & ev2 & H1 & H2 & ->).
    rewrite commands_app, (Hstep _ _ _ _ _ H1), (IH _ _ _ _ H2).
    simpl. destruct (sel x); reflexivity.
Qed.

Lemma commands_runner_ok (env : Env) (target command : string) (forceRoot : bool)
    (h : list Event) (out : string) (ev : list Event) :
  getCommandOutputFromContainer env target command forceRoot h = (Ok out, ev) ->
  commands ev = 1.
Proof.
  intro H. pose proof (commands_runner env target command forceRoot h) as Hc.
  rewrite H in Hc. exact Hc.
Qed.

Lemma log_ok (line : string) (h : list Event) (u : unit) (ev : list Event) :
  console_log line h = (Ok u, ev) -> commands ev = 0.
Proof. unfold console_log. intro H. injection H as _ <-. reflexivity. Qed.

(** Count the commands of a run that has been taken apart. *)
Ltac count_commands :=
  subst; rewrite ?commands_app;
  repeat match goal with
         | H : getCommandOutputFromContainer _ _ _ _ _ = (Ok _, _) |- _ =>
             apply commands_runner_ok in H; rewrite H; clear H
         | H : console_log _ _ = (Ok _, _) |- _ =>
             apply log_ok in H; rewrite H; clear H
         end;
  reflexivity.

Section KeyedCommands.
Variable env : Env.
Variable target : string.

Lemma cargoPackage_commands acc x h acc' ev :
  cargoPackage env target acc x h = (Ok acc', ev) -> commands ev = 1.
Proof.
  intro H. destruct x as [crate probe]. unfold cargoPackage in H.
  run_inv. count_commands.
Qed.

Lemma goPackage_commands log acc x h acc' ev :
  goPackage env target log acc x h = (Ok acc', ev) ->
  commands ev = if hasProbe x then 1 else 0.
Proof.
  intro H. destruct x as [packageName probe]. unfold goPackage, goLogVersion in H.
  unfold hasProbe. cbn [snd].
  run_inv; cbn [JsString.truthy_opt];
    repeat match goal with
           | Ht : JsString.truthy _ = _ |- _ => rewrite Ht; clear Ht
           end;
    count_commands.
Qed.

Lemma gitRepository_commands acc x h acc' ev :
  gitRepository env target acc x h = (Ok acc', ev) ->
  commands ev = if hasValue x then 1 else 0.
Proof.
  intro H. destruct x as [repoName [repoPath|]]; unfold gitRepository in H;
    unfold hasValue; cbn [snd]; run_inv; count_commands.
Qed.

Lemma otherDependency_commands acc x h acc' ev :
  otherDependency env target acc x h = (Ok acc', ev) -> commands ev = 1.
Proof.
  intro H. destruct x as [otherName dependency]. unfold otherDependency in H.
  run_inv. count_commands.
Qed.

(** X19.  In a successful run of an extractor that takes a name-to-value
    object, no entry is probed twice: cargo and other/languages issue one
    command for each entry of the merged object, git one for each entry with
    a path, and go one to read the installer log plus one for each entry that
    has a probe command. *)
Theorem keyed_extractors_command_count :
  forall (h ev : list Event) (records : list PackageInfo),
    (forall requested,
        getCargoPackageInfo env target requested h = (Ok records, ev) ->
        commands ev
        = List.length (mergeDefaults (getDefaultDependencies_commands env "go")
                         (orEmpty requested)))
    /\ (forall requested otherType,
           getOtherDependencyInfo env target requested otherType h = (Ok records, ev) ->
           commands ev
           = List.length (mergeDefaults (getDefaultDependencies_other env otherType)
                            (orEmpty requested)))
    /\ (forall requested,
           getGitRepositoryInfo env target requested h = (Ok records, ev) ->
           commands ev
           = List.length (filter hasValue
                            (mergeDefaults (getDefaultDependencies_commands env "git")
                               (orEmpty requested))))
    /\ (forall requested,
           getGoPackageInfo env target requested h = (Ok records, ev) ->
           commands ev
           = 1 + List.length (filter hasProbe
                                (mergeDefaults (getDefaultDependencies_commands env "go")
                                   (orEmpty requested)))).
Proof.
  intros h ev records. repeat apply conj.
  - intros requested H. unfold getCargoPackageInfo, isFalsyObject in H. run_inv.
    apply (foldM_commands (fun _ => true)) in H;
      [|intros; eapply cargoPackage_commands; eassumption].
    rewrite filter_all in H. subst. rewrite commands_app, H.
    match goal with
    | Hl : console_log _ _ = _ |- _ => apply log_ok in Hl; rewrite Hl
    end.
    reflexivity.
  - intros requested otherType H. unfold getOtherDependencyInfo, isFalsyObject in H.
    run_inv.
    apply (foldM_commands (fun _ => true)) in H;
      [|intros; eapply otherDependency_commands; eassumption].
    rewrite filter_all in H. subst. rewrite commands_app, H.
    match goal with
    | Hl : console_log _ _ = _ |- _ => apply log_ok in Hl; rewrite Hl
    end.
    reflexivity.
  - intros requested H. unfold getGitRepositoryInfo, isFalsyObject in H.
    apply (foldM_commands hasValue) in H;
      [exact H | intros; eapply gitRepository_commands; eassumption].
  - intros requested H. unfold getGoPackageInfo, isFalsyObject in H. run_inv.
    apply (foldM_commands hasProbe) in H;
      [|intros; eapply goPackage_commands; eassumption].
    subst. rewrite !commands_app, H.
    repeat match goal with
           | Hr : getCommandOutputFromContainer _ _ _ _ _ = (Ok _, _) |- _ =>
               apply commands_runner_ok in Hr; rewrite Hr; clear Hr
           | Hl : console_log _ _ = (Ok _, _) |- _ =>
               apply log_ok in Hl; rewrite Hl; clear Hl
           end.
    reflexivity.
Qed.

End KeyedCommands.

Lemma keyed_extractors_command_count_witness :
  let target := "vscdc--extract--1617235200000" in
  let goLog := "go: downloading golang.org/x/tools/gopls v0.6.4" ++ str LF in
  let env := Sample.plainEnv [Sample.framed goLog; Sample.framed "v0.2.1"] in
  let requested :=
    [("golang.org/x/tools/gopls", None);
     ("mvdan.cc/gofumpt", Some "gofumpt --version");
     ("honnef.co/go/tools", None)] in
  exists records ev,
    getGoPackageInfo env target (Some requested) [] = (Ok records, ev)
    /\ commands ev = 2.
Proof.
  intros target goLog env requested.
  destruct (getGoPackageInfo env target (Some requested) []) as [r ev] eqn:E.
  assert (Hr : exists records, r = Ok records).
  { vm_compute in E. injection E as <- _. eexists. reflexivity. }
  destruct Hr as [records ->]. exists records, ev. split; [reflexivity|].
  apply (proj2 (proj2 (proj2 (keyed_extractors_command_count env target [] ev records)))
           (Some requested) E).
Defined.

(* ========================================================================= *)
(** * Records of the extractors *)

Lemma Forall2_in_impl {A B} (P Q : A -> B -> Prop) (xs : list A) (ys : list B) :
  Forall2 P xs ys ->
  (forall x y, In x xs -> P x y -> Q x y) ->
  Forall2 Q xs ys.
Proof.
  intro H. induction H as [|x y xs ys Hxy _ IH]; intro Himpl; constructor.
  - apply Himpl; [left; reflexivity | exact Hxy].
  - apply IH. intros x' y' Hin. apply Himpl. right. exact Hin.
Qed.

(** ** npm *)

Section Npm.
Variable env : Env.

(** C6.  For a requested name the callback takes the entry of that name at
    the top level of the parsed tree; if there is none, it goes through the
    top-level packages in order and takes the first entry of that name among
    the dependencies of one of them, one level down and no deeper.  An entry
    with a version gives a record whose name is the requested name and whose
    version is that version; no entry, or an entry without a version, is an
    error.  When every name of the merged list resolves, the extractor
    returns one such record for each name, in order; otherwise it fails with
    the error of the first name that does not resolve. *)
Theorem npm_package_resolution :
  forall (npmOutput : NpmOutput) (raw packageName : string) (top : Lookup.t NpmPackage),
    npm_dependencies npmOutput = Some top ->
    (forall p, Lookup.get top packageName = Some p ->
               npmPackageJson top packageName = Some p)
    /\ (Lookup.get top packageName = None ->
        (forall before k q after d p,
            top = (before ++ (k, q) :: after)%list ->
            npm_deps q = Some d ->
            Lookup.get d packageName = Some p ->
            (forall k' q' d', In (k', q') before -> npm_deps q' = Some d' ->
                              Lookup.get d' packageName = None) ->
            npmPackageJson top packageName = Some p)
        /\ ((forall k q d, In (k, q) top -> npm_deps q = Some d ->
                           Lookup.get d packageName = None) ->
            npmPackageJson top packageName = None))
    /\ (forall p v,
           npmPackageJson top packageName = Some p ->
           npm_version p = Some v -> v <> "" ->
           exists r,
             npmPackageInfo npmOutput raw packageName = Ok r
             /\ name r = packageName /\ version r = Some v)
    /\ ((npmPackageJson top packageName = None
         \/ exists p, npmPackageJson top packageName = Some p
                      /\ (npm_version p = None \/ npm_version p = Some "")) ->
        npmPackageInfo npmOutput raw packageName
        = Err (Error ("Unable to parse version for " ++ packageName
                      ++ " from npm ls output: " ++ raw)))
    /\ (forall target requested h ev,
           let names :=
             (orEmpty (getDefaultDependencies_names env "npm") ++ orEmpty requested)%list in
           let line :=
             Log "(*) Gathering information about globally installed npm packages..." in
           let command :=
             "bash -l -c 'set -e && npm ls --global --depth 1 --json "
             ++ fold_left (fun prev current => prev ++ " " ++ current) names ""
             ++ "' 2>/dev/null" in
           let resolves n :=
             exists p v, npmPackageJson top n = Some p
                         /\ npm_version p = Some v /\ v <> "" in
           names <> [] ->
           getCommandOutputFromContainer env target command false (h ++ [line])%list
           = (Ok raw, ev) ->
           JSON_parse_npm env raw = Some npmOutput ->
           ((forall n, In n names -> resolves n) ->
            exists records,
              getNpmGlobalPackageInfo env target requested h = (Ok records, line :: ev)
              /\ Forall2 (fun n r =>
                            name r = n
                            /\ exists p v, npmPackageJson top n = Some p
                                           /\ npm_version p = Some v
                                           /\ version r = Some v)
                   names records)
           /\ (forall before n after,
                  names = (before ++ n :: after)%list ->
                  (forall m, In m before -> resolves m) ->
                  ~ resolves n ->
                  getNpmGlobalPackageInfo env target requested h
                  = (Err (Error ("Unable to parse version for " ++ n
                                 ++ " from npm ls output: " ++ raw)),
                     line :: ev))
           /\ (forall n e,
                  In n names -> npmPackageInfo npmOutput raw n = Err e ->
                  exists e', fst (getNpmGlobalPackageInfo env target requested h) = Err e')).
Proof.
  intros npmOutput raw packageName top Htop.
  assert (Hrecord : forall n p v,
             npmPackageJson top n = Some p -> npm_version p = Some v -> v <> "" ->
             exists r, npmPackageInfo npmOutput raw n = Ok r
                       /\ name r = n /\ version r = Some v).
  { intros n p v Hp Hv Hne. unfold npmPackageInfo. rewrite Htop, Hp, Hv.
    simpl. unfold JsString.truthy.
    destruct (String.eqb_spec v "") as [->|_]; [contradiction|].
    eexists. split; [reflexivity|]. split; reflexivity. }
  assert (Herror : forall n,
             (npmPackageJson top n = None
              \/ exists p, npmPackageJson top n = Some p
                           /\ (npm_version p = None \/ npm_version p = Some "")) ->
             npmPackageInfo npmOutput raw n
             = Err (Error ("Unable to parse version for " ++ n
                           ++ " from npm ls output: " ++ raw))).
  { intros n [Hnone | (p & Hp & Hv)]; unfold npmPackageInfo; rewrite Htop.
    - rewrite Hnone. reflexivity.
    - rewrite Hp. destruct Hv as [Hv|Hv]; rewrite Hv; reflexivity. }
  split; [|split; [|split; [|split]]].
  - intros p Hp. unfold npmPackageJson. rewrite Hp. reflexivity.
  - intro Habsent. unfold npmPackageJson. rewrite Habsent. split.
    + intros before k q after d p -> Hd Hp Hnone.
      eapply npmNestedLookup_first_hit; eassumption.
    + apply npmNestedLookup_no_hit.
  - apply Hrecord.
  - apply Herror.
  - intros target requested h ev names line command resolves Hne Hrun Hparse.
    assert (E : getNpmGlobalPackageInfo env target requested h =
                (traverse (npmPackageInfo npmOutput raw) names, line :: ev)).
    { assert (Hlen : (List.length names =? 0)%nat = false).
      { destruct names; [contradiction | reflexivity]. }
      unfold getNpmGlobalPackageInfo. fold names. rewrite Hlen.
      unfold bind at 1 2. unfold console_log. fold line.
      subst command. rewrite Hrun, Hparse, mapM_lift. rewrite !app_nil_r.
      reflexivity. }
    rewrite E. cbn [fst]. split; [|split].
    + intro Hall.
      destruct (traverse_all_ok (npmPackageInfo npmOutput raw) names) as (records & Hrecords & Hshape).
      { intros n Hn. destruct (Hall n Hn) as (p & v & Hp & Hv & Hv').
        destruct (Hrecord n p v Hp Hv Hv') as (r & Hr & _). exists r. exact Hr. }
      exists records. rewrite Hrecords. split; [reflexivity|].
      eapply Forall2_in_impl; [exact Hshape|].
      intros n r Hn Hr. cbv beta in Hr.
      destruct (Hall n Hn) as (p & v & Hp & Hv & Hv').
      destruct (Hrecord n p v Hp Hv Hv') as (r' & Hr' & Hname & Hversion).
      rewrite Hr in Hr'. injection Hr' as <-.
      split; [exact Hname|]. exists p, v. repeat split; assumption.
    + intros before n after Hnames Hbefore Hn. rewrite Hnames.
      erewrite traverse_first_failure; [reflexivity| |].
      * intros m Hm. destruct (Hbefore m Hm) as (p & v & Hp & Hv & Hv').
        destruct (Hrecord m p v Hp Hv Hv') as (r & Hr & _). exists r. exact Hr.
      * apply Herror. destruct (npmPackageJson top n) as [p|] eqn:Hp; [|left; reflexivity].
        right. exists p. split; [reflexivity|].
        destruct (npm_version p) as [v|] eqn:Hv; [|left; reflexivity].
        right. destruct (String.eqb_spec v "") as [->|Hne']; [reflexivity|].
        exfalso. apply Hn. exists p, v. repeat split; assumption.
    + intros n e Hin He. eapply traverse_some_err; eassumption.
Qed.

End Npm.

Lemma npm_package_resolution_witness :
  let target := "vscdc--extract--1617235200000" in
  let env :=
    Sample.sampleEnv [Sample.framed Sample.nestedTreeText]
      Sample.noDefaults Sample.noDefaults (Some Sample.nestedTree) None in
  npmPackageJson Sample.nestedTop "a" = Some (NpmNode (Some "1.0.0") None)
  /\ (exists r,
        npmPackageInfo Sample.nestedTree Sample.nestedTreeText "a" = Ok r
        /\ name r = "a" /\ version r = Some "1.0.0")
  /\ npmPackageInfo Sample.nestedTree Sample.nestedTreeText "c"
     = Err (Error ("Unable to parse version for c from npm ls output: "
                   ++ Sample.nestedTreeText))
  /\ (exists a b,
        fst (getNpmGlobalPackageInfo env target (Some ["a"; "b"]) []) = Ok [a; b]
        /\ name a = "a" /\ version a = Some "1.0.0"
        /\ name b = "b" /\ version b = Some "2.0.0")
  /\ fst (getNpmGlobalPackageInfo env target (Some ["a"; "c"; "b"]) [])
     = Err (Error ("Unable to parse version for c from npm ls output: "
                   ++ Sample.nestedTreeText)).
Proof.
  intros target env.
  destruct (@npm_package_resolution env Sample.nestedTree Sample.nestedTreeText "a"
              Sample.nestedTop eq_refl) as (_ & Hnested & Hrecord & _ & Hrun).
  destruct (@npm_package_resolution env Sample.nestedTree Sample.nestedTreeText "c"
              Sample.nestedTop eq_refl) as (_ & Habsent & _ & Herror & _).
  assert (Ha : npmPackageJson Sample.nestedTop "a" = Some (NpmNode (Some "1.0.0") None)).
  { apply (proj1 (Hnested eq_refl) [] "b" (NpmNode (Some "2.0.0")
             (Some [("a", NpmNode (Some "1.0.0") None)])) []
             [("a", NpmNode (Some "1.0.0") None)]); try reflexivity.
    intros k' q' d' []. }
  split; [exact Ha|]. split; [|split; [|split]].
  - apply (Hrecord _ "1.0.0" Ha); [reflexivity | discriminate].
  - apply Herror. left. apply (proj2 (Habsent eq_refl)).
    intros k q d [Heq|[]] Hd. inversion Heq; subst. inversion Hd; subst. reflexivity.
  - destruct (proj1 (Hrun target (Some ["a"; "b"]) []
                       [Spawn "docker"
                          (runArgs target
                             "bash -l -c 'set -e && npm ls --global --depth 1 --json  a b' 2>/dev/null"
                             false) pipe]
                       ltac:(discriminate) eq_refl eq_refl))
      as (records & Hrecords & Hshape).
    { intros n [<-|[<-|[]]]; eexists; eexists; (split; [reflexivity|]);
        (split; [reflexivity | discriminate]). }
    inversion Hshape as [|n1 a names1 rest1 (Hna & pa & va & Hpa & Hva & Hra) Hrest1]; subst.
    inversion Hrest1 as [|n2 b names2 rest2 (Hnb & pb & vb & Hpb & Hvb & Hrb) Hrest2]; subst.
    inversion Hrest2; subst.
    exists a, b. rewrite Hrecords. split; [reflexivity|].
    vm_compute in Hpa. injection Hpa as <-. vm_compute in Hva. injection Hva as <-.
    vm_compute in Hpb. injection Hpb as <-. vm_compute in Hvb. injection Hvb as <-.
    repeat split; assumption.
  - pose proof (proj1 (proj2 (Hrun target (Some ["a"; "c"; "b"]) []
                       [Spawn "docker"
                          (runArgs target
                             "bash -l -c 'set -e && npm ls --global --depth 1 --json  a c b' 2>/dev/null"
                             false) pipe]
                       ltac:(discriminate) eq_refl eq_refl)) ["a"] "c" ["b"] eq_refl)
      as Hfail.
    rewrite Hfail; [reflexivity | |].
    + intros m [<-|[]]. eexists; eexists; (split; [reflexivity|]);
        (split; [reflexivity | discriminate]).
    + intros (p & v & Hp & _). vm_compute in Hp. discriminate Hp.
Defined.

(** ** Running a loop in two parts *)

Lemma foldM_app_run {A B} (step : B -> A -> M B) (xs ys : list A) :
  forall (acc acc' : B) (h ev : list Event),
    foldM step xs acc h = (Ok acc', ev) ->
    foldM step (xs ++ ys)%list acc h
    = (fst (foldM step ys acc' (h ++ ev)%list),
       (ev ++ snd (foldM step ys acc' (h ++ ev)%list))%list).
Proof.
  induction xs as [|x xs IH]; intros acc acc' h ev Hrun.
  - simpl in Hrun. injection Hrun as <- <-. rewrite app_nil_r. simpl.
    destruct (foldM step ys acc h). reflexivity.
  - simpl in Hrun. apply bind_ok in Hrun as (a & ev1 & ev2 & H1 & H2 & ->).
    simpl. rewrite (@bind_run_ok _ _ _ _ _ _ _ H1).
    rewrite (IH _ _ _ _ H2). cbn [fst snd]. rewrite <- !app_assoc. reflexivity.
Qed.

(** ** Versions of cargo and go entries *)

Section CargoGo.
Variable env : Env.
Variable target : string.

Lemma cargoPackage_run (acc : list PackageInfo) (crate : string) (probe : option string)
    (h ev : list Event) (out : string) :
  let line := Log ("(*) Getting version for " ++ crate ++ "...") in
  getCommandOutputFromContainer env target (cargoVersionCommand crate probe)
    false (h ++ [line])%list = (Ok out, ev) ->
  (forall g,
      RegExp_exec env semverPattern "m" out = ReMatch g ->
      exists r,
        cargoPackage env target acc (crate, probe) h = (Ok (acc ++ [r])%list, line :: ev)
        /\ name r = crate /\ version r = group g 0)
  /\ (RegExp_exec env semverPattern "m" out = ReNull ->
      cargoPackage env target acc (crate, probe) h
      = (Err (Error ("Could not extract information about crate " ++ crate)),
         line :: ev)).
Proof.
  intros line Hrun. split.
  - intros g Hg. eexists. unfold cargoPackage, bind, console_log. fold line.
    rewrite Hrun, Hg. unfold ret. rewrite app_nil_r.
    split; [reflexivity|]. split; reflexivity.
  - intro Hg. unfold cargoPackage, bind, console_log. fold line.
    rewrite Hrun, Hg. unfold throw. rewrite app_nil_r. reflexivity.
Qed.

Lemma cargoPackage_version acc x h acc' ev :
  cargoPackage env target acc x h = (Ok acc', ev) ->
  exists r,
    acc' = (acc ++ [r])%list
    /\ name r = fst x
    /\ exists h' out ev' g,
         getCommandOutputFromContainer env target
           (cargoVersionCommand (fst x) (snd x)) false h' = (Ok out, ev')
         /\ RegExp_exec env semverPattern "m" out = ReMatch g
         /\ version r = group g 0.
Proof.
  intro H. destruct x as [crate probe]. unfold cargoPackage in H.
  run_inv; subst. eexists. split; [reflexivity|]. split; [reflexivity|].
  do 4 eexists. split; [eassumption|]. split; [eassumption | reflexivity].
Qed.

Lemma goPackage_without_probe (log : string) (acc : list PackageInfo)
    (packageName : string) (probe : option string) (h : list Event) :
  JsString.truthy_opt probe = false ->
  goPackage env target log acc (packageName, probe) h
  = match RegExp_exec env (goPattern packageName) "" log with
    | ReSyntaxError => (Err (SyntaxError "Invalid regular expression"), [])
    | ReNull =>
        (Ok (acc ++ [ {| name := packageName; version := Some "latest";
                         url := None; path := None; annotation := None;
                         poolUrl := None; poolKeyUrl := None; commitHash := None;
                         cgIgnore := None; markdownIgnore := None |} ])%list, [])
    | ReMatch g =>
        (Ok (acc ++ [ {| name := packageName; version := group g 1;
                         url := None; path := None; annotation := None;
                         poolUrl := None; poolKeyUrl := None; commitHash := None;
                         cgIgnore := None; markdownIgnore := None |} ])%list, [])
    end.
Proof.
  intro Hp.
  assert (E : goPackage env target log acc (packageName, probe) h =
              bind (goLogVersion env packageName log)
                (fun version => ret (acc ++ [nameVersion packageName version])%list) h).
  { unfold goPackage. destruct probe as [command|]; [|reflexivity].
    simpl in Hp. rewrite Hp. reflexivity. }
  rewrite E. unfold bind, goLogVersion.
  destruct (RegExp_exec env (goPattern packageName) "" log); reflexivity.
Qed.

Lemma goPackage_version log acc x h acc' ev :
  goPackage env target log acc x h = (Ok acc', ev) ->
  exists r,
    acc' = (acc ++ [r])%list
    /\ name r = fst x
    /\ if hasProbe x
       then exists command h' out ev',
              snd x = Some command
              /\ getCommandOutputFromContainer env target command false h'
                 = (Ok out, ev')
              /\ version r = Some out
       else match RegExp_exec env (goPattern (fst x)) "" log with
            | ReMatch g => version r = group g 1
            | ReNull => version r = Some "latest"
            | ReSyntaxError => False
            end.
Proof.
  intro H. destruct x as [packageName probe].
  destruct (hasProbe (packageName, probe)) eqn:Hp.
  - unfold hasProbe in Hp. cbn [snd] in Hp.
    destruct probe as [command|]; [|discriminate Hp]. cbn [JsString.truthy_opt] in Hp.
    unfold goPackage in H. rewrite Hp in H. run_inv; subst.
    eexists. split; [reflexivity|]. split; [reflexivity|].
    do 4 eexists. split; [reflexivity|]. split; [eassumption | reflexivity].
  - unfold hasProbe in Hp. cbn [snd] in Hp.
    rewrite (goPackage_without_probe log acc packageName probe h Hp) in H.
    cbn [fst].
    destruct (RegExp_exec env (goPattern packageName) "" log);
      [discriminate H | |]; injection H as <- _;
      (eexists; split; [reflexivity|]; split; reflexivity).
Qed.

Lemma go_entries_without_probe (log : string) (entries : Lookup.t (option string)) :
  (forall entry, In entry entries ->
                 hasProbe entry = false
                 /\ RegExp_exec env (goPattern (fst entry)) "" log <> ReSyntaxError) ->
  forall acc h,
    foldM (goPackage env target log) entries acc h
    = (Ok (acc ++
           map (fun entry =>
                  {| name := fst entry;
                     version :=
                       match RegExp_exec env (goPattern (fst entry)) "" log with
                       | ReMatch g => group g 1
                       | _ => Some "latest"
                       end;
                     url := None; path := None; annotation := None;
                     poolUrl := None; poolKeyUrl := None; commitHash := None;
                     cgIgnore := None; markdownIgnore := None |})
             entries)%list,
       []).
Proof.
  induction entries as [|[packageName probe] entries IH]; intros Hall acc h.
  - simpl. unfold ret. rewrite app_nil_r. reflexivity.
  - destruct (Hall _ (or_introl eq_refl)) as [Hp Hsyntax].
    unfold hasProbe in Hp. cbn [snd fst] in Hp, Hsyntax.
    cbn [foldM map fst].
    pose proof (goPackage_without_probe log acc packageName probe h Hp) as Hstep.
    destruct (RegExp_exec env (goPattern packageName) "" log) as [| |g];
      [contradiction | |];
      rewrite (@bind_run_ok _ _ _ _ _ _ _ Hstep);
      rewrite IH by (intros entry Hin; apply Hall; right; exact Hin);
      cbn [fst snd app]; rewrite <- app_assoc; reflexivity.
Qed.

(** C5, as the code has it.  The go extractor first reads the installer log
    with `cat /usr/local/etc/vscode-dev-containers/go.log`.  A go entry with a
    probe command takes the command's output as its version.  A go entry
    without a probe takes the first group of the name-specific pattern
    matched against the text of that log, and `latest` when the pattern does
    not match; a request without probes runs no command besides the reading
    of the log and raises no error.  A cargo entry runs its probe command, or
    `<name> --version` when it has none, and in both cases takes the match of
    the semantic-version pattern in the output as its version; the first
    entry without a match ends the cargo extractor with an error. *)
Theorem cargo_and_go_versions :
  forall (requested : option (Lookup.t (option string))) (h : list Event),
    let merged :=
      mergeDefaults (getDefaultDependencies_commands env "go") (orEmpty requested) in
    let goLine := Log "(*) Gathering information about go modules and packages..." in
    let cargoLine := Log "(*) Gathering information about cargo packages..." in
    let readLog :=
      getCommandOutputFromContainer env target
        "cat /usr/local/etc/vscode-dev-containers/go.log" false (h ++ [goLine])%list in
    (forall records ev,
        getGoPackageInfo env target requested h = (Ok records, ev) ->
        exists log ev0,
          readLog = (Ok log, ev0)
          /\ Forall2
               (fun entry r =>
                  name r = fst entry
                  /\ if hasProbe entry
                     then exists command h' out ev',
                            snd entry = Some command
                            /\ getCommandOutputFromContainer env target command false h'
                               = (Ok out, ev')
                            /\ version r = Some out
                     else match RegExp_exec env (goPattern (fst entry)) "" log with
                          | ReMatch g => version r = group g 1
                          | ReNull => version r = Some "latest"
                          | ReSyntaxError => False
                          end)
               merged records)
    /\ (forall log ev0,
           readLog = (Ok log, ev0) ->
           (forall entry, In entry merged ->
                          hasProbe entry = false
                          /\ RegExp_exec env (goPattern (fst entry)) "" log
                             <> ReSyntaxError) ->
           exists records,
             getGoPackageInfo env target requested h = (Ok records, goLine :: ev0)
             /\ Forall2
                  (fun entry r =>
                     name r = fst entry
                     /\ version r
                        = match RegExp_exec env (goPattern (fst entry)) "" log with
                          | ReMatch g => group g 1
                          | _ => Some "latest"
                          end)
                  merged records)
    /\ (forall log acc packageName command k out ev,
           JsString.truthy command = true ->
           getCommandOutputFromContainer env target command false k = (Ok out, ev) ->
           exists r,
             goPackage env target log acc (packageName, Some command) k
             = (Ok (acc ++ [r])%list, ev)
             /\ name r = packageName /\ version r = Some out)
    /\ (forall crate command,
           cargoVersionCommand crate None = crate ++ " --version"
           /\ (JsString.truthy command = true ->
               cargoVersionCommand crate (Some command) = command))
    /\ (forall acc crate probe k out ev,
           let line := Log ("(*) Getting version for " ++ crate ++ "...") in
           getCommandOutputFromContainer env target (cargoVersionCommand crate probe)
             false (k ++ [line])%list = (Ok out, ev) ->
           (forall g,
               RegExp_exec env semverPattern "m" out = ReMatch g ->
               exists r,
                 cargoPackage env target acc (crate, probe) k
                 = (Ok (acc ++ [r])%list, line :: ev)
                 /\ name r = crate /\ version r = group g 0)
           /\ (RegExp_exec env semverPattern "m" out = ReNull ->
               cargoPackage env target acc (crate, probe) k
               = (Err (Error ("Could not extract information about crate " ++ crate)),
                  line :: ev)))
    /\ (forall records ev,
           getCargoPackageInfo env target requested h = (Ok records, ev) ->
           Forall2
             (fun entry r =>
                name r = fst entry
                /\ exists h' out ev' g,
                     getCommandOutputFromContainer env target
                       (cargoVersionCommand (fst entry) (snd entry)) false h'
                     = (Ok out, ev')
                     /\ RegExp_exec env semverPattern "m" out = ReMatch g
                     /\ version r = group g 0)
             merged records)
    /\ (forall before crate probe after acc evb out ev,
           merged = (before ++ (crate, probe) :: after)%list ->
           foldM (cargoPackage env target) before [] (h ++ [cargoLine])%list
           = (Ok acc, evb) ->
           getCommandOutputFromContainer env target (cargoVersionCommand crate probe)
             false (((h ++ [cargoLine]) ++ evb)
                    ++ [Log ("(*) Getting version for " ++ crate ++ "...")])%list
           = (Ok out, ev) ->
           RegExp_exec env semverPattern "m" out = ReNull ->
           fst (getCargoPackageInfo env target requested h)
           = Err (Error ("Could not extract information about crate " ++ crate))).
Proof.
  intros requested h merged goLine cargoLine readLog.
  assert (Hlog : forall l k, console_log l k = (Ok tt, [Log l])) by reflexivity.
  split; [|split; [|split; [|split; [|split; [|split]]]]].
  - intros records ev H.
    unfold getGoPackageInfo, isFalsyObject in H. fold merged in H.
    apply bind_ok in H as (u & ev1 & ev2 & H1 & H2 & ->).
    injection H1 as _ <-.
    apply bind_ok in H2 as (log & ev0 & ev3 & Hread & Hfold & ->).
    exists log, ev0. split; [exact Hread|].
    eapply (foldM_selected (fun _ => true)) in Hfold;
      [|intros acc x k acc' ev' Hstep; cbv beta;
        destruct (goPackage_version _ _ _ _ Hstep) as (r & Hacc & Hr);
        exists r; split; [exact Hacc | exact Hr]].
    destruct Hfold as (rs & -> & Hrs). rewrite filter_all in Hrs. exact Hrs.
  - intros log ev0 Hread Hall.
    exists (map (fun entry =>
                   {| name := fst entry;
                      version :=
                        match RegExp_exec env (goPattern (fst entry)) "" log with
                        | ReMatch g => group g 1
                        | _ => Some "latest"
                        end;
                      url := None; path := None; annotation := None;
                      poolUrl := None; poolKeyUrl := None; commitHash := None;
                      cgIgnore := None; markdownIgnore := None |}) merged).
    split.
    + unfold getGoPackageInfo, isFalsyObject. fold merged.
      rewrite (@bind_run_ok _ _ _ _ _ _ _ (Hlog _ h)). fold goLine.
      unfold readLog in Hread. rewrite (@bind_run_ok _ _ _ _ _ _ _ Hread).
      rewrite (go_entries_without_probe log merged Hall).
      cbn [fst snd app]. rewrite app_nil_r. reflexivity.
    + clear. induction merged as [|entry entries IH]; constructor; [|exact IH].
      split; reflexivity.
  - intros log acc packageName command k out ev Ht Hrun.
    eexists. unfold goPackage. rewrite Ht. unfold bind. rewrite Hrun.
    unfold ret. rewrite !app_nil_r. split; [reflexivity|]. split; reflexivity.
  - intros crate command. split; [reflexivity|].
    intro Ht. unfold cargoVersionCommand. rewrite Ht. reflexivity.
  - intros acc crate probe k out ev line Hrun.
    apply cargoPackage_run. exact Hrun.
  - intros records ev H.
    unfold getCargoPackageInfo, isFalsyObject in H. fold merged in H.
    apply bind_ok in H as (u & ev1 & ev2 & H1 & Hfold & ->).
    eapply (foldM_selected (fun _ => true)) in Hfold;
      [|intros acc x k acc' ev' Hstep; cbv beta;
        destruct (cargoPackage_version _ _ _ Hstep) as (r & Hacc & Hr);
        exists r; split; [exact Hacc | exact Hr]].
    destruct Hfold as (rs & -> & Hrs). rewrite filter_all in Hrs. exact Hrs.
  - intros before crate probe after acc evb out ev Hmerged Hbefore Hrun Hnull.
    unfold getCargoPackageInfo, isFalsyObject. fold merged. rewrite Hmerged.
    rewrite (@bind_run_ok _ _ _ _ _ _ _ (Hlog _ h)). fold cargoLine. cbn [fst].
    rewrite (@foldM_app_run _ _ _ before ((crate, probe) :: after) _ _ _ _ Hbefore).
    cbn [fst foldM].
    rewrite (@bind_run_err _ _ _ _ _ _ _
               (proj2 (cargoPackage_run acc crate probe _ Hrun) Hnull)).
    reflexivity.
Qed.

End CargoGo.

(** A cargo entry with a probe command of its own: the version recorded is
    the part of the probe's output that looks like a version, not the
    output. *)
Lemma cargo_probe_output_is_not_the_version :
  let target := "vscdc--extract--1617235200000" in
  let env := Sample.plainEnv [Sample.framed "clippy 0.0.212 (2020-12-20)"] in
  let requested := Some [("clippy", Some "cargo clippy --version")] in
  exists r,
    getCargoPackageInfo env target requested []
    = (Ok [r],
       [Log "(*) Gathering information about cargo packages...";
        Log "(*) Getting version for clippy...";
        Spawn "docker" (runArgs target "cargo clippy --version" false) pipe])
    /\ fst (getCommandOutputFromContainer env target "cargo clippy --version" false
              [Log "(*) Gathering information about cargo packages...";
               Log "(*) Getting version for clippy..."])
       = Ok "clippy 0.0.212 (2020-12-20)"
    /\ name r = "clippy"
    /\ version r = Some "0.0.212"
    /\ version r <> Some "clippy 0.0.212 (2020-12-20)".
Proof.
  eexists. split; [vm_compute; reflexivity|].
  split; [vm_compute; reflexivity|].
  split; [reflexivity|]. split; [reflexivity | discriminate].
Qed.

Lemma cargo_and_go_versions_witness :
  let target := "vscdc--extract--1617235200000" in
  let goLog :=
    "go: downloading golang.org/x/tools/gopls v0.6.4" ++ str LF ++ "go: finished" in
  let env := Sample.plainEnv [Sample.framed goLog] in
  let requested :=
    Some [("golang.org/x/tools/gopls", None); ("honnef.co/go/tools", None)] in
  let cargoEnv := Sample.plainEnv [Sample.framed "clippy 0.0.212 (2020-12-20)"] in
  (exists gopls tools,
      getGoPackageInfo env target requested []
      = (Ok [gopls; tools],
         [Log "(*) Gathering information about go modules and packages...";
          Spawn "docker"
            (runArgs target "cat /usr/local/etc/vscode-dev-containers/go.log" false)
            pipe])
      /\ name gopls = "golang.org/x/tools/gopls" /\ version gopls = Some "0.6.4"
      /\ name tools = "honnef.co/go/tools" /\ version tools = Some "latest")
  /\ (exists r,
        cargoPackage cargoEnv target [] ("clippy", Some "cargo clippy --version") []
        = (Ok [r],
           [Log "(*) Getting version for clippy...";
            Spawn "docker" (runArgs target "cargo clippy --version" false) pipe])
        /\ name r = "clippy" /\ version r = Some "0.0.212")
  /\ (exists r,
        goPackage cargoEnv target goLog [] ("mvdan.cc/gofumpt", Some "gofumpt --version") []
        = (Ok [r], [Spawn "docker" (runArgs target "gofumpt --version" false) pipe])
        /\ name r = "mvdan.cc/gofumpt"
        /\ version r = Some "clippy 0.0.212 (2020-12-20)").
Proof.
  intros target goLog env requested cargoEnv.
  split; [|split].
  - destruct (cargo_and_go_versions env target requested [])
      as (_ & Htotal & _).
    destruct (Htotal goLog
                [Spawn "docker"
                   (runArgs target "cat /usr/local/etc/vscode-dev-containers/go.log" false)
                   pipe] eq_refl)
      as (records & Hrun & Hshape).
    { intros entry [<-|[<-|[]]]; (split; [reflexivity | vm_compute; discriminate]). }
    inversion Hshape as [|e1 gopls es1 rs1 [Hn1 Hv1] Hrest1]; subst.
    inversion Hrest1 as [|e2 tools es2 rs2 [Hn2 Hv2] Hrest2]; subst.
    inversion Hrest2; subst.
    exists gopls, tools. split; [exact Hrun|].
    vm_compute in Hv1. vm_compute in Hv2. repeat split; assumption.
  - destruct (cargo_and_go_versions cargoEnv target None [])
      as (_ & _ & _ & _ & Hcargo & _).
    apply (proj1 (Hcargo [] "clippy" (Some "cargo clippy --version") []
                    "clippy 0.0.212 (2020-12-20)"
                    [Spawn "docker" (runArgs target "cargo clippy --version" false) pipe]
                    eq_refl) [Some "0.0.212"]).
    reflexivity.
  - destruct (cargo_and_go_versions cargoEnv target None [])
      as (_ & _ & Hprobe & _).
    apply (Hprobe goLog [] "mvdan.cc/gofumpt" "gofumpt --version" []); reflexivity.
Defined.

(** ** Linux packages without a pool URL *)

Lemma settingsOf_last_entry (packageList : list PackageRequest) (packageName : string) :
  Lookup.get (settingsOf packageList) packageName
  = option_map requestSettings
      (find (fun r => String.eqb (requestName r) packageName) (rev packageList)).
Proof.
  induction packageList as [|r l IH] using rev_ind; [reflexivity|].
  rewrite settingsOf_snoc, get_set, rev_app_distr. cbn [rev app find].
  destruct (String.eqb (requestName r) packageName); [reflexivity | exact IH].
Qed.

Section LinuxPoolUrl.
Variable env : Env.

Lemma linuxPackageLine_missing_url
    (settings : Lookup.t DependencyInfoExtractionSettings)
    (params : LinuxPackageInfoExtractorParams) (uriOutput line : string)
    (acc : list PackageInfo) (h : list Event)
    (g : list (option string)) (packageName packageVersion : string) :
  JsString.trim line <> "" ->
  RegExp_exec env (lineRegEx params) "" (JsString.trim line) = ReMatch g ->
  group g 1 = Some packageName ->
  group g 2 = Some packageVersion ->
  RegExp_exec env (poolUriPattern params packageName packageVersion) "m" uriOutput
  = ReNull ->
  JsString.truthy_opt (getFallbackPoolUrl env packageName) = false ->
  let extractionSettings :=
    match Lookup.get settings packageName with
    | Some s => s
    | None => emptySettings
    end in
  linuxPackageLine env settings params uriOutput acc line h
  = (match dep_cgIgnore extractionSettings with
     | Some false => Err (Error "(!) No pool URL found to register package!")
     | _ =>
         Ok (acc ++
             [ {| name := packageName; version := Some packageVersion;
                  url := None; path := None;
                  annotation := dep_annotation extractionSettings;
                  poolUrl := None; poolKeyUrl := None; commitHash := None;
                  cgIgnore := Some true;
                  markdownIgnore := dep_markdownIgnore extractionSettings |} ])%list
     end,
     [Log ("(!) No URI found for " ++ packageName ++ " " ++ packageVersion ++ ".")]).
Proof.
  intros Hne Hline Hg1 Hg2 Huri Hfallback extractionSettings.
  unfold linuxPackageLine.
  destruct (String.eqb_spec (JsString.trim line) "") as [Heq|_]; [contradiction|].
  rewrite Hline, Hg1, Hg2. fold extractionSettings.
  unfold getPoolUrlFromPackageVersionListOutput.
  rewrite Huri, Hfallback. unfold bind, console_log, ret, throw, cgIgnoreOf.
  cbn [JsString.truthy_opt negb andb app].
  destruct (dep_cgIgnore extractionSettings) as [[|]|]; reflexivity.
Qed.

(** C7.  Let both commands of the Linux extractor succeed, and take a line
    of the version list, reached without an error, that the line pattern
    matches as a name and a version.  Suppose the pool pattern, with
    `${PACKAGE}` and `${VERSION}` replaced by the escaped name and version,
    does not match the output of the URI command, and there is no fallback
    URL for the name.  The settings of the package are those of the last
    entry of the merged package list with that name.  Then the line raises an
    error exactly when that entry says `cgIgnore: false`, and the error ends
    the extractor; in every other case, so also without a `cgIgnore` setting
    and without an entry, the record is added with `cgIgnore` true and
    without a pool URL, and the extractor goes on with the lines that follow.
    Either way the line logs that no URI was found and nothing else. *)
Theorem linux_missing_pool_url :
  forall (target : string) (packageList : list PackageRequest)
         (linuxDistroInfo : DistroInfo) (h ev1 ev2 evb : list Event)
         (versionOutput uriOutput : string) (before after : list string)
         (line : string) (acc : list PackageInfo)
         (g : list (option string)) (packageName packageVersion : string),
    let packageManager :=
      getLinuxPackageManagerForDistro env (Lookup.get linuxDistroInfo "id") in
    let merged :=
      (orEmpty (getDefaultDependencies_packages env packageManager) ++ packageList)%list in
    let params := getPackageInfoExtractorParams env packageManager in
    let tail := packageListCommandPart merged ++ " || echo 'Some packages were not found.'" in
    let line1 := Log "(*) Gathering information about Linux package versions..." in
    let line2 := Log "(*) Gathering information about Linux package download URLs..." in
    let loopStart := ((((h ++ [line1]) ++ ev1) ++ [line2]) ++ ev2)%list in
    let step := linuxPackageLine env (settingsOf merged) params uriOutput in
    let entry :=
      find (fun r => String.eqb (requestName r) packageName) (rev merged) in
    let setting :=
      match entry with
      | Some r => dep_cgIgnore (requestSettings r)
      | None => None
      end in
    let noUri :=
      Log ("(!) No URI found for " ++ packageName ++ " " ++ packageVersion ++ ".") in
    merged <> [] ->
    getCommandOutputFromContainer env target (listCommand params ++ tail) true
      (h ++ [line1])%list = (Ok versionOutput, ev1) ->
    getCommandOutputFromContainer env target (getUriCommand params ++ tail) true
      (((h ++ [line1]) ++ ev1) ++ [line2])%list = (Ok uriOutput, ev2) ->
    JsString.split LF versionOutput = (before ++ line :: after)%list ->
    foldM step before [] loopStart = (Ok acc, evb) ->
    JsString.trim line <> "" ->
    RegExp_exec env (lineRegEx params) "" (JsString.trim line) = ReMatch g ->
    group g 1 = Some packageName ->
    group g 2 = Some packageVersion ->
    RegExp_exec env
      (JsString.replaceFirst "${VERSION}" (sanitizedVersion packageVersion)
         (JsString.replaceFirst "${PACKAGE}" (sanitizedPackage packageName)
            (poolUriMatchRegEx params)))
      "m" uriOutput = ReNull ->
    JsString.truthy_opt (getFallbackPoolUrl env packageName) = false ->
    let lineRun := step acc line (loopStart ++ evb)%list in
    let run := getLinuxPackageInfo env target packageList linuxDistroInfo h in
    ((exists e, fst lineRun = Err e) <-> setting = Some false)
    /\ snd lineRun = [noUri]
    /\ (setting = Some false ->
        fst lineRun = Err (Error "(!) No pool URL found to register package!")
        /\ run = (Err (Error "(!) No pool URL found to register package!"),
                  (line1 :: ev1 ++ line2 :: ev2 ++ evb ++ [noUri])%list))
    /\ (setting <> Some false ->
        exists record,
          fst lineRun = Ok (acc ++ [record])%list
          /\ name record = packageName
          /\ version record = Some packageVersion
          /\ poolUrl record = None
          /\ poolKeyUrl record = None
          /\ cgIgnore record = Some true
          /\ annotation record
             = match entry with
               | Some r => dep_annotation (requestSettings r)
               | None => None
               end
          /\ markdownIgnore record
             = match entry with
               | Some r => dep_markdownIgnore (requestSettings r)
               | None => None
               end
          /\ fst run
             = fst (foldM step after (acc ++ [record])%list
                      ((loopStart ++ evb) ++ [noUri])%list)
          /\ (after = [] ->
              run = (Ok (acc ++ [record])%list,
                     (line1 :: ev1 ++ line2 :: ev2 ++ evb ++ [noUri])%list))).
Proof.
  intros target packageList linuxDistroInfo h ev1 ev2 evb versionOutput uriOutput
         before after line acc g packageName packageVersion
         packageManager merged params tail line1 line2 loopStart step entry setting noUri
         Hne Hrun1 Hrun2 Hsplit Hbefore Hline Hmatch Hg1 Hg2 Huri Hfallback lineRun run.
  (* the extractor, up to its loop *)
  assert (Hrun : run = (fst (foldM step (JsString.split LF versionOutput) [] loopStart),
                        (line1 :: ev1 ++ line2 :: ev2
                         ++ snd (foldM step (JsString.split LF versionOutput) []
                                   loopStart))%list)).
  { assert (Hlen : (List.length merged =? 0)%nat = false).
    { destruct merged; [contradiction | reflexivity]. }
    subst run. unfold getLinuxPackageInfo. fold packageManager. fold merged.
    rewrite Hlen. fold params.
    assert (Hlog : forall l k, console_log l k = (Ok tt, [Log l])) by reflexivity.
    rewrite (@bind_run_ok _ _ _ _ _ _ _ (Hlog _ h)). cbn [fst snd].
    fold line1. unfold tail in Hrun1, Hrun2.
    rewrite (@bind_run_ok _ _ _ _ _ _ _ Hrun1). cbn [fst snd].
    rewrite (@bind_run_ok _ _ _ _ _ _ _ (Hlog _ _)). cbn [fst snd].
    fold line2. rewrite (@bind_run_ok _ _ _ _ _ _ _ Hrun2). cbn [fst snd].
    fold step. fold loopStart. cbn [app]. rewrite <- ?app_assoc. reflexivity. }
  rewrite Hsplit in Hrun.
  rewrite (@foldM_app_run _ _ step before (line :: after) _ _ _ _ Hbefore) in Hrun.
  cbn [fst snd foldM] in Hrun.
  (* the line *)
  pose proof (@linuxPackageLine_missing_url (settingsOf merged) params uriOutput line acc
                (loopStart ++ evb)%list g packageName packageVersion
                Hline Hmatch Hg1 Hg2 Huri Hfallback) as E.
  cbv zeta in E. rewrite settingsOf_last_entry in E. fold entry in E.
  fold step in E. fold lineRun in E. fold noUri in E.
  assert (Hsetting :
            dep_cgIgnore match option_map requestSettings entry with
                         | Some s => s
                         | None => emptySettings
                         end = setting).
  { subst setting. destruct entry; reflexivity. }
  rewrite Hsetting in E.
  assert (Hannotation :
            dep_annotation match option_map requestSettings entry with
                           | Some s => s
                           | None => emptySettings
                           end
            = match entry with
              | Some r => dep_annotation (requestSettings r)
              | None => None
              end) by (destruct entry; reflexivity).
  assert (Hmarkdown :
            dep_markdownIgnore match option_map requestSettings entry with
                               | Some s => s
                               | None => emptySettings
                               end
            = match entry with
              | Some r => dep_markdownIgnore (requestSettings r)
              | None => None
              end) by (destruct entry; reflexivity).
  rewrite Hannotation, Hmarkdown in E. clear Hsetting Hannotation Hmarkdown.
  split; [|split; [|split]].
  - rewrite E. cbn [fst]. destruct setting as [[|]|]; split;
      try discriminate; try reflexivity;
      try (intros [e He]; discriminate He).
    intros _. eexists. reflexivity.
  - rewrite E. reflexivity.
  - intro Hs. rewrite Hs in E. split; [rewrite E; reflexivity|].
    rewrite Hrun. fold lineRun. rewrite (@bind_run_err _ _ _ _ _ _ _ E).
    reflexivity.
  - intro Hs.
    assert (E' : lineRun =
                 (Ok (acc ++
                      [ {| name := packageName; version := Some packageVersion;
                           url := None; path := None;
                           annotation :=
                             match entry with
                             | Some r => dep_annotation (requestSettings r)
                             | None => None
                             end;
                           poolUrl := None; poolKeyUrl := None; commitHash := None;
                           cgIgnore := Some true;
                           markdownIgnore :=
                             match entry with
                             | Some r => dep_markdownIgnore (requestSettings r)
                             | None => None
                             end |} ])%list,
                  [noUri])).
    { rewrite E. destruct setting as [[|]|]; [reflexivity | contradiction | reflexivity]. }
    eexists. split; [rewrite E'; reflexivity|].
    repeat (split; [reflexivity|]).
    rewrite Hrun. fold lineRun. rewrite (@bind_run_ok _ _ _ _ _ _ _ E').
    cbn [fst snd]. split; [reflexivity|].
    intros ->. cbn [foldM]. unfold ret. cbn [fst snd]. rewrite app_nil_r. reflexivity.
Qed.

End LinuxPoolUrl.

Lemma linux_missing_pool_url_witness :
  let target := "vscdc--extract--1617235200000" in
  let line := "libstdc++6" ++ str Sample.TAB ++ "1:10.2.1-6+b1" in
  let env := Sample.plainEnv [Sample.framed line; Sample.framed ""] in
  let strict :=
    BySettings {| dep_name := "libstdc++6"; dep_annotation := None;
                  dep_cgIgnore := Some false; dep_markdownIgnore := None |} in
  let distro := [("id", "debian")] in
  let tail := " libstdc++6 || echo 'Some packages were not found.'" in
  let events :=
    [Log "(*) Gathering information about Linux package versions...";
     Spawn "docker" (runArgs target (listCommand Sample.aptParams ++ tail) true) pipe;
     Log "(*) Gathering information about Linux package download URLs...";
     Spawn "docker" (runArgs target (getUriCommand Sample.aptParams ++ tail) true) pipe;
     Log "(!) No URI found for libstdc++6 1:10.2.1-6+b1."] in
  poolUriPattern Sample.aptParams "libstdc++6" "1:10.2.1-6+b1"
  = "'(.+)/pool/.+/libstdc\+\+6_1%3a10\.2\.1-6\+b1.*\.deb'"
  /\ getLinuxPackageInfo env target [ByName "libstdc++6"] distro []
     = (Ok [ {| name := "libstdc++6"; version := Some "1:10.2.1-6+b1";
                url := None; path := None; annotation := None;
                poolUrl := None; poolKeyUrl := None; commitHash := None;
                cgIgnore := Some true; markdownIgnore := None |} ],
        events)
  /\ fst (getLinuxPackageInfo env target [ByName "libstdc++6"; strict] distro [])
     = Err (Error "(!) No pool URL found to register package!")
  /\ (exists record,
        fst (getLinuxPackageInfo env target [strict; ByName "libstdc++6"] distro [])
        = Ok [record]
        /\ cgIgnore record = Some true).
Proof.
  intros target line env strict distro tail events. split; [reflexivity|].
  assert (Hline : JsString.trim line <> "") by (vm_compute; discriminate).
  split; [|split].
  - pose proof (@linux_missing_pool_url env target [ByName "libstdc++6"] distro []
                  [Spawn "docker" (runArgs target (listCommand Sample.aptParams ++ tail) true)
                     pipe]
                  [Spawn "docker" (runArgs target (getUriCommand Sample.aptParams ++ tail) true)
                     pipe]
                  [] line "" [] [] line []
                  [Some line; Some "libstdc++6"; Some "1:10.2.1-6+b1"]
                  "libstdc++6" "1:10.2.1-6+b1"
                  ltac:(discriminate) eq_refl eq_refl eq_refl eq_refl
                  Hline eq_refl eq_refl eq_refl eq_refl eq_refl)
      as (_ & _ & _ & Hrecord).
    destruct Hrecord as (record & Hstep & _ & _ & _ & _ & _ & _ & _ & _ & Hrun);
      [vm_compute; discriminate|].
    rewrite (Hrun eq_refl). vm_compute in Hstep. injection Hstep as <-. reflexivity.
  - pose proof (@linux_missing_pool_url env target [ByName "libstdc++6"; strict] distro []
                  [Spawn "docker"
                     (runArgs target
                        (listCommand Sample.aptParams ++ " libstdc++6" ++ tail) true)
                     pipe]
                  [Spawn "docker"
                     (runArgs target
                        (getUriCommand Sample.aptParams ++ " libstdc++6" ++ tail) true)
                     pipe]
                  [] line "" [] [] line []
                  [Some line; Some "libstdc++6"; Some "1:10.2.1-6+b1"]
                  "libstdc++6" "1:10.2.1-6+b1"
                  ltac:(discriminate) eq_refl eq_refl eq_refl eq_refl
                  Hline eq_refl eq_refl eq_refl eq_refl eq_refl)
      as (_ & _ & Hthrow & _).
    destruct (Hthrow eq_refl) as [_ Hrun]. rewrite Hrun. reflexivity.
  - pose proof (@linux_missing_pool_url env target [strict; ByName "libstdc++6"] distro []
                  [Spawn "docker"
                     (runArgs target
                        (listCommand Sample.aptParams ++ " libstdc++6" ++ tail) true)
                     pipe]
                  [Spawn "docker"
                     (runArgs target
                        (getUriCommand Sample.aptParams ++ " libstdc++6" ++ tail) true)
                     pipe]
                  [] line "" [] [] line []
                  [Some line; Some "libstdc++6"; Some "1:10.2.1-6+b1"]
                  "libstdc++6" "1:10.2.1-6+b1"
                  ltac:(discriminate) eq_refl eq_refl eq_refl eq_refl
                  Hline eq_refl eq_refl eq_refl eq_refl eq_refl)
      as (_ & _ & _ & Hrecord).
    destruct Hrecord as (record & _ & _ & _ & _ & _ & Hcg & _ & _ & _ & Hrun);
      [vm_compute; discriminate|].
    exists record. rewrite (Hrun eq_refl). split; [reflexivity | exact Hcg].
Defined.

(** ** Names and versions of the records *)




Section RecordNames.
Variable env : Env.
Variable target : string.






End RecordNames.



(** ** The distro mapping comes from the container *)

